(** * SimpleReactCam back end: gateway, image processor, message generator

    A shallow embedding of the three HTTP handlers of the housekeeping
    advisor back end and of their helper functions, together with the
    properties the specification states about them.

    Conventions of the embedding.
    - A parsed JSON document (what [request.get_json] and [response.json]
      return) is a value of [json]; Python's [None] is [JNull] and a [dict]
      with string keys is a finite map [gmap string json].
    - A Python [str] is a [string] holding its UTF-8 bytes.  Substring
      tests, [split] on an ASCII separator and concatenation commute with
      UTF-8 encoding, so they are performed on the bytes.
    - A Python [float] is a finite binary64 number and is modelled by the
      rational number of [Q] that is its exact value.  A decimal literal of
      the source, such as [0.6], denotes the binary64 number nearest to it,
      written [double 0.6]; comparisons are those of the exact values, and
      [round(x, 2)] and [f"{x:.2f}"] round the exact value half-to-even to
      hundredths, as CPython's correctly rounded conversions do.  Infinities,
      NaN and the sign of zero are not modelled.
    - A function that can raise returns a [result]: [Ok v] or [Raise e].
    - Remote collaborators (the vision and text-generation providers, the
      HTTP calls between the services) are arguments of the handlers. *)

From Stdlib Require Import String Ascii ZArith QArith Qabs Qpower List Lia Bool.
From Stdlib.Strings Require Import Byte.
From stdpp Require Import gmap strings list fin_maps pretty.

#[local] Set Warnings "-register-all".

(** ** Python values *)

Inductive json : Type :=
  | JNull
  | JBool (b : bool)
  | JInt (z : Z)
  | JFloat (q : Q)
  | JStr (s : string)
  | JArr (l : list json)
  | JObj (m : gmap string json).

(** [bool(v)]: the truth value Python gives to [v] in [if v] and [not v]. *)
Definition truthy (v : json) : bool :=
  match v with
  | JNull => false
  | JBool b => b
  | JInt z => negb (z =? 0)%Z
  | JFloat q => negb (Qnum q =? 0)%Z
  | JStr s => negb (String.eqb s "")
  | JArr l => match l with [] => false | _ :: _ => true end
  | JObj m => negb (bool_decide (m = ∅))
  end.

(** ** Exceptions *)

Inductive exn_class : Type :=
  | ValueError
  | TypeError
  | KeyError
  | IndexError
  | AttributeError
  | RequestException
  | OtherException.

(** An exception: its class and [str(e)]. *)
Record exn : Type := Exn { exn_kind : exn_class; exn_str : string }.

Inductive result (A : Type) : Type :=
  | Ok (a : A)
  | Raise (e : exn).
Arguments Ok {A} a.
Arguments Raise {A} e.

Definition bind {A B : Type} (r : result A) (k : A → result B) : result B :=
  match r with
  | Ok a => k a
  | Raise e => Raise e
  end.

Notation "'do' x <- r ; k" := (bind r (fun x => k))
  (at level 10, x name, r at level 100, k at level 200).

(** [[f(x) for x in l]], stopping at the first exception. *)
Fixpoint map_result {A B : Type} (f : A → result B) (l : list A) : result (list B) :=
  match l with
  | [] => Ok []
  | x :: l' => do y <- f x; do ys <- map_result f l'; Ok (y :: ys)
  end.

(** ** Strings *)

(** [s.startswith(p)] *)
Fixpoint starts_with (p s : string) : bool :=
  match p with
  | EmptyString => true
  | String a p' =>
      match s with
      | EmptyString => false
      | String b s' => Ascii.eqb a b && starts_with p' s'
      end
  end.

(** [needle in hay] *)
Fixpoint contains (needle hay : string) : bool :=
  starts_with needle hay ||
  match hay with
  | EmptyString => false
  | String _ hay' => contains needle hay'
  end.

(** [sep.join(l)] *)
Definition join (sep : string) (l : list string) : string := String.concat sep l.

(** [s.split(sep)] for a non-empty separator: the pieces between the
    successive left-to-right occurrences of [sep].  [skip] counts the
    characters of an occurrence still to be passed over and [cur] is the
    piece being accumulated. *)
Fixpoint split_go (sep : string) (skip : nat) (cur s : string) : list string :=
  match s with
  | EmptyString => [cur]
  | String c s' =>
      match skip with
      | S k => split_go sep k cur s'
      | O =>
          if starts_with sep s
          then cur :: split_go sep (String.length sep - 1) "" s'
          else split_go sep 0 (cur +:+ String c "") s'
      end
  end.

Definition split (sep s : string) : list string := split_go sep 0 "" s.

Definition is_upper (c : ascii) : bool :=
  (65 <=? nat_of_ascii c) && (nat_of_ascii c <=? 90).

(** [s.lower()] on the UTF-8 bytes.  ASCII capitals are mapped to small
    letters.  Two other code points have a lowercase form that contains an
    ASCII letter and are mapped as Python maps them: U+212A (Kelvin sign) to
    [k], and U+0130 to [i] followed by U+0307.  All remaining code points
    lowercase to code points outside ASCII and are left as they are: the
    result is only ever compared with, or searched for, ASCII words. *)
Definition kelvin_sign : string :=
  String "226" (String "132" (String "170" "")).
Definition capital_i_dot : string := String "196" (String "176" "").
Definition combining_dot : string := String "204" (String "135" "").

Fixpoint lower (s : string) : string :=
  match s with
  | EmptyString => EmptyString
  | String c s' =>
      if starts_with kelvin_sign s then
        match s' with
        | String _ (String _ r) => String "k" (lower r)
        | _ => String c (lower s')
        end
      else if starts_with capital_i_dot s then
        match s' with
        | String _ r => String "i" (combining_dot +:+ lower r)
        | _ => String c (lower s')
        end
      else if is_upper c then String (ascii_of_nat (nat_of_ascii c + 32)) (lower s')
      else String c (lower s')
  end.

(** ** Numbers *)

(** The integer nearest to [q], ties going to the even one. *)
Definition round_half_even (q : Q) : Z :=
  let n := Qnum q in
  let d := Zpos (Qden q) in
  let f := (n / d)%Z in
  match (2 * (n mod d) ?= d)%Z with
  | Lt => f
  | Gt => (f + 1)%Z
  | Eq => if Z.even f then f else (f + 1)%Z
  end.

(** [2 ** e] for an integer [e] of either sign. *)
Definition pow2 (e : Z) : Q := Qpower 2 e.

(** The exponent of the unit in the last place of the binary64 numbers
    around a positive [q]: 52 below the exponent of [q], and never below
    that of the subnormal numbers. *)
Definition ulp_exponent (q : Q) : Z :=
  let l := (Z.log2 (Qnum q) - Z.log2 (Zpos (Qden q)))%Z in
  let l := if Qle_bool (pow2 l) q then l else (l - 1)%Z in
  Z.max (l - 52) (-1074).

(** The binary64 number nearest to [q], ties going to the even significand:
    what a decimal literal denotes and what the conversion of a decimal
    string or of an integer to a [float] returns.  The exponent has no upper
    bound here; the conversions that can overflow check for it
    ([float_of_int]). *)
Definition double (q : Q) : Q :=
  if (Qnum q =? 0)%Z then 0
  else
    let e := ulp_exponent (Qabs q) in
    let m := round_half_even (Qabs q / pow2 e) in
    Qred ((if (Qnum q <? 0)%Z then -1 else 1) * (inject_Z m * pow2 e)).

(** [round(x, 2)]: the exact value of [x] is rounded half-to-even to
    hundredths, and the result is the [float] nearest to that decimal. *)
Definition round2 (x : Q) : Q := double (round_half_even (x * 100) # 100).

(** [float(n)] for an integer [n], as the format code [f] applies it: the
    nearest binary64 number, or an [OverflowError] when [n] rounds beyond
    the largest one. *)
Definition float_of_int (n : Z) : result Q :=
  if (2 ^ 1024 - 2 ^ 970 <=? Z.abs n)%Z
  then Raise (Exn OtherException "int too large to convert to float")
  else Ok (double (inject_Z n)).

Definition two_digits (n : Z) : string :=
  pretty (n / 10)%Z +:+ pretty (n mod 10)%Z.

(** [f"{x:.2f}"] *)
Definition format_fixed2 (x : Q) : string :=
  let n := Z.abs (round_half_even (x * 100)) in
  (if (Qnum x <? 0)%Z then "-" else "")
  +:+ pretty (n / 100)%Z +:+ "." +:+ two_digits (n mod 100)%Z.

(** ** Operations on parsed JSON values *)

(** [type(v).__name__] *)
Definition type_name (v : json) : string :=
  match v with
  | JNull => "NoneType"
  | JBool _ => "bool"
  | JInt _ => "int"
  | JFloat _ => "float"
  | JStr _ => "str"
  | JArr _ => "list"
  | JObj _ => "dict"
  end.

(** [v == s] for a string [s]: only an equal string compares equal. *)
Definition py_eq_str (v : json) (s : string) : bool :=
  match v with
  | JStr t => String.eqb t s
  | _ => false
  end.

(** [k in v] for a string [k].  The texts of the exceptions the interpreter
    raises are CPython's; no property below depends on them. *)
Definition py_in (k : string) (v : json) : result bool :=
  match v with
  | JObj m => Ok (bool_decide (is_Some (m !! k)))
  | JArr l => Ok (existsb (fun x => py_eq_str x k) l)
  | JStr s => Ok (contains k s)
  | _ => Raise (Exn TypeError
                  ("argument of type '" +:+ type_name v +:+ "' is not iterable"))
  end.

(** [v[k]] for a string [k] *)
Definition py_getitem (v : json) (k : string) : result json :=
  match v with
  | JObj m =>
      match m !! k with
      | Some x => Ok x
      | None => Raise (Exn KeyError ("'" +:+ k +:+ "'"))
      end
  | JArr _ => Raise (Exn TypeError "list indices must be integers or slices, not str")
  | JStr _ => Raise (Exn TypeError "string indices must be integers")
  | _ => Raise (Exn TypeError ("'" +:+ type_name v +:+ "' object is not subscriptable"))
  end.

(** [v.get(k, dflt)] *)
Definition py_get (v : json) (k : string) (dflt : json) : result json :=
  match v with
  | JObj m => Ok (default dflt (m !! k))
  | _ => Raise (Exn AttributeError
                  ("'" +:+ type_name v +:+ "' object has no attribute 'get'"))
  end.

(** [str(v)], as in [f"{v}"] and [format]: a string is itself; [str_repr]
    stands for Python's rendering of the other values. *)
Definition py_str (str_repr : json → string) (v : json) : string :=
  match v with
  | JStr s => s
  | _ => str_repr v
  end.

(** [for x in v]: the elements of a list, the characters of a string, the
    keys of a dict. *)
Definition py_iter (v : json) : result (list json) :=
  match v with
  | JArr l => Ok l
  | JStr s => Ok (map (fun c => JStr (String c "")) (list_ascii_of_string s))
  | JObj m => Ok (map (fun kv => JStr kv.1) (map_to_list m))
  | _ => Raise (Exn TypeError ("'" +:+ type_name v +:+ "' object is not iterable"))
  end.

(** [len(v)] *)
Definition py_len (v : json) : result nat :=
  match v with
  | JArr l => Ok (length l)
  | JStr s => Ok (String.length s)
  | JObj m => Ok (size m)
  | _ => Raise (Exn TypeError ("object of type '" +:+ type_name v +:+ "' has no len()"))
  end.

(** [hash(v)] is defined for every JSON value but lists and dicts. *)
Definition hashable (v : json) : bool :=
  match v with
  | JArr _ | JObj _ => false
  | _ => true
  end.

(** [except cls as e: handler] around a computation *)
Definition exn_class_eqb (a b : exn_class) : bool :=
  match a, b with
  | ValueError, ValueError | TypeError, TypeError | KeyError, KeyError
  | IndexError, IndexError | AttributeError, AttributeError
  | RequestException, RequestException | OtherException, OtherException => true
  | _, _ => false
  end.

Definition try_except {A : Type} (body : result A) (cls : exn_class)
    (handler : exn → result A) : result A :=
  match body with
  | Ok a => Ok a
  | Raise e => if exn_class_eqb (exn_kind e) cls then handler e else Raise e
  end.

(** ** HTTP *)

(** What a Flask view hands back: a body, a status and headers. *)
Inductive payload : Type :=
  | Text (s : string)
  | Json (v : json).

Record flask_response : Type := Response {
  status_code : Z;
  data : payload;
  headers : gmap string string
}.

(** The incoming request: [request.method], [request.headers] and
    [request.get_json(silent=True)] ([JNull] when there is no JSON body). *)
Record flask_request : Type := Request {
  method : string;
  req_headers : gmap string string;
  get_json : json
}.

(** [jsonify(v)] *)
Definition jsonify (v : json) : flask_response :=
  Response 200 (Json v) {[ "Content-Type" := "application/json" ]}.

(** A view returns either a response or a pair [(response, status)]. *)
Inductive view_result : Type :=
  | Plain (r : flask_response)
  | WithStatus (r : flask_response) (status : Z).

(** [make_response(r)] and [make_response(r, status)] *)
Definition make_response (rv : view_result) : flask_response :=
  match rv with
  | Plain r => r
  | WithStatus r status => Response status (data r) (headers r)
  end.

(** The reply of a service called with [requests.post]: [response.status_code],
    [response.text] and the outcome of [response.json()]. *)
Record http_reply : Type := HttpReply {
  reply_status : Z;
  reply_text : string;
  reply_json : result json
}.

(** * The API gateway (backend/api-gateway/src/main.py) *)

Module Gateway.

Definition VALID_SCENARIOS : list string := ["plant"; "closet"; "fridge"].

Definition validate_request (request_json : json) : result (bool * option string) :=
  if negb (truthy request_json) then
    Ok (false, Some "Request body is empty")
  else
    do has_scenario <- py_in "scenario" request_json;
    if negb has_scenario then
      Ok (false, Some "Missing 'scenario' field in request")
    else
      do scenario <- py_getitem request_json "scenario";
      if negb (existsb (py_eq_str scenario) VALID_SCENARIOS) then
        Ok (false, Some ("Invalid 'scenario' value. Must be one of: "
                         +:+ join ", " VALID_SCENARIOS))
      else
        do has_image_data <- py_in "image_data" request_json;
        if negb has_image_data then
          Ok (false, Some "Missing 'image_data' field in request")
        else
          do image_data <- py_getitem request_json "image_data";
          if negb (truthy image_data) then
            Ok (false, Some "Empty 'image_data' field in request")
          else
            Ok (true, None).

(** [handle_cors]: [request.headers.get("Origin", "*")] is echoed. *)
Definition handle_cors (request : flask_request) (response : view_result)
    : flask_response :=
  let origin := default "*" (req_headers request !! "Origin") in
  let response := make_response response in
  Response (status_code response) (data response)
    (<["Access-Control-Allow-Credentials" := "true"]>
     (<["Access-Control-Allow-Headers" := "Content-Type, Authorization"]>
      (<["Access-Control-Allow-Methods" := "POST, OPTIONS"]>
       (<["Access-Control-Allow-Origin" := origin]> (headers response))))).

Section Handler.

(** The environment of the process: the two service URLs, the HTTP client
    ([requests.post(url, json=payload, timeout=...)]) and [str()] on JSON
    values that are not strings. *)
Variable IMAGE_PROCESSOR_URL : string.
Variable MESSAGE_GENERATOR_URL : string.
Variable requests_post : string → json → result http_reply.
Variable str_repr : json → string.

Definition call_image_processor (image_data : json)
    : result (bool * json * option string) :=
  if String.eqb IMAGE_PROCESSOR_URL "" then
    Ok (false, JObj ∅, Some "Image processor URL not configured")
  else
    try_except
      (do response <- requests_post IMAGE_PROCESSOR_URL
                        (JObj {[ "image_data" := image_data ]});
       if negb (reply_status response =? 200)%Z then
         Ok (false, JObj ∅, Some ("Image processor error: " +:+ reply_text response))
       else
         do response_data <- reply_json response;
         do success <- py_get response_data "success" (JBool false);
         if negb (truthy success) then
           do error_msg <- py_get response_data "error" (JStr "Unknown error");
           Ok (false, JObj ∅, Some ("Image processor error: " +:+ py_str str_repr error_msg))
         else
           do analysis_result <- py_get response_data "data" (JObj ∅);
           Ok (true, analysis_result, None))
      RequestException
      (fun e => Ok (false, JObj ∅,
                    Some ("Error communicating with image processor: " +:+ exn_str e))).

Definition call_message_generator (scenario analysis_result : json)
    : result (bool * json * option string) :=
  if String.eqb MESSAGE_GENERATOR_URL "" then
    Ok (false, JStr "", Some "Message generator URL not configured")
  else
    try_except
      (do response <- requests_post MESSAGE_GENERATOR_URL
                        (JObj {[ "scenario" := scenario;
                                 "analysis_result" := analysis_result ]});
       if negb (reply_status response =? 200)%Z then
         Ok (false, JStr "", Some ("Message generator error: " +:+ reply_text response))
       else
         do response_data <- reply_json response;
         do success <- py_get response_data "success" (JBool false);
         if negb (truthy success) then
           do error_msg <- py_get response_data "error" (JStr "Unknown error");
           Ok (false, JStr "", Some ("Message generator error: " +:+ py_str str_repr error_msg))
         else
           do advice <- py_get response_data "advice" (JStr "");
           Ok (true, advice, None))
      RequestException
      (fun e => Ok (false, JStr "",
                    Some ("Error communicating with message generator: " +:+ exn_str e))).

(** An optional error message as a JSON value ([None] is [null]). *)
Definition json_of_error (error : option string) : json :=
  match error with
  | Some s => JStr s
  | None => JNull
  end.

Definition failure (error : json) : json :=
  JObj {[ "success" := JBool false; "error" := error ]}.

(** The body of the [try] block of [api_gateway]. *)
Definition handle_post (request : flask_request) : result flask_response :=
  let request_json := get_json request in
  do validation <- validate_request request_json;
  let '(is_valid, error_message) := validation in
  if negb is_valid then
    Ok (handle_cors request
          (WithStatus (jsonify (failure (json_of_error error_message))) 400))
  else
    do scenario <- py_getitem request_json "scenario";
    do image_data <- py_getitem request_json "image_data";
    do analysis <- call_image_processor image_data;
    let '(success, analysis_result, error) := analysis in
    if negb success then
      Ok (handle_cors request
            (WithStatus (jsonify (failure (json_of_error error))) 502))
    else
      do generation <- call_message_generator scenario analysis_result;
      let '(success, advice, error) := generation in
      if negb success then
        Ok (handle_cors request
              (WithStatus (jsonify (failure (json_of_error error))) 502))
      else
        Ok (handle_cors request
              (Plain (jsonify (JObj {[ "success" := JBool true;
                                       "advice" := advice ]})))).

Definition api_gateway (request : flask_request) : flask_response :=
  if String.eqb (method request) "OPTIONS" then
    handle_cors request
      (WithStatus (Response 200 (Text "")
                     {[ "Content-Type" := "text/html; charset=utf-8" ]}) 204)
  else if negb (String.eqb (method request) "POST") then
    handle_cors request
      (WithStatus (jsonify (failure (JStr "Only POST requests are supported"))) 405)
  else
    match handle_post request with
    | Ok response => response
    | Raise e =>
        handle_cors request
          (WithStatus
             (jsonify (failure (JStr ("Internal server error: " +:+ exn_str e))))
             500)
    end.

End Handler.

End Gateway.

(** * The message generator (backend/message-generator/src/main.py) *)

Module MessageGenerator.

Definition PROMPT_TEMPLATES : list (string * string) :=
  [ ("plant",
"
あなたは植物ケアの専門家です。提供された画像分析結果に基づいて、実用的で具体的な植物のケアアドバイスを提供してください。

画像分析結果:
- 検出されたラベル: {labels}
- 検出されたオブジェクト: {objects}
- 検出されたテキスト: {text}

以下の点を考慮したアドバイスを提供してください：
1. 植物の種類と状態（健康状態、成長段階など）
2. 水やり、日光、肥料に関する具体的なアドバイス
3. 見られる問題（黄色い葉、害虫など）とその解決策
4. 季節に応じたケアのヒント
5. 植物の配置や装飾に関する提案

回答は5つ以内の明確で実行可能なアドバイスにまとめ、箇条書きで提供してください。専門用語は避け、初心者にも理解できる言葉で説明してください。
");
    ("closet",
"
あなたは整理収納の専門家です。提供された画像分析結果に基づいて、クローゼットや収納スペースの整理に関する実用的で具体的なアドバイスを提供してください。

画像分析結果:
- 検出されたラベル: {labels}
- 検出されたオブジェクト: {objects}
- 検出されたテキスト: {text}

以下の点を考慮したアドバイスを提供してください：
1. スペースの効率的な活用方法
2. 衣類や小物の分類・整理システム
3. 季節に応じた収納の切り替え方
4. 使いやすさと見た目の美しさを両立させる方法
5. 持続可能な整理整頓の習慣づけ

回答は5つ以内の明確で実行可能なアドバイスにまとめ、箇条書きで提供してください。専門用語は避け、初心者にも理解できる言葉で説明してください。
");
    ("fridge",
"
あなたは食品管理と冷蔵庫整理の専門家です。提供された画像分析結果に基づいて、冷蔵庫の整理や食品管理に関する実用的で具体的なアドバイスを提供してください。

画像分析結果:
- 検出されたラベル: {labels}
- 検出されたオブジェクト: {objects}
- 検出されたテキスト: {text}

以下の点を考慮したアドバイスを提供してください：
1. 食品の適切な配置と保存方法
2. 食品の鮮度を保つためのヒント
3. 食品ロスを減らすための工夫
4. 冷蔵庫の清潔さを保つ方法
5. 検出された食材を使った簡単なレシピ提案

回答は5つ以内の明確で実行可能なアドバイスにまとめ、箇条書きで提供してください。専門用語は避け、初心者にも理解できる言葉で説明してください。
") ].

Definition DEFAULT_ADVICE : string :=
"
申し訳ありませんが、提供された画像からは具体的なアドバイスを生成できませんでした。
以下は一般的なハウスキーピングのヒントです：

1. 定期的な整理整頓：週に一度、使用頻度の低いアイテムを整理し、必要なものだけを手の届く場所に保管しましょう。

2. ゾーン分け：スペースをゾーンに分けて、関連するアイテムをまとめて保管することで、探す手間を省きます。

3. ラベリング：収納ボックスやコンテナにラベルを付けると、中身がすぐにわかり、片付けも簡単になります。

4. 「ワンイン・ワンアウト」ルール：新しいアイテムを購入したら、古いアイテムを一つ処分するルールを設けると、物が増えすぎるのを防げます。

5. 5分ルール：毎日5分だけ片付ける習慣をつけると、大掃除の負担が減り、常に整った空間を維持できます。

より具体的なアドバイスが必要な場合は、別の画像をアップロードしてみてください。
".

(** [PROMPT_TEMPLATES.keys()], in the order of the dict literal. *)
Definition template_keys : list string := map fst PROMPT_TEMPLATES.

(** [PROMPT_TEMPLATES[scenario]] *)
Fixpoint lookup_template (scenario : string) (templates : list (string * string))
    : option string :=
  match templates with
  | [] => None
  | (k, t) :: rest => if String.eqb scenario k then Some t else lookup_template scenario rest
  end.

(** [PROMPT_TEMPLATES.get(v)]: only a string can equal a key. *)
Definition template_of (v : json) : option string :=
  match v with
  | JStr s => lookup_template s PROMPT_TEMPLATES
  | _ => None
  end.

(** [v in PROMPT_TEMPLATES]: membership in a dict hashes [v] first. *)
Definition in_templates (v : json) : result bool :=
  if hashable v then Ok (bool_decide (is_Some (template_of v)))
  else Raise (Exn TypeError ("unhashable type: '" +:+ type_name v +:+ "'")).

(** [f"{v:.2f}"]: a number is printed with two decimals, an [int] (a
    [bool] being one) after its conversion to a [float], which overflows for
    the largest integers; a string has no format code [f]; the other values
    accept no format string at all. *)
Definition format_2f (v : json) : result string :=
  match v with
  | JFloat q => Ok (format_fixed2 q)
  | JInt z =>
      match float_of_int z with
      | Ok x => Ok (format_fixed2 x)
      | Raise e => Raise e
      end
  | JBool b => Ok (format_fixed2 (inject_Z (if b then 1 else 0)))
  | JStr _ => Raise (Exn ValueError "Unknown format code 'f' for object of type 'str'")
  | _ => Raise (Exn TypeError ("unsupported format string passed to "
                               +:+ type_name v +:+ ".__format__"))
  end.

(** [template.format(name=value, ...)] for a template whose replacement fields are
    plain names and that has no doubled brace, read left to right.  [field]
    is the name being read inside braces, if any. *)
Fixpoint format_go (kwargs : list (string * string)) (field : option string)
    (template : string) : result string :=
  match template with
  | EmptyString =>
      match field with
      | None => Ok ""
      | Some _ => Raise (Exn ValueError "expected '}' before end of string")
      end
  | String c rest =>
      match field with
      | Some name =>
          if Ascii.eqb c "}" then
            match lookup_template name kwargs with
            | Some v => do r <- format_go kwargs None rest; Ok (v +:+ r)
            | None => Raise (Exn KeyError ("'" +:+ name +:+ "'"))
            end
          else format_go kwargs (Some (name +:+ String c "")) rest
      | None =>
          if Ascii.eqb c "{" then format_go kwargs (Some "") rest
          else if Ascii.eqb c "}" then
            Raise (Exn ValueError "Single '}' encountered in format string")
          else do r <- format_go kwargs None rest; Ok (String c r)
      end
  end.

Definition str_format (template : string) (kwargs : list (string * string))
    : result string :=
  format_go kwargs None template.

(** The dict [format_analysis_result] returns.  Its [text] entry is the
    value found in the analysis result, which [format] turns into text. *)
Record formatted_result : Type := Formatted {
  labels : string;
  objects : string;
  text : json
}.

Definition none_ja : string := "なし".

(** The analysis result of the data model: labels and objects with a
    description or name and a score, and the detected text. *)
Record label : Type := Label { description : string; score : Q }.
Record detected_object : Type := DetectedObject { name : string; object_score : Q }.
Record AnalysisResult : Type := MkAnalysisResult {
  result_labels : list label;
  result_objects : list detected_object;
  result_text : string
}.

Definition label_json (l : label) : json :=
  JObj {[ "description" := JStr (description l); "score" := JFloat (score l) ]}.

Definition object_json (o : detected_object) : json :=
  JObj {[ "name" := JStr (name o); "score" := JFloat (object_score o) ]}.

(** The dict the image processor sends for an analysis result. *)
Definition analysis_json (r : AnalysisResult) : json :=
  JObj {[ "labels" := JArr (map label_json (result_labels r));
          "objects" := JArr (map object_json (result_objects r));
          "text" := JStr (result_text r) ]}.

(** How a label and an object are embedded in a prompt. *)
Definition embedded_label (l : label) : string :=
  description l +:+ " (" +:+ format_fixed2 (score l) +:+ ")".

Definition embedded_object (o : detected_object) : string :=
  name o +:+ " (" +:+ format_fixed2 (object_score o) +:+ ")".

(** What goes into the [labels] and [objects] fields of a template. *)
Definition or_none (s : string) : string :=
  if String.eqb s "" then none_ja else s.

(** The sentence that opens the template of a scenario and names the
    expert the model is to be. *)
Definition expert_role (scenario : string) : string :=
  if String.eqb scenario "plant" then "あなたは植物ケアの専門家です。"
  else if String.eqb scenario "closet" then "あなたは整理収納の専門家です。"
  else if String.eqb scenario "fridge" then "あなたは食品管理と冷蔵庫整理の専門家です。"
  else "".

(** The literal text of a template: its pieces between replacement
    fields. *)
Fixpoint template_segments (in_field : bool) (cur template : string) : list string :=
  match template with
  | EmptyString => [cur]
  | String c rest =>
      if in_field then
        if Ascii.eqb c "}" then template_segments false "" rest
        else template_segments true cur rest
      else if Ascii.eqb c "{" then cur :: template_segments true "" rest
      else template_segments false (cur +:+ String c "") rest
  end.

Definition segment (i : nat) (template : string) : string :=
  default "" (template_segments false "" template !! i).

Section Handler.

(** [str()] on JSON values that are not strings, the text-generation
    provider ([GenerativeModel(...).generate_content(prompt, ...).text],
    raising or not) and the outcome of [aiplatform.init()]. *)
Variable str_repr : json → string.
Variable generate_content : string → result string.
Variable aiplatform_init : result unit.

(** [f"{entry[key]} ({entry['score']:.2f})"] *)
Definition format_entry (key : string) (entry : json) : result string :=
  do name <- py_getitem entry key;
  do score <- py_getitem entry "score";
  do score_str <- format_2f score;
  Ok (py_str str_repr name +:+ " (" +:+ score_str +:+ ")").

Definition format_analysis_result (analysis_result : json) : result formatted_result :=
  do label_list <- py_get analysis_result "labels" (JArr []);
  do label_items <- py_iter label_list;
  do label_strs <- map_result (format_entry "description") label_items;
  let labels_str := join ", " label_strs in
  do object_list <- py_get analysis_result "objects" (JArr []);
  do object_items <- py_iter object_list;
  do object_strs <- map_result (format_entry "name") object_items;
  let objects_str := join ", " object_strs in
  do text_str <- py_get analysis_result "text" (JStr "");
  Ok (Formatted
        (if String.eqb labels_str "" then none_ja else labels_str)
        (if String.eqb objects_str "" then none_ja else objects_str)
        (if truthy text_str then text_str else JStr none_ja)).

Definition construct_prompt (scenario analysis_result : json) : result string :=
  do known <- in_templates scenario;
  if negb known then
    Raise (Exn ValueError ("Invalid scenario: " +:+ py_str str_repr scenario))
  else
    do formatted_result <- format_analysis_result analysis_result;
    match template_of scenario with
    | Some template =>
        str_format template
          [ ("labels", labels formatted_result);
            ("objects", objects formatted_result);
            ("text", py_str str_repr (text formatted_result)) ]
    | None => Raise (Exn KeyError ("'" +:+ py_str str_repr scenario +:+ "'"))
    end.

Definition generate_advice (prompt : string) : bool * string * option string :=
  match generate_content prompt with
  | Ok advice => (true, advice, None)
  | Raise e =>
      if contains "safety" (lower (exn_str e)) then
        (false, DEFAULT_ADVICE,
         Some ("Content blocked due to safety settings: " +:+ exn_str e))
      else
        (false, DEFAULT_ADVICE, Some ("Error generating advice: " +:+ exn_str e))
  end.

Definition validate_request (request_json : json) : result (bool * option string) :=
  if negb (truthy request_json) then
    Ok (false, Some "Request body is empty")
  else
    do has_scenario <- py_in "scenario" request_json;
    if negb has_scenario then
      Ok (false, Some "Missing 'scenario' field in request")
    else
      do scenario <- py_getitem request_json "scenario";
      do known <- in_templates scenario;
      if negb known then
        Ok (false, Some ("Invalid scenario: " +:+ py_str str_repr scenario
                         +:+ ". Must be one of: " +:+ join ", " template_keys))
      else
        do has_analysis <- py_in "analysis_result" request_json;
        if negb has_analysis then
          Ok (false, Some "Missing 'analysis_result' field in request")
        else
          Ok (true, None).

Definition json_of_option (o : option string) : json :=
  match o with
  | Some s => JStr s
  | None => JNull
  end.

Definition reply (success : bool) (advice error : json) : json :=
  JObj {[ "success" := JBool success; "advice" := advice; "error" := error ]}.

(** The summary of the analysis result that [generate_message] writes to
    the log: the lengths of its labels, objects and text. *)
Definition log_summary (analysis_result : json) : result unit :=
  do label_list <- py_get analysis_result "labels" (JArr []);
  do _ <- py_len label_list;
  do object_list <- py_get analysis_result "objects" (JArr []);
  do _ <- py_len object_list;
  do text_value <- py_get analysis_result "text" (JStr "");
  do _ <- py_len text_value;
  Ok tt.

(** The body of the [try] block of [generate_message]. *)
Definition handle_post (request : flask_request) : result view_result :=
  let request_json := get_json request in
  do validation <- validate_request request_json;
  let '(is_valid, error_message) := validation in
  if negb is_valid then
    Ok (WithStatus (jsonify (reply false JNull (json_of_option error_message))) 400)
  else
    do scenario <- py_getitem request_json "scenario";
    do analysis_result <- py_getitem request_json "analysis_result";
    do _ <- log_summary analysis_result;
    (* [get_credentials()] only writes to the log and returns [None];
       [initialize_vertex_ai()] is [aiplatform.init()] *)
    do _ <- aiplatform_init;
    do prompt <- construct_prompt scenario analysis_result;
    let '(success, advice, error) := generate_advice prompt in
    Ok (Plain (jsonify (reply success (JStr advice) (json_of_option error)))).

Definition generate_message (request : flask_request) : view_result :=
  if negb (String.eqb (method request) "POST") then
    WithStatus (jsonify (reply false JNull (JStr "Only POST requests are supported"))) 405
  else
    match handle_post request with
    | Ok rv => rv
    | Raise e =>
        match exn_kind e with
        | ValueError =>
            WithStatus (jsonify (reply false (JStr DEFAULT_ADVICE) (JStr (exn_str e)))) 400
        | _ =>
            WithStatus
              (jsonify (reply false (JStr DEFAULT_ADVICE)
                          (JStr ("Internal server error: " +:+ exn_str e))))
              500
        end
    end.

End Handler.

End MessageGenerator.

(** * Base64 decoding

    [base64.b64decode(s)] with its default [validate=False], as CPython's
    [binascii.a2b_base64] performs it: characters outside the alphabet are
    skipped, a pad character ends the input once it completes a quantum,
    and input that stops inside a quantum is an error. *)

Definition to_byte (n : N) : byte := byte_of_ascii (ascii_of_N n).

(** The 6-bit value of an alphabet character ([table_a2b_base64]). *)
Definition b64_value (c : ascii) : option N :=
  let n := N_of_ascii c in
  if ((65 <=? n) && (n <=? 90))%N then Some (n - 65)%N
  else if ((97 <=? n) && (n <=? 122))%N then Some (n - 97 + 26)%N
  else if ((48 <=? n) && (n <=? 57))%N then Some (n - 48 + 52)%N
  else if (n =? 43)%N then Some 62%N
  else if (n =? 47)%N then Some 63%N
  else None.

(** The decoding loop.  [quad_pos] is the position inside the current group
    of four characters, [leftchar] the bits carried over, [pads] the pad
    characters seen since the last data character and [written] the number
    of bytes produced so far. *)
Fixpoint a2b_base64_go (quad_pos : nat) (leftchar : N) (pads written : nat)
    (s : string) : result (list byte) :=
  match s with
  | EmptyString =>
      match quad_pos with
      | 0 => Ok []
      | 1 =>
          Raise (Exn ValueError
                   ("Invalid base64-encoded string: number of data characters ("
                    +:+ pretty (written / 3 * 4 + 1)
                    +:+ ") cannot be 1 more than a multiple of 4"))
      | _ => Raise (Exn ValueError "Incorrect padding")
      end
  | String c s' =>
      if Ascii.eqb c "=" then
        if (2 <=? quad_pos) && (4 <=? quad_pos + S pads) then Ok []
        else a2b_base64_go quad_pos leftchar
               (if 2 <=? quad_pos then S pads else pads) written s'
      else
        match b64_value c with
        | None => a2b_base64_go quad_pos leftchar pads written s'
        | Some this_ch =>
            match quad_pos with
            | 0 => a2b_base64_go 1 this_ch 0 written s'
            | 1 =>
                do r <- a2b_base64_go 2 (N.land this_ch 15) 0 (S written) s';
                Ok (to_byte (N.lor (N.shiftl leftchar 2) (N.shiftr this_ch 4)) :: r)
            | 2 =>
                do r <- a2b_base64_go 3 (N.land this_ch 3) 0 (S written) s';
                Ok (to_byte (N.lor (N.shiftl leftchar 4) (N.shiftr this_ch 2)) :: r)
            | _ =>
                do r <- a2b_base64_go 0 0 0 (S written) s';
                Ok (to_byte (N.lor (N.shiftl leftchar 6) this_ch) :: r)
            end
        end
  end.

(** The number of alphabet characters of a string. *)
Fixpoint data_characters (s : string) : nat :=
  match s with
  | EmptyString => 0
  | String c s' =>
      match b64_value c with
      | Some _ => S (data_characters s')
      | None => data_characters s'
      end
  end.

Definition is_ascii (s : string) : bool :=
  forallb (fun c => (N_of_ascii c <? 128)%N) (list_ascii_of_string s).

Definition b64decode (s : string) : result (list byte) :=
  if is_ascii s then a2b_base64_go 0 0 0 0 s
  else Raise (Exn ValueError "string argument should contain only ASCII characters").

(** * The image processor (backend/image-processor/src/main.py) *)

Module ImageProcessor.

Definition MIN_CONFIDENCE_SCORE : Q := double 0.6.

(** [image_data.split("base64,")[1]] *)
Definition after_marker (image_data : string) : result string :=
  match split "base64," image_data !! 1%nat with
  | Some part => Ok part
  | None => Raise (Exn IndexError "list index out of range")
  end.

(** The payload: what follows the marker when there is one. *)
Definition strip_marker (image_data : string) : result string :=
  if contains "base64," image_data
  then after_marker image_data
  else Ok image_data.

Definition decode_image (image_data : string) : result (list byte) :=
  match
    (do image_data <- strip_marker image_data;
     b64decode image_data)
  with
  | Ok image_bytes => Ok image_bytes
  | Raise e => Raise (Exn ValueError ("Invalid image data: " +:+ exn_str e))
  end.

(** [decode_image] applied to a request field of any JSON type.  On a value
    that is not a string the membership test, [split] or [b64decode] raises
    inside the [try], and the handler turns that into a [ValueError]. *)
Definition decode_image_json (image_data : json) : result (list byte) :=
  match image_data with
  | JStr s => decode_image s
  | _ =>
      match
        (do has_marker <- py_in "base64," image_data;
         if has_marker then
           Raise (Exn AttributeError
                    ("'" +:+ type_name image_data +:+ "' object has no attribute 'split'"))
         else
           Raise (Exn TypeError
                    ("argument should be a bytes-like object or ASCII string, not '"
                     +:+ type_name image_data +:+ "'")))
      with
      | Ok image_bytes => Ok image_bytes
      | Raise e => Raise (Exn ValueError ("Invalid image data: " +:+ exn_str e))
      end
  end.

(** An annotation of the vision provider ([EntityAnnotation],
    [LocalizedObjectAnnotation]): the fields the processor reads. *)
Record annotation : Type := Annotation {
  description : string;
  score : Q
}.

Record object_annotation : Type := ObjectAnnotation {
  name : string;
  object_score : Q
}.

(** [vision.ImageAnnotatorClient()]: its three detection calls. *)
Record vision_client : Type := VisionClient {
  label_detection : list byte → result (list annotation);
  object_localization : list byte → result (list object_annotation);
  text_detection : list byte → result (list annotation)
}.

Definition label_entry (label : annotation) : json :=
  JObj {[ "description" := JStr (description label);
          "score" := JFloat (round2 (score label)) ]}.

Definition object_entry (obj : object_annotation) : json :=
  JObj {[ "name" := JStr (name obj);
          "score" := JFloat (round2 (object_score obj)) ]}.

(** The loop over the label annotations. *)
Fixpoint collect_labels (annotations : list annotation) : list json :=
  match annotations with
  | [] => []
  | label :: rest =>
      if Qle_bool MIN_CONFIDENCE_SCORE (score label)
      then label_entry label :: collect_labels rest
      else collect_labels rest
  end.

Fixpoint collect_objects (annotations : list object_annotation) : list json :=
  match annotations with
  | [] => []
  | obj :: rest =>
      if Qle_bool MIN_CONFIDENCE_SCORE (object_score obj)
      then object_entry obj :: collect_objects rest
      else collect_objects rest
  end.

(** An entry of the analysis result whose score is the [float] nearest to
    a number of hundredths, of at least 60 hundredths, and is not below the
    threshold. *)
Definition retained (entry : json) : Prop :=
  ∃ (m : gmap string json) (n : Z),
    entry = JObj m
    ∧ m !! "score" = Some (JFloat (double (n # 100)))
    ∧ (60 ≤ n)%Z
    ∧ (MIN_CONFIDENCE_SCORE <= double (n # 100))%Q.

Definition validate_request (request_json : json) : result (bool * option string) :=
  if negb (truthy request_json) then
    Ok (false, Some "Request body is empty")
  else
    do has_image_data <- py_in "image_data" request_json;
    if negb has_image_data then
      Ok (false, Some "Missing 'image_data' field in request")
    else
      do image_data <- py_getitem request_json "image_data";
      if negb (truthy image_data) then
        Ok (false, Some "Empty 'image_data' field in request")
      else
        Ok (true, None).

Section Handler.

(** The outcome of constructing the vision client and of reading the API
    key from the secret store. *)
Variable ImageAnnotatorClient : result vision_client.
Variable get_vision_api_key : result string.

Definition analyze_image (image_bytes : list byte) : result json :=
  do client <- ImageAnnotatorClient;
  do label_response <- label_detection client image_bytes;
  do object_response <- object_localization client image_bytes;
  do text_response <- text_detection client image_bytes;
  let labels :=
    match label_response with
    | [] => []
    | _ :: _ => collect_labels label_response
    end in
  let objects :=
    match object_response with
    | [] => []
    | _ :: _ => collect_objects object_response
    end in
  let text :=
    match text_response with
    | [] => ""
    | first :: _ => description first
    end in
  Ok (JObj {[ "labels" := JArr labels;
              "objects" := JArr objects;
              "text" := JStr text ]}).

Definition reply (success : bool) (data error : json) : json :=
  JObj {[ "success" := JBool success; "data" := data; "error" := error ]}.

Definition json_of_option (o : option string) : json :=
  match o with
  | Some s => JStr s
  | None => JNull
  end.

(** The body of the [try] block of [process_image]. *)
Definition handle_post (request : flask_request) : result view_result :=
  let request_json := get_json request in
  do validation <- validate_request request_json;
  let '(is_valid, error_message) := validation in
  if negb is_valid then
    Ok (WithStatus (jsonify (reply false JNull (json_of_option error_message))) 400)
  else
    do image_data <- py_getitem request_json "image_data";
    do image_bytes <- decode_image_json image_data;
    do api_key <- get_vision_api_key;
    do analysis_results <- analyze_image image_bytes;
    Ok (Plain (jsonify (reply true analysis_results JNull))).

Definition process_image (request : flask_request) : view_result :=
  if negb (String.eqb (method request) "POST") then
    WithStatus (jsonify (reply false JNull (JStr "Only POST requests are supported"))) 405
  else
    match handle_post request with
    | Ok rv => rv
    | Raise e =>
        match exn_kind e with
        | ValueError => WithStatus (jsonify (reply false JNull (JStr (exn_str e)))) 400
        | _ =>
            WithStatus
              (jsonify (reply false JNull
                          (JStr ("Internal server error: " +:+ exn_str e))))
              500
        end
    end.

End Handler.

Definition SECRET_NAME : string := "vision-api-key".

(** [os.environ.get(name, "")] *)
Definition environ_get (environ : gmap string string) (name : string) : string :=
  default "" (environ !! name).

(** [get_vision_api_key].  [SecretManagerServiceClient] is the outcome of
    creating the client; the client maps the name of a secret version to
    [access_secret_version(...).payload.data.decode("UTF-8")], raising or
    not.  The handler of the [try] block logs and raises again. *)
Definition get_vision_api_key (environ : gmap string string)
    (SecretManagerServiceClient : result (string → result string)) : result string :=
  do client <- SecretManagerServiceClient;
  let project_id := environ_get environ "PROJECT_ID" in
  let project_id :=
    if String.eqb project_id "" then environ_get environ "GOOGLE_CLOUD_PROJECT"
    else project_id in
  if String.eqb project_id "" then
    Raise (Exn ValueError "Project ID not found in environment variables")
  else
    let name :=
      "projects/" +:+ project_id +:+ "/secrets/" +:+ SECRET_NAME
      +:+ "/versions/latest" in
    client name.

End ImageProcessor.

(** * The message generator of the advisor variant
    (ai-housekeeping-advisor/backend/message-generator/src/main.py) *)

Module AdvisorMessageGenerator.

(** [[x[key] for x in v[:n]]] *)
Definition top_items (n : nat) (key : string) (v : json) : result (list json) :=
  match v with
  | JArr l => map_result (fun x => py_getitem x key) (take n l)
  | JStr s =>
      map_result (fun x => py_getitem x key)
        (map (fun c => JStr (String c "")) (take n (list_ascii_of_string s)))
  | JObj _ => Raise (Exn TypeError "unhashable type: 'slice'")
  | _ => Raise (Exn TypeError ("'" +:+ type_name v +:+ "' object is not subscriptable"))
  end.

(** [', '.join(items)]: every item has to be a string. *)
Definition join_items (items : list json) : result string :=
  do strs <- map_result
               (fun x => match x with
                         | JStr s => Ok s
                         | _ => Raise (Exn TypeError
                                         ("sequence item: expected str instance, "
                                          +:+ type_name x +:+ " found"))
                         end) items;
  Ok (join ", " strs).

Section Prompt.

Variable str_repr : json → string.

Definition _construct_prompt (labels objects text properties context : json)
    : result string :=
  do environment_type <- py_get properties "environment_type" (JStr "unknown");
  do cleanliness_level <- py_get properties "cleanliness_level" (JStr "unknown");
  do organization_level <- py_get properties "organization_level" (JStr "unknown");
  do top_labels <- top_items 5 "description" labels;
  do top_objects <- top_items 10 "name" objects;
  do objects_str <- join_items top_objects;
  do labels_str <- join_items top_labels;
  let prompt :=
    "
    You are an expert housekeeping advisor. Based on the analysis of an image, provide practical, 
    specific housekeeping advice (cleaning, organizing, or cooking tips) for the user.
    
    Image Analysis:
    - Environment Type: "
    +:+ py_str str_repr environment_type +:+
    "
    - Cleanliness Level: "
    +:+ py_str str_repr cleanliness_level +:+
    "
    - Organization Level: "
    +:+ py_str str_repr organization_level +:+
    "
    - Key Items Detected: "
    +:+ objects_str +:+
    "
    - Key Features: "
    +:+ labels_str +:+
    "
    " in
  let prompt :=
    if truthy text
    then prompt +:+ "
- Text Visible in Image: " +:+ py_str str_repr text
    else prompt in
  let prompt :=
    if truthy context
    then prompt +:+ "

Additional Context from User: " +:+ py_str str_repr context
    else prompt in
  let prompt :=
    if py_eq_str environment_type "kitchen" then prompt +:+
"
        
Focus on:
        1. Food safety and hygiene
        2. Efficient organization of kitchen tools and appliances
        3. Cleaning techniques for different surfaces
        4. Meal preparation tips based on visible ingredients
        "
    else if py_eq_str environment_type "bathroom" then prompt +:+
"
        
Focus on:
        1. Hygiene and sanitation
        2. Mold and mildew prevention
        3. Efficient organization of toiletries
        4. Water conservation tips
        "
    else if py_eq_str environment_type "bedroom" then prompt +:+
"
        
Focus on:
        1. Organization and decluttering
        2. Bedding hygiene and maintenance
        3. Creating a restful environment
        4. Storage solutions
        "
    else if py_eq_str environment_type "living room" then prompt +:+
"
        
Focus on:
        1. Dust control and air quality
        2. Furniture arrangement and care
        3. Decluttering common areas
        4. Creating a welcoming space
        "
    else prompt in
  Ok (prompt +:+
"
    
Provide your advice in a friendly, conversational tone. Include:
    1. A brief assessment of the current state
    2. 3-5 specific, actionable recommendations
    3. Any quick tips or life hacks relevant to the situation
    
    Keep your response concise (250-350 words) and practical.
    ").

End Prompt.

End AdvisorMessageGenerator.

(** * The image processor of the advisor variant
    (ai-housekeeping-advisor/backend/image-processor/deploy/src/main.py) *)

Module AdvisorImageProcessor.

(** The dicts the processor builds have fixed keys and are records here. *)
Record label : Type := Label {
  description : string;
  score : Q;
  topicality : Q
}.

Record vertex : Type := Vertex { x : Q; y : Q }.

Record detected_object : Type := DetectedObject {
  name : string;
  object_score : Q;
  bounding_poly : list vertex
}.

Record rgb : Type := Rgb { red : Q; green : Q; blue : Q }.

Record color_entry : Type := ColorEntry {
  color : rgb;
  color_score : Q;
  pixel_fraction : Q
}.

(** The reply of [vision_client.annotate_image]: the fields the processor
    reads.  [image_properties] is absent when the provider sends none. *)
Record annotate_response : Type := AnnotateResponse {
  label_annotations : list label;
  localized_object_annotations : list detected_object;
  text_annotations : list string;
  image_properties : option (list color_entry)
}.

Record ImageAnalysisResponse : Type := MkImageAnalysisResponse {
  labels : list label;
  objects : list detected_object;
  text : option string;
  colors : list color_entry;
  properties : gmap string string
}.

(** A FastAPI handler returns its model or raises an [HTTPException]. *)
Inductive http_result (A : Type) : Type :=
  | Returned (a : A)
  | HTTPException (status_code : Z) (detail : string).
Arguments Returned {A} a.
Arguments HTTPException {A} status_code detail.

Definition mock_labels : list label :=
  [ Label "Kitchen" (double 0.95) (double 0.95);
    Label "Room" (double 0.92) (double 0.92);
    Label "Countertop" (double 0.88) (double 0.88);
    Label "Cabinetry" (double 0.85) (double 0.85);
    Label "Sink" (double 0.82) (double 0.82);
    Label "Appliance" (double 0.80) (double 0.80);
    Label "Clean" (double 0.75) (double 0.75) ].

Definition mock_objects : list detected_object :=
  [ DetectedObject "Sink" (double 0.92)
      [ Vertex (double 0.2) (double 0.3); Vertex (double 0.4) (double 0.3);
        Vertex (double 0.4) (double 0.5); Vertex (double 0.2) (double 0.5) ];
    DetectedObject "Refrigerator" (double 0.89)
      [ Vertex (double 0.6) (double 0.2); Vertex (double 0.8) (double 0.2);
        Vertex (double 0.8) (double 0.7); Vertex (double 0.6) (double 0.7) ];
    DetectedObject "Oven" (double 0.85)
      [ Vertex (double 0.1) (double 0.6); Vertex (double 0.3) (double 0.6);
        Vertex (double 0.3) (double 0.8); Vertex (double 0.1) (double 0.8) ] ].

Definition mock_text : string := "Kitchen with modern appliances".

Definition mock_colors : list color_entry :=
  [ ColorEntry (Rgb 255 255 255) (double 0.4) (double 0.3);
    ColorEntry (Rgb 200 200 200) (double 0.3) (double 0.2);
    ColorEntry (Rgb 50 50 50) (double 0.2) (double 0.1) ].

Definition environment_labels : gset string :=
  {[ "kitchen"; "bathroom"; "bedroom"; "living room"; "dining room" ]}.

Definition cleanliness_indicators : list (string * list string) :=
  [ ("clean", ["clean"; "tidy"; "organized"; "neat"; "spotless"]);
    ("moderate", ["lived in"; "used"; "normal"]);
    ("dirty", ["dirty"; "messy"; "cluttered"; "disorganized"; "stained"]) ].

(** The loop that looks for the first environment label. *)
Fixpoint scan_environment (labels : list label) (properties : gmap string string)
    : gmap string string :=
  match labels with
  | [] => properties
  | label :: rest =>
      if bool_decide (lower (description label) ∈ environment_labels)
      then <["environment_type" := lower (description label)]> properties
      else scan_environment rest properties
  end.

(** The inner loop of the cleanliness search, for one level. *)
Fixpoint scan_labels (level : string) (indicators : list string)
    (labels : list label) (properties : gmap string string) : gmap string string :=
  match labels with
  | [] => properties
  | label :: rest =>
      if existsb (fun indicator => contains indicator (lower (description label)))
           indicators
      then <["cleanliness_level" := level]> properties
      else scan_labels level indicators rest properties
  end.

(** The outer loop, over the levels in the order of the dict literal. *)
Fixpoint scan_cleanliness (levels : list (string * list string))
    (labels : list label) (properties : gmap string string) : gmap string string :=
  match levels with
  | [] => properties
  | (level, indicators) :: rest =>
      let properties := scan_labels level indicators labels properties in
      if negb (bool_decide (properties !! "cleanliness_level" = Some "unknown"))
      then properties
      else scan_cleanliness rest labels properties
  end.

Definition organization_level (objects : list detected_object) : string :=
  if 10 <? length objects then "cluttered"
  else if 5 <? length objects then "moderate"
  else "minimal".

Section Handler.

(** The module-level [vision_client]: [None] when the client could not be
    created at start-up, otherwise its [annotate_image] call. *)
Variable vision_client : option (list byte → result annotate_response).

(** The body of the [try] block of [process_image]. *)
Definition analyse (image_content : list byte) : result ImageAnalysisResponse :=
  do detected <-
    match vision_client with
    | Some annotate_image =>
        do response <- annotate_image image_content;
        let labels :=
          map (fun label => Label (description label) (score label) (topicality label))
            (label_annotations response) in
        let objects :=
          map (fun obj => DetectedObject (name obj) (object_score obj)
                            (map (fun v => Vertex (x v) (y v)) (bounding_poly obj)))
            (localized_object_annotations response) in
        let text :=
          match text_annotations response with
          | [] => None
          | first :: _ => Some first
          end in
        let colors :=
          match image_properties response with
          | Some dominant =>
              map (fun c => ColorEntry
                              (Rgb (red (color c)) (green (color c)) (blue (color c)))
                              (color_score c) (pixel_fraction c)) dominant
          | None => []
          end in
        Ok (labels, objects, text, colors)
    | None => Ok (mock_labels, mock_objects, Some mock_text, mock_colors)
    end;
  let '(labels, objects, text, colors) := detected in
  let properties : gmap string string :=
    {[ "environment_type" := "unknown";
       "cleanliness_level" := "unknown";
       "organization_level" := "unknown" ]} in
  let properties := scan_environment labels properties in
  let properties := scan_cleanliness cleanliness_indicators labels properties in
  let properties :=
    <["organization_level" := organization_level objects]> properties in
  Ok (MkImageAnalysisResponse labels objects text colors properties).

Definition process_image (image_content : list byte)
    : http_result ImageAnalysisResponse :=
  match analyse image_content with
  | Ok response => Returned response
  | Raise _ => HTTPException 500 "Error processing image"
  end.

End Handler.

End AdvisorImageProcessor.

(** * The advice handler of the advisor variant
    (ai-housekeeping-advisor/backend/message-generator/src/main.py) *)

Module AdvisorAdvice.

(** The double quote character. *)
Definition quote : string := String "034" "".

Definition mock_advice_kitchen : string :=
  ("
                Based on the image of your kitchen, here are some practical housekeeping tips:

                1. **Counter Organization**: Your countertops appear to have several appliances. Consider using a tiered shelf organizer to maximize vertical space and keep frequently used items accessible.

                2. **Sink Area**: Keep a small dish brush and eco-friendly soap dispenser by the sink for quick cleanup after meal preparation. This prevents buildup of dishes and makes daily maintenance easier.

                3. **Appliance Maintenance**: For stainless steel appliances, use a microfiber cloth with a drop of olive oil to remove fingerprints and add shine. This works better than commercial cleaners and is non-toxic.

                4. **Food Storage**: Implement a " +:+ quote +:+ "first in, first out" +:+ quote +:+ " system in your refrigerator and pantry to reduce food waste. Use clear containers to easily see what's inside.

                Quick Tip: Place a bowl of water with lemon and vinegar in the microwave for 2 minutes to easily clean stuck-on food and eliminate odors naturally.
                ").

Definition mock_advice_bathroom : string :=
  "
                Looking at your bathroom, here are some targeted housekeeping recommendations:

                1. **Shower Maintenance**: To prevent mildew and soap scum, keep a squeegee in the shower and spend 30 seconds wiping down walls after each use. This simple habit reduces deep cleaning frequency.

                2. **Towel Management**: Your towels appear to be hanging close together. Install additional hooks or a towel bar with more spacing to ensure proper drying and prevent musty odors.

                3. **Counter Organization**: Use small baskets or trays to group similar toiletries together. This not only looks neater but makes cleaning the counter surface much easier.

                4. **Ventilation**: Make sure to run your bathroom fan for 20-30 minutes after showering to reduce humidity and prevent mold growth.

                Quick Tip: A shower curtain liner can be refreshed by washing it with two towels on a gentle cycle with vinegar added to the detergent.
                ".

Definition mock_advice_bedroom : string :=
  ("
                Based on your bedroom image, here are some practical housekeeping suggestions:

                1. **Bedding Refresh**: Your bedding appears slightly rumpled. Consider using hospital corners when making your bed for a neater appearance, and rotate your mattress every 3-6 months for even wear.

                2. **Nightstand Organization**: Implement the " +:+ quote +:+ "one in, one out" +:+ quote +:+ " rule for your nightstand to prevent clutter accumulation. Keep only essentials within reach.

                3. **Clothing Management**: Designate a specific " +:+ quote +:+ "landing spot" +:+ quote +:+ " like a decorative basket for clothes that have been worn but aren't ready for washing yet. This prevents them from ending up on chairs or the floor.

                4. **Air Quality**: Dust your ceiling fan blades and air vents regularly to improve air quality while you sleep. A pillowcase works perfectly for catching dust from fan blades.

                Quick Tip: Place a few drops of lavender essential oil on a cotton ball and tuck it inside your pillowcase for better sleep quality and a naturally fresh scent.
                ").

Definition mock_advice_other : string :=
  ("
                Based on the image of your home environment, here are some practical housekeeping recommendations:

                1. **Surface Cleaning**: For general surfaces, keep a spray bottle with equal parts water and white vinegar with a few drops of dish soap. This all-purpose cleaner works on most surfaces and is non-toxic.

                2. **Organization Strategy**: Implement the " +:+ quote +:+ "touch it once" +:+ quote +:+ " rule - when you pick something up, put it where it belongs immediately rather than setting it down elsewhere temporarily.

                3. **Maintenance Schedule**: Create a simple rotating cleaning schedule where you focus on one area or task each day rather than trying to clean everything at once. This makes housekeeping more manageable.

                4. **Decluttering Method**: Use the four-box method (keep, donate, trash, relocate) when organizing any space. Set a timer for 15 minutes and sort items quickly to avoid decision fatigue.

                Quick Tip: Keep microfiber cloths in multiple rooms for quick cleanups. They trap dust better than paper towels and can be washed and reused hundreds of times.
                ").

Section Handler.

(** [str()] on JSON values that are not strings, the module-level flag
    [gemini_available] and the provider
    ([GenerativeModel(...).generate_content(prompt).text], raising or not). *)
Variable str_repr : json → string.
Variable gemini_available : bool.
Variable generate_content : string → result string.

(** The body of the outer [try] block of [generate_advice].  The request
    model gives [image_analysis] as a dict and [context] as a string or
    [None]. *)
Definition advise (image_analysis : gmap string json) (context : option string)
    : result string :=
  do labels <- py_get (JObj image_analysis) "labels" (JArr []);
  do objects <- py_get (JObj image_analysis) "objects" (JArr []);
  do text <- py_get (JObj image_analysis) "text" (JStr "");
  do properties <- py_get (JObj image_analysis) "properties" (JObj ∅);
  do prompt <-
    AdvisorMessageGenerator._construct_prompt str_repr labels objects text properties
      match context with
      | Some s => JStr s
      | None => JNull
      end;
  let use_mock_data := negb gemini_available in
  let '(advice, use_mock_data) :=
    if negb use_mock_data then
      match generate_content prompt with
      | Ok advice => (advice, use_mock_data)
      | Raise _ => ("", true)
      end
    else ("", use_mock_data) in
  if use_mock_data then
    do environment_type <- py_get properties "environment_type" (JStr "unknown");
    Ok (if py_eq_str environment_type "kitchen" then mock_advice_kitchen
        else if py_eq_str environment_type "bathroom" then mock_advice_bathroom
        else if py_eq_str environment_type "bedroom" then mock_advice_bedroom
        else mock_advice_other)
  else Ok advice.

Definition generate_advice (image_analysis : gmap string json)
    (context : option string) : AdvisorImageProcessor.http_result string :=
  match advise image_analysis context with
  | Ok advice => AdvisorImageProcessor.Returned advice
  | Raise _ => AdvisorImageProcessor.HTTPException 500 "Error generating advice"
  end.

End Handler.

End AdvisorAdvice.

(** * The gateway of the advisor variant
    (ai-housekeeping-advisor/backend/api-gateway/deploy/src/main.py) *)

Module AdvisorGateway.

Definition quote : string := String "034" "".

Definition mock_advice : string :=
  ("
            Based on the image of your kitchen, here are some practical housekeeping tips:

            1. **Counter Organization**: Your countertops appear to have several appliances. Consider using a tiered shelf organizer to maximize vertical space and keep frequently used items accessible.

            2. **Sink Area**: Keep a small dish brush and eco-friendly soap dispenser by the sink for quick cleanup after meal preparation. This prevents buildup of dishes and makes daily maintenance easier.

            3. **Appliance Maintenance**: For stainless steel appliances, use a microfiber cloth with a drop of olive oil to remove fingerprints and add shine. This works better than commercial cleaners and is non-toxic.

            4. **Food Storage**: Implement a " +:+ quote +:+ "first in, first out" +:+ quote +:+ " system in your refrigerator and pantry to reduce food waste. Use clear containers to easily see what's inside.

            Quick Tip: Place a bowl of water with lemon and vinegar in the microwave for 2 minutes to easily clean stuck-on food and eliminate odors naturally.
            ").

Definition mock_image_analysis : json :=
  JObj {[ "labels" := JArr [ JObj {[ "description" := JStr "Kitchen";
                  "score" := JFloat (double 0.95);
                  "topicality" := JFloat (double 0.95) ]};
             JObj {[ "description" := JStr "Room";
                  "score" := JFloat (double 0.92);
                  "topicality" := JFloat (double 0.92) ]};
             JObj {[ "description" := JStr "Countertop";
                  "score" := JFloat (double 0.88);
                  "topicality" := JFloat (double 0.88) ]} ];
          "objects" := JArr [ JObj {[ "name" := JStr "Sink";
                  "score" := JFloat (double 0.92) ]};
             JObj {[ "name" := JStr "Refrigerator";
                  "score" := JFloat (double 0.89) ]};
             JObj {[ "name" := JStr "Oven";
                  "score" := JFloat (double 0.85) ]} ];
          "colors" := JArr [ JObj {[ "color" := JObj {[ "red" := JInt 255;
                      "green" := JInt 255;
                      "blue" := JInt 255 ]};
                  "score" := JFloat (double 0.9);
                  "pixel_fraction" := JFloat (double 0.3) ]};
             JObj {[ "color" := JObj {[ "red" := JInt 200;
                      "green" := JInt 200;
                      "blue" := JInt 200 ]};
                  "score" := JFloat (double 0.7);
                  "pixel_fraction" := JFloat (double 0.2) ]} ];
          "properties" := JObj {[ "environment_type" := JStr "kitchen";
              "cleanliness_level" := JStr "moderate";
              "organization_level" := JStr "moderate" ]} ]}.

Record AdviceResponse : Type := MkAdviceResponse {
  advice : string;
  image_analysis : gmap string json
}.

(** What can end the [try] block of [analyze_image] early: an
    [httpx.RequestError], an [HTTPException] the block raises itself, or
    any other exception. *)
Inductive failure : Type :=
  | RequestError (message : string)
  | HTTPError (status_code : Z) (detail : string)
  | OtherError (e : exn).

Inductive attempt (A : Type) : Type :=
  | Done (a : A)
  | Failed (f : failure).
Arguments Done {A} a.
Arguments Failed {A} f.

Definition and_then {A B : Type} (r : attempt A) (k : A → attempt B) : attempt B :=
  match r with
  | Done a => k a
  | Failed f => Failed f
  end.

(** An exception of the JSON machinery or of the response model. *)
Definition lift {A : Type} (r : result A) : attempt A :=
  match r with
  | Ok a => Done a
  | Raise e => Failed (OtherError e)
  end.

Section Handler.

(** The two service URLs, the HTTP client ([client.post(url, files=...)] and
    [client.post(url, json=...)]) and what the response model makes of a
    value that is not of the type of its field. *)
Variable IMAGE_PROCESSOR_URL : string.
Variable MESSAGE_GENERATOR_URL : string.
Variable post_files : string → list byte → attempt http_reply.
Variable post_json : string → json → attempt http_reply.
Variable validate_str : json → result string.
Variable validate_dict : json → result (gmap string json).

(** [AdviceResponse(advice=..., image_analysis=...)] *)
Definition make_advice_response (advice image_analysis : json) : result AdviceResponse :=
  do advice <- match advice with
               | JStr s => Ok s
               | _ => validate_str advice
               end;
  do image_analysis <- match image_analysis with
                       | JObj m => Ok m
                       | _ => validate_dict image_analysis
                       end;
  Ok (MkAdviceResponse advice image_analysis).

(** The body of the [try] block of [analyze_image]. *)
Definition forward (image_content : list byte) (context : option string)
    : attempt AdviceResponse :=
  and_then (post_files (IMAGE_PROCESSOR_URL +:+ "/process") image_content)
    (fun response =>
  if negb (reply_status response =? 200)%Z then
    Failed (HTTPError (reply_status response) "Error processing image")
  else
  and_then (lift (reply_json response)) (fun image_analysis =>
  and_then
    (post_json (MESSAGE_GENERATOR_URL +:+ "/generate")
       (JObj {[ "image_analysis" := image_analysis;
                "context" := match context with
                             | Some s => JStr s
                             | None => JNull
                             end ]}))
    (fun message_response =>
  if negb (reply_status message_response =? 200)%Z then
    Failed (HTTPError (reply_status message_response) "Error generating advice")
  else
  and_then (lift (reply_json message_response)) (fun advice_data =>
  and_then (lift (py_getitem advice_data "advice")) (fun advice =>
  lift (make_advice_response advice image_analysis)))))).

Definition analyze_image (image_content : list byte) (context : option string)
    : AdvisorImageProcessor.http_result AdviceResponse :=
  match forward image_content context with
  | Done response => AdvisorImageProcessor.Returned response
  | Failed (RequestError _) =>
      match mock_image_analysis with
      | JObj m => AdvisorImageProcessor.Returned (MkAdviceResponse mock_advice m)
      | _ => AdvisorImageProcessor.HTTPException 500 "Internal server error"
      end
  | Failed _ => AdvisorImageProcessor.HTTPException 500 "Internal server error"
  end.

End Handler.

End AdvisorGateway.


(** * Validation rules

    The validators as the specification describes them: a list of rules
    tried in order, the first one that fails giving the error. *)

Module ValidationRules.

(** A request body: absent, or a mapping from field names to JSON values. *)
Definition body : Type := option (gmap string json).

Definition body_json (b : body) : json :=
  match b with
  | None => JNull
  | Some m => JObj m
  end.

Definition field (f : string) (b : body) : option json :=
  match b with
  | None => None
  | Some m => m !! f
  end.

(** A rule: whether it fails on a body, and the error it then reports. *)
Record rule : Type := Rule {
  fails : body → bool;
  error : body → string
}.

(** Rule 1: the body is empty or absent. *)
Definition body_empty : rule :=
  Rule (fun b => match b with
                 | None => true
                 | Some m => bool_decide (m = ∅)
                 end)
       (fun _ => "Request body is empty").

(** Rule 2: a required field is missing. *)
Definition missing (f : string) : rule :=
  Rule (fun b => match field f b with
                 | None => true
                 | Some _ => false
                 end)
       (fun _ => "Missing '" +:+ f +:+ "' field in request").

(** Rule 3: a field is present with a value outside the allowed set. *)
Definition not_allowed (f : string) (allowed : list string)
    (message : json → string) : rule :=
  Rule (fun b => match field f b with
                 | None => false
                 | Some v => negb (existsb (py_eq_str v) allowed)
                 end)
       (fun b => message (default JNull (field f b))).

(** Rule 4: a field is present with an empty value. *)
Definition empty_field (f : string) : rule :=
  Rule (fun b => match field f b with
                 | None => false
                 | Some v => negb (truthy v)
                 end)
       (fun _ => "Empty '" +:+ f +:+ "' field in request").

Fixpoint first_failure (rules : list rule) (b : body) : bool * option string :=
  match rules with
  | [] => (true, None)
  | r :: rest =>
      if fails r b then (false, Some (error r b)) else first_failure rest b
  end.

Definition invalid_scenario_gateway (_ : json) : string :=
  "Invalid 'scenario' value. Must be one of: plant, closet, fridge".

Definition invalid_scenario_generator (str_repr : json → string) (v : json) : string :=
  "Invalid scenario: " +:+ py_str str_repr v
  +:+ ". Must be one of: plant, closet, fridge".

(** The rules of the gateway sorted by kind, in the order in which the
    specification numbers the kinds: every missing-field rule before the
    allowed-value rule, the empty-field rule last. *)
Definition gateway_rules_by_kind : list rule :=
  [ body_empty;
    missing "scenario";
    missing "image_data";
    not_allowed "scenario" Gateway.VALID_SCENARIOS invalid_scenario_gateway;
    empty_field "image_data" ].

(** The same rules in the order in which the gateway tries them: field by
    field. *)
Definition gateway_rules : list rule :=
  [ body_empty;
    missing "scenario";
    not_allowed "scenario" Gateway.VALID_SCENARIOS invalid_scenario_gateway;
    missing "image_data";
    empty_field "image_data" ].

(** The rules of the message generator, which has no empty-field rule. *)
Definition generator_rules (str_repr : json → string) : list rule :=
  [ body_empty;
    missing "scenario";
    not_allowed "scenario" MessageGenerator.template_keys
      (invalid_scenario_generator str_repr);
    missing "analysis_result" ].

(** The value of [scenario], when there is one, can be hashed. *)
Definition scenario_hashable (b : body) : Prop :=
  match field "scenario" b with
  | None => True
  | Some v => hashable v = true
  end.

End ValidationRules.

(** * Properties *)

(** ** Strings *)

Section StringFacts.

Lemma append_cons (x : ascii) (a b : string) :
  String x a +:+ b = String x (a +:+ b).
Proof. reflexivity. Qed.

Lemma append_nil_l (a : string) : "" +:+ a = a.
Proof. reflexivity. Qed.

Lemma append_assoc (a b c : string) : (a +:+ b) +:+ c = a +:+ (b +:+ c).
Proof.
  induction a as [|x a IH]; [reflexivity|].
  rewrite !append_cons. by rewrite IH.
Qed.

Lemma append_nil_r (a : string) : a +:+ "" = a.
Proof.
  induction a as [|x a IH]; [reflexivity|].
  rewrite append_cons. by rewrite IH.
Qed.

Lemma length_append (a b : string) :
  String.length (a +:+ b) = String.length a + String.length b.
Proof.
  induction a as [|x a IH]; [reflexivity|].
  rewrite append_cons. cbn [String.length]. by rewrite IH.
Qed.

Lemma starts_with_append (p r : string) : starts_with p (p +:+ r) = true.
Proof.
  induction p as [|x p IH]; [reflexivity|].
  rewrite append_cons. cbn [starts_with].
  by rewrite Ascii.eqb_refl, IH.
Qed.

Lemma starts_with_inv (p s : string) :
  starts_with p s = true → ∃ r, s = p +:+ r.
Proof.
  revert s. induction p as [|x p IH]; intros s H.
  - by exists s.
  - destruct s as [|y s]; [discriminate|]. cbn [starts_with] in H.
    apply andb_true_iff in H as [Hxy Hp].
    apply Ascii.eqb_eq in Hxy as ->.
    destruct (IH _ Hp) as [r ->]. by exists r.
Qed.

Lemma contains_here (n h : string) : starts_with n h = true → contains n h = true.
Proof. intros H. destruct h; cbn [contains]; by rewrite H. Qed.

Lemma contains_later (n : string) (c : ascii) (h : string) :
  contains n h = true → contains n (String c h) = true.
Proof. intros H. cbn [contains]. rewrite H. apply orb_true_r. Qed.

Lemma contains_intro (a n b : string) : contains n (a +:+ n +:+ b) = true.
Proof.
  induction a as [|x a IH].
  - rewrite append_nil_l. apply contains_here, starts_with_append.
  - rewrite append_cons. apply contains_later, IH.
Qed.

Lemma contains_inv (n h : string) :
  contains n h = true → ∃ a b, h = a +:+ n +:+ b.
Proof.
  induction h as [|c h IH]; cbn [contains]; intros H.
  - rewrite orb_false_r in H. apply starts_with_inv in H as [r Hr].
    by exists "", r.
  - apply orb_true_iff in H as [H|H].
    + apply starts_with_inv in H as [r Hr]. by exists "", r.
    + destruct (IH H) as (a & b & ->). by exists (String c a), b.
Qed.

Lemma contains_empty (h : string) : contains "" h = true.
Proof. by destruct h. Qed.

Lemma contains_refl (s : string) : contains s s = true.
Proof.
  pose proof (contains_intro "" s "") as H.
  by rewrite append_nil_l, append_nil_r in H.
Qed.

Lemma contains_trans (a b c : string) :
  contains a b = true → contains b c = true → contains a c = true.
Proof.
  intros Hab Hbc.
  apply contains_inv in Hab as (p & q & ->).
  apply contains_inv in Hbc as (u & v & ->).
  assert (u +:+ (p +:+ a +:+ q) +:+ v = (u +:+ p) +:+ a +:+ (q +:+ v)) as ->
    by (by rewrite !append_assoc).
  apply contains_intro.
Qed.

Lemma contains_append_l (n a b : string) :
  contains n a = true → contains n (a +:+ b) = true.
Proof.
  intros H. apply (contains_trans n a); [done|].
  apply (contains_intro "" a b).
Qed.

Lemma contains_append_r (n a b : string) :
  contains n b = true → contains n (a +:+ b) = true.
Proof.
  intros H. apply (contains_trans n b); [done|].
  pose proof (contains_intro a b "") as Hi.
  by rewrite append_nil_r in Hi.
Qed.

Lemma contains_join (sep x : string) (l : list string) :
  x ∈ l → contains x (join sep l) = true.
Proof.
  unfold join. induction l as [|y l IH]; intros Hin.
  - by apply elem_of_nil in Hin.
  - apply elem_of_cons in Hin as [->|Hin].
    + destruct l as [|z l]; cbn [String.concat].
      * apply contains_refl.
      * apply contains_append_l, contains_refl.
    + destruct l as [|z l]; [by apply elem_of_nil in Hin|].
      cbn [String.concat]. apply contains_append_r, contains_append_r, IH, Hin.
Qed.

End StringFacts.

(** ** Request validation *)

Section Validation.
Import ValidationRules.

Lemma template_of_known (v : json) :
  bool_decide (is_Some (MessageGenerator.template_of v))
  = existsb (py_eq_str v) MessageGenerator.template_keys.
Proof.
  destruct v as [| | | |s| |]; try reflexivity.
  cbn [MessageGenerator.template_of]. unfold MessageGenerator.template_keys.
  cbn [MessageGenerator.PROMPT_TEMPLATES MessageGenerator.lookup_template
       map fst existsb py_eq_str].
  destruct (String.eqb s "plant"); [reflexivity|].
  destruct (String.eqb s "closet"); [reflexivity|].
  destruct (String.eqb s "fridge"); reflexivity.
Qed.

Lemma gateway_validate_request_rules (b : body) :
  Gateway.validate_request (body_json b) = Ok (first_failure gateway_rules b).
Proof.
  destruct b as [m|]; [|reflexivity].
  unfold Gateway.validate_request.
  cbn [body_json truthy negb first_failure gateway_rules fails error body_empty
       missing not_allowed empty_field field py_in py_getitem bind].
  rewrite negb_involutive.
  destruct (bool_decide (m = ∅)); [reflexivity|].
  destruct (m !! "scenario") as [sc|] eqn:Hsc; cbn; [|reflexivity].
  destruct (negb _); [reflexivity|].
  destruct (m !! "image_data") as [img|] eqn:Himg; cbn; [|reflexivity].
  destruct (negb (truthy img)); reflexivity.
Qed.

Lemma generator_validate_request_rules (str_repr : json → string) (b : body) :
  scenario_hashable b →
  MessageGenerator.validate_request str_repr (body_json b)
  = Ok (first_failure (generator_rules str_repr) b).
Proof.
  destruct b as [m|]; [|reflexivity].
  unfold scenario_hashable, MessageGenerator.validate_request.
  cbn [body_json truthy negb first_failure generator_rules fails error body_empty
       missing not_allowed field py_in py_getitem bind].
  rewrite negb_involutive.
  destruct (bool_decide (m = ∅)); [reflexivity|].
  destruct (m !! "scenario") as [sc|] eqn:Hsc; cbn [bind negb]; [|reflexivity].
  intros Hhash.
  replace (bool_decide (is_Some (Some sc))) with true by reflexivity.
  cbn [negb bind default]. unfold MessageGenerator.in_templates.
  rewrite Hhash, template_of_known. cbn [bind].
  destruct (existsb (py_eq_str sc) MessageGenerator.template_keys);
    cbn [negb]; [|reflexivity].
  destruct (m !! "analysis_result") as [ar|] eqn:Har; reflexivity.
Qed.

(** The generator's validator raises instead of answering when [scenario]
    is a list or a dict: the membership test in the template table hashes
    the value. *)
Lemma generator_validate_request_unhashable (str_repr : json → string) :
  MessageGenerator.validate_request str_repr
    (JObj {[ "scenario" := JArr []; "analysis_result" := JObj ∅ ]})
  = Raise (Exn TypeError "unhashable type: 'list'").
Proof. reflexivity. Qed.

(** C2 (as amended).  On every request body (a mapping from field names to
    JSON values, or no body) a validator answers with the error of the first
    rule that fails, the rules being tried field by field: for the gateway
    empty body, [scenario] missing, [scenario] not allowed, [image_data]
    missing, [image_data] empty; for the message generator empty body,
    [scenario] missing, [scenario] not a template key, [analysis_result]
    missing, provided the value of [scenario] can be hashed.  The answer is
    [(True, None)] when no rule fails. *)
Theorem validate_request_first_failing_rule :
  (∀ b : body,
     Gateway.validate_request (body_json b) = Ok (first_failure gateway_rules b))
  ∧ (∀ (str_repr : json → string) (b : body),
       scenario_hashable b →
       MessageGenerator.validate_request str_repr (body_json b)
       = Ok (first_failure (generator_rules str_repr) b)).
Proof.
  split.
  - apply gateway_validate_request_rules.
  - apply generator_validate_request_rules.
Qed.

Lemma validate_request_first_failing_rule_witness :
  Gateway.validate_request (JObj {[ "image_data" := JStr "YQ==" ]})
  = Ok (false, Some "Missing 'scenario' field in request")
  ∧ MessageGenerator.validate_request (fun _ => "")
      (JObj {[ "scenario" := JStr "plant" ]})
    = Ok (false, Some "Missing 'analysis_result' field in request").
Proof.
  split.
  - exact (proj1 validate_request_first_failing_rule
             (Some {[ "image_data" := JStr "YQ==" ]})).
  - refine (proj2 validate_request_first_failing_rule (fun _ => "")
              (Some {[ "scenario" := JStr "plant" ]}) _).
    reflexivity.
Defined.

(** With the rules sorted by kind the body [{"scenario": "bogus"}] would be
    answered with the missing [image_data]; the gateway reports the value of
    [scenario], which it checks first. *)
Lemma validate_request_kind_order_counterexample :
  let b : body := Some {[ "scenario" := JStr "bogus" ]} in
  first_failure gateway_rules_by_kind b
  = (false, Some "Missing 'image_data' field in request")
  ∧ Gateway.validate_request (body_json b)
    = Ok (false, Some "Invalid 'scenario' value. Must be one of: plant, closet, fridge")
  ∧ Gateway.validate_request (body_json b)
    ≠ Ok (first_failure gateway_rules_by_kind b).
Proof.
  cbv zeta. split; [reflexivity|]. split; [reflexivity|].
  vm_compute. intros H. discriminate H.
Qed.

End Validation.

(** ** The gateway *)

Section GatewayProperties.

Variable IMAGE_PROCESSOR_URL : string.
Variable MESSAGE_GENERATOR_URL : string.
Variable requests_post : string → json → result http_reply.
Variable str_repr : json → string.

#[local] Abbreviation api_gateway :=
  (Gateway.api_gateway IMAGE_PROCESSOR_URL MESSAGE_GENERATOR_URL requests_post str_repr).
#[local] Abbreviation handle_post :=
  (Gateway.handle_post IMAGE_PROCESSOR_URL MESSAGE_GENERATOR_URL requests_post str_repr).
#[local] Abbreviation call_image_processor :=
  (Gateway.call_image_processor IMAGE_PROCESSOR_URL requests_post str_repr).
#[local] Abbreviation call_message_generator :=
  (Gateway.call_message_generator MESSAGE_GENERATOR_URL requests_post str_repr).

Lemma handle_cors_status (request : flask_request) (rv : view_result) :
  status_code (Gateway.handle_cors request rv) = status_code (make_response rv).
Proof. reflexivity. Qed.

Lemma handle_cors_data (request : flask_request) (rv : view_result) :
  data (Gateway.handle_cors request rv) = data (make_response rv).
Proof. reflexivity. Qed.

Lemma handle_cors_headers (request : flask_request) (rv : view_result) :
  let h := headers (Gateway.handle_cors request rv) in
  h !! "Access-Control-Allow-Origin"
  = Some (default "*" (req_headers request !! "Origin"))
  ∧ h !! "Access-Control-Allow-Methods" = Some "POST, OPTIONS"
  ∧ h !! "Access-Control-Allow-Headers" = Some "Content-Type, Authorization"
  ∧ h !! "Access-Control-Allow-Credentials" = Some "true".
Proof.
  cbv zeta. unfold Gateway.handle_cors. cbn [headers].
  repeat split.
  - rewrite !lookup_insert_ne by discriminate. apply lookup_insert_eq.
  - rewrite !lookup_insert_ne by discriminate. apply lookup_insert_eq.
  - rewrite !lookup_insert_ne by discriminate. apply lookup_insert_eq.
  - apply lookup_insert_eq.
Qed.

(** A request whose validation succeeds has both fields. *)
Lemma validate_request_fields (request_json : json) (error : option string) :
  Gateway.validate_request request_json = Ok (true, error) →
  ∃ scenario image_data,
    py_getitem request_json "scenario" = Ok scenario
    ∧ py_getitem request_json "image_data" = Ok image_data.
Proof.
  unfold Gateway.validate_request.
  destruct (negb (truthy request_json)); [discriminate|].
  destruct (py_in "scenario" request_json) as [has|e]; cbn [bind]; [|discriminate].
  destruct (negb has); [discriminate|].
  destruct (py_getitem request_json "scenario") as [sc|e]; cbn [bind]; [|discriminate].
  destruct (negb (existsb _ _)); [discriminate|].
  destruct (py_in "image_data" request_json) as [has'|e]; cbn [bind]; [|discriminate].
  destruct (negb has'); [discriminate|].
  destruct (py_getitem request_json "image_data") as [img|e]; cbn [bind]; [|discriminate].
  intros _. eauto.
Qed.

(** Every answer of the handler has gone through [handle_cors]. *)
Lemma handle_post_through_cors (request : flask_request) (response : flask_response) :
  handle_post request = Ok response →
  ∃ rv, response = Gateway.handle_cors request rv.
Proof.
  unfold Gateway.handle_post.
  destruct (Gateway.validate_request _) as [[is_valid em]|e]; cbn [bind]; [|discriminate].
  destruct is_valid; cbn [negb].
  2: { intros [= <-]. eauto. }
  destruct (py_getitem _ "scenario") as [sc|e]; cbn [bind]; [|discriminate].
  destruct (py_getitem _ "image_data") as [img|e]; cbn [bind]; [|discriminate].
  destruct (call_image_processor img) as [[[ok ar] er]|e]; cbn [bind]; [|discriminate].
  destruct ok; cbn [negb].
  2: { intros [= <-]. eauto. }
  destruct (call_message_generator sc ar) as [[[ok adv] er']|e]; cbn [bind]; [|discriminate].
  destruct ok; cbn [negb]; intros [= <-]; eauto.
Qed.

Lemma api_gateway_through_cors (request : flask_request) :
  ∃ rv, api_gateway request = Gateway.handle_cors request rv.
Proof.
  unfold Gateway.api_gateway.
  destruct (String.eqb (method request) "OPTIONS"); [eauto|].
  destruct (negb (String.eqb (method request) "POST")); [eauto|].
  destruct (handle_post request) as [response|e] eqn:Hpost; [|eauto].
  eapply handle_post_through_cors, Hpost.
Qed.

(** A request that fails validation is told why. *)
Lemma gateway_validate_request_error (request_json : json) (error : option string) :
  Gateway.validate_request request_json = Ok (false, error) →
  ∃ message, error = Some message.
Proof.
  unfold Gateway.validate_request.
  destruct (negb (truthy request_json)); [intros [= <-]; eauto|].
  destruct (py_in "scenario" request_json) as [has|e]; cbn [bind]; [|discriminate].
  destruct (negb has); [intros [= <-]; eauto|].
  destruct (py_getitem request_json "scenario") as [sc|e]; cbn [bind]; [|discriminate].
  destruct (negb (existsb _ _)); [intros [= <-]; eauto|].
  destruct (py_in "image_data" request_json) as [has'|e]; cbn [bind]; [|discriminate].
  destruct (negb has'); [intros [= <-]; eauto|].
  destruct (py_getitem request_json "image_data") as [img|e]; cbn [bind]; [|discriminate].
  destruct (negb (truthy img)); [intros [= <-]; eauto|discriminate].
Qed.

(** The three ways in which the call to the analyzer fails: the HTTP client
    raises, the reply is not a 200, or its body does not report success.
    Each gives [(False, {}, error)] with the upstream text in the error. *)
Lemma call_image_processor_failures (image_data : json) :
  IMAGE_PROCESSOR_URL ≠ "" →
  (∀ message,
     requests_post IMAGE_PROCESSOR_URL (JObj {[ "image_data" := image_data ]})
     = Raise (Exn RequestException message) →
     call_image_processor image_data
     = Ok (false, JObj ∅,
           Some ("Error communicating with image processor: " +:+ message)))
  ∧ (∀ reply,
       requests_post IMAGE_PROCESSOR_URL (JObj {[ "image_data" := image_data ]})
       = Ok reply →
       reply_status reply ≠ 200%Z →
       call_image_processor image_data
       = Ok (false, JObj ∅, Some ("Image processor error: " +:+ reply_text reply)))
  ∧ (∀ reply (m : gmap string json),
       requests_post IMAGE_PROCESSOR_URL (JObj {[ "image_data" := image_data ]})
       = Ok reply →
       reply_status reply = 200%Z →
       reply_json reply = Ok (JObj m) →
       truthy (default (JBool false) (m !! "success")) = false →
       call_image_processor image_data
       = Ok (false, JObj ∅,
             Some ("Image processor error: "
                   +:+ py_str str_repr (default (JStr "Unknown error") (m !! "error"))))).
Proof.
  intros Hurl%String.eqb_neq. unfold Gateway.call_image_processor. rewrite Hurl.
  split; [|split].
  - intros message ->. reflexivity.
  - intros reply -> Hstatus%Z.eqb_neq. cbn [bind try_except]. by rewrite Hstatus.
  - intros reply m -> Hstatus%Z.eqb_eq Hjson Hsuccess. cbn [bind].
    rewrite Hstatus, Hjson. cbn [negb bind py_get]. rewrite Hsuccess. reflexivity.
Qed.

Lemma call_message_generator_failures (scenario analysis_result : json) :
  MESSAGE_GENERATOR_URL ≠ "" →
  (∀ message,
     requests_post MESSAGE_GENERATOR_URL
       (JObj {[ "scenario" := scenario; "analysis_result" := analysis_result ]})
     = Raise (Exn RequestException message) →
     call_message_generator scenario analysis_result
     = Ok (false, JStr "",
           Some ("Error communicating with message generator: " +:+ message)))
  ∧ (∀ reply,
       requests_post MESSAGE_GENERATOR_URL
         (JObj {[ "scenario" := scenario; "analysis_result" := analysis_result ]})
       = Ok reply →
       reply_status reply ≠ 200%Z →
       call_message_generator scenario analysis_result
       = Ok (false, JStr "", Some ("Message generator error: " +:+ reply_text reply)))
  ∧ (∀ reply (m : gmap string json),
       requests_post MESSAGE_GENERATOR_URL
         (JObj {[ "scenario" := scenario; "analysis_result" := analysis_result ]})
       = Ok reply →
       reply_status reply = 200%Z →
       reply_json reply = Ok (JObj m) →
       truthy (default (JBool false) (m !! "success")) = false →
       call_message_generator scenario analysis_result
       = Ok (false, JStr "",
             Some ("Message generator error: "
                   +:+ py_str str_repr (default (JStr "Unknown error") (m !! "error"))))).
Proof.
  intros Hurl%String.eqb_neq. unfold Gateway.call_message_generator. rewrite Hurl.
  split; [|split].
  - intros message ->. reflexivity.
  - intros reply -> Hstatus%Z.eqb_neq. cbn [bind try_except]. by rewrite Hstatus.
  - intros reply m -> Hstatus%Z.eqb_eq Hjson Hsuccess. cbn [bind].
    rewrite Hstatus, Hjson. cbn [negb bind py_get]. rewrite Hsuccess. reflexivity.
Qed.

(** The calls succeed when the reply is a 200 whose body reports success,
    and give the [data] and the [advice] of the body. *)
Lemma call_image_processor_success (image_data : json) (reply : http_reply)
    (m : gmap string json) :
  IMAGE_PROCESSOR_URL ≠ "" →
  requests_post IMAGE_PROCESSOR_URL (JObj {[ "image_data" := image_data ]})
  = Ok reply →
  reply_status reply = 200%Z →
  reply_json reply = Ok (JObj m) →
  truthy (default (JBool false) (m !! "success")) = true →
  call_image_processor image_data = Ok (true, default (JObj ∅) (m !! "data"), None).
Proof.
  intros Hurl%String.eqb_neq Hpost Hstatus%Z.eqb_eq Hjson Hsuccess.
  unfold Gateway.call_image_processor. rewrite Hurl, Hpost. cbn [bind].
  rewrite Hstatus, Hjson. cbn [negb bind py_get]. rewrite Hsuccess. reflexivity.
Qed.

Lemma call_message_generator_success (scenario analysis_result : json)
    (reply : http_reply) (m : gmap string json) :
  MESSAGE_GENERATOR_URL ≠ "" →
  requests_post MESSAGE_GENERATOR_URL
    (JObj {[ "scenario" := scenario; "analysis_result" := analysis_result ]})
  = Ok reply →
  reply_status reply = 200%Z →
  reply_json reply = Ok (JObj m) →
  truthy (default (JBool false) (m !! "success")) = true →
  call_message_generator scenario analysis_result
  = Ok (true, default (JStr "") (m !! "advice"), None).
Proof.
  intros Hurl%String.eqb_neq Hpost Hstatus%Z.eqb_eq Hjson Hsuccess.
  unfold Gateway.call_message_generator. rewrite Hurl, Hpost. cbn [bind].
  rewrite Hstatus, Hjson. cbn [negb bind py_get]. rewrite Hsuccess. reflexivity.
Qed.

(** An exception of the HTTP client that is not a [RequestException]
    leaves the call. *)
Lemma call_image_processor_raises (image_data : json) (e : exn) :
  IMAGE_PROCESSOR_URL ≠ "" →
  requests_post IMAGE_PROCESSOR_URL (JObj {[ "image_data" := image_data ]})
  = Raise e →
  exn_kind e ≠ RequestException →
  call_image_processor image_data = Raise e.
Proof.
  intros Hurl%String.eqb_neq Hpost Hkind.
  unfold Gateway.call_image_processor. rewrite Hurl, Hpost. cbn [bind try_except].
  by destruct (exn_kind e).
Qed.

(** The answer to a valid POST, by the outcome of the two calls. *)
Lemma api_gateway_valid_post (request : flask_request)
    (error_message : option string) (scenario image_data : json) :
  method request = "POST" →
  Gateway.validate_request (get_json request) = Ok (true, error_message) →
  py_getitem (get_json request) "scenario" = Ok scenario →
  py_getitem (get_json request) "image_data" = Ok image_data →
  api_gateway request
  = match
      (do analysis <- call_image_processor image_data;
       let '(success, analysis_result, error) := analysis in
       if negb success then
         Ok (Gateway.handle_cors request
               (WithStatus
                  (jsonify (Gateway.failure (Gateway.json_of_error error))) 502))
       else
         do generation <- call_message_generator scenario analysis_result;
         let '(success, advice, error) := generation in
         if negb success then
           Ok (Gateway.handle_cors request
                 (WithStatus
                    (jsonify (Gateway.failure (Gateway.json_of_error error))) 502))
         else
           Ok (Gateway.handle_cors request
                 (Plain (jsonify (JObj {[ "success" := JBool true;
                                          "advice" := advice ]})))))
    with
    | Ok response => response
    | Raise e =>
        Gateway.handle_cors request
          (WithStatus
             (jsonify (Gateway.failure
                         (JStr ("Internal server error: " +:+ exn_str e)))) 500)
    end.
Proof.
  intros Hm Hv Hsc Himg. unfold Gateway.api_gateway, Gateway.handle_post.
  rewrite Hm, Hv, Hsc, Himg. reflexivity.
Qed.

(** The body of a failure: [{"success": false, "error": message}]. *)
#[local] Abbreviation failure_body message :=
  (Json (JObj {[ "success" := JBool false; "error" := JStr message ]})).

(** C1.  The status of the gateway's answer: 204 to OPTIONS; 405 to any
    other method than POST; for a POST, 400 with the validation error when
    validation fails; 502 when the analyzer call fails, with the upstream
    error in the body: the text of the exception when the analyzer cannot be
    reached, the text of a reply that is not a 200, the [error] of a reply
    that does not report success; 502 in the same three ways when the
    analyzer succeeds and the generator call fails; 200 with
    [{success: true, advice}] when both succeed, the generator having been
    sent the scenario and the analyzer's [data]; and 500 when an exception
    escapes the handler's body, as when the HTTP client raises something
    else than a [RequestException]. *)
Theorem api_gateway_status (request : flask_request) :
  (method request = "OPTIONS" → status_code (api_gateway request) = 204%Z)
  ∧ (method request ≠ "OPTIONS" → method request ≠ "POST" →
     status_code (api_gateway request) = 405%Z)
  ∧ (method request = "POST" →
     (∀ error_message,
        Gateway.validate_request (get_json request) = Ok (false, error_message) →
        ∃ message,
          error_message = Some message
          ∧ status_code (api_gateway request) = 400%Z
          ∧ data (api_gateway request) = failure_body message)
     ∧ (∀ error_message scenario image_data,
          Gateway.validate_request (get_json request) = Ok (true, error_message) →
          py_getitem (get_json request) "scenario" = Ok scenario →
          py_getitem (get_json request) "image_data" = Ok image_data →
          IMAGE_PROCESSOR_URL ≠ "" →
          MESSAGE_GENERATOR_URL ≠ "" →
          let analyzer_call :=
            requests_post IMAGE_PROCESSOR_URL
              (JObj {[ "image_data" := image_data ]}) in
          (∀ message,
             analyzer_call = Raise (Exn RequestException message) →
             status_code (api_gateway request) = 502%Z
             ∧ data (api_gateway request)
               = failure_body ("Error communicating with image processor: "
                               +:+ message))
          ∧ (∀ reply,
               analyzer_call = Ok reply →
               reply_status reply ≠ 200%Z →
               status_code (api_gateway request) = 502%Z
               ∧ data (api_gateway request)
                 = failure_body ("Image processor error: " +:+ reply_text reply))
          ∧ (∀ reply (m : gmap string json),
               analyzer_call = Ok reply →
               reply_status reply = 200%Z →
               reply_json reply = Ok (JObj m) →
               truthy (default (JBool false) (m !! "success")) = false →
               status_code (api_gateway request) = 502%Z
               ∧ data (api_gateway request)
                 = failure_body
                     ("Image processor error: "
                      +:+ py_str str_repr
                            (default (JStr "Unknown error") (m !! "error"))))
          ∧ (∀ e,
               analyzer_call = Raise e →
               exn_kind e ≠ RequestException →
               status_code (api_gateway request) = 500%Z
               ∧ data (api_gateway request)
                 = failure_body ("Internal server error: " +:+ exn_str e))
          ∧ (∀ reply (m : gmap string json),
               analyzer_call = Ok reply →
               reply_status reply = 200%Z →
               reply_json reply = Ok (JObj m) →
               truthy (default (JBool false) (m !! "success")) = true →
               let generator_call :=
                 requests_post MESSAGE_GENERATOR_URL
                   (JObj {[ "scenario" := scenario;
                            "analysis_result" := default (JObj ∅) (m !! "data") ]}) in
               (∀ message,
                  generator_call = Raise (Exn RequestException message) →
                  status_code (api_gateway request) = 502%Z
                  ∧ data (api_gateway request)
                    = failure_body ("Error communicating with message generator: "
                                    +:+ message))
               ∧ (∀ reply',
                    generator_call = Ok reply' →
                    reply_status reply' ≠ 200%Z →
                    status_code (api_gateway request) = 502%Z
                    ∧ data (api_gateway request)
                      = failure_body ("Message generator error: "
                                      +:+ reply_text reply'))
               ∧ (∀ reply' (g : gmap string json),
                    generator_call = Ok reply' →
                    reply_status reply' = 200%Z →
                    reply_json reply' = Ok (JObj g) →
                    truthy (default (JBool false) (g !! "success")) = false →
                    status_code (api_gateway request) = 502%Z
                    ∧ data (api_gateway request)
                      = failure_body
                          ("Message generator error: "
                           +:+ py_str str_repr
                                 (default (JStr "Unknown error") (g !! "error"))))
               ∧ (∀ reply' (g : gmap string json),
                    generator_call = Ok reply' →
                    reply_status reply' = 200%Z →
                    reply_json reply' = Ok (JObj g) →
                    truthy (default (JBool false) (g !! "success")) = true →
                    status_code (api_gateway request) = 200%Z
                    ∧ data (api_gateway request)
                      = Json (JObj {[ "success" := JBool true;
                                      "advice" := default (JStr "")
                                                    (g !! "advice") ]}))))
     ∧ (∀ e,
          handle_post request = Raise e →
          status_code (api_gateway request) = 500%Z
          ∧ data (api_gateway request)
            = failure_body ("Internal server error: " +:+ exn_str e))).
Proof.
  split; [|split].
  - intros Hm. unfold Gateway.api_gateway. rewrite Hm. reflexivity.
  - intros Hopt Hpost. unfold Gateway.api_gateway.
    apply String.eqb_neq in Hopt, Hpost. rewrite Hopt, Hpost. reflexivity.
  - intros Hm. split; [|split].
    + intros em Hv. destruct (gateway_validate_request_error _ _ Hv) as [message ->].
      exists message. split; [reflexivity|].
      unfold Gateway.api_gateway, Gateway.handle_post. rewrite Hm, Hv.
      split; reflexivity.
    + intros em sc img Hv Hsc Himg Hiu Hgu. cbv zeta.
      rewrite (api_gateway_valid_post request em sc img Hm Hv Hsc Himg).
      destruct (call_image_processor_failures img Hiu) as (Ha1 & Ha2 & Ha3).
      split; [|split; [|split; [|split]]].
      * intros message Hcall. rewrite (Ha1 message Hcall). split; reflexivity.
      * intros reply Hcall Hstatus. rewrite (Ha2 reply Hcall Hstatus).
        split; reflexivity.
      * intros reply m Hcall Hstatus Hjson Hsuccess.
        rewrite (Ha3 reply m Hcall Hstatus Hjson Hsuccess). split; reflexivity.
      * intros e Hcall Hkind.
        rewrite (call_image_processor_raises img e Hiu Hcall Hkind).
        split; reflexivity.
      * intros reply m Hcall Hstatus Hjson Hsuccess.
        rewrite (call_image_processor_success img reply m Hiu Hcall Hstatus Hjson
                   Hsuccess).
        cbn [bind negb].
        destruct (call_message_generator_failures sc
                    (default (JObj ∅) (m !! "data")) Hgu) as (Hg1 & Hg2 & Hg3).
        split; [|split; [|split]].
        -- intros message Hgen. rewrite (Hg1 message Hgen). split; reflexivity.
        -- intros reply' Hgen Hstatus'. rewrite (Hg2 reply' Hgen Hstatus').
           split; reflexivity.
        -- intros reply' g Hgen Hstatus' Hjson' Hsuccess'.
           rewrite (Hg3 reply' g Hgen Hstatus' Hjson' Hsuccess').
           split; reflexivity.
        -- intros reply' g Hgen Hstatus' Hjson' Hsuccess'.
           rewrite (call_message_generator_success sc _ reply' g Hgu Hgen Hstatus'
                      Hjson' Hsuccess').
           split; reflexivity.
    + intros e He. unfold Gateway.api_gateway. rewrite Hm, He. split; reflexivity.
Qed.

(** C7.  Whatever the path, the gateway's answer carries the four CORS
    headers: the origin allowed is the request's [Origin] header, or [*]
    when the request has none; the three others are fixed. *)
Theorem api_gateway_cors (request : flask_request) :
  let h := headers (api_gateway request) in
  h !! "Access-Control-Allow-Origin"
  = Some (default "*" (req_headers request !! "Origin"))
  ∧ h !! "Access-Control-Allow-Methods" = Some "POST, OPTIONS"
  ∧ h !! "Access-Control-Allow-Headers" = Some "Content-Type, Authorization"
  ∧ h !! "Access-Control-Allow-Credentials" = Some "true".
Proof.
  destruct (api_gateway_through_cors request) as [rv ->].
  apply handle_cors_headers.
Qed.

End GatewayProperties.

Lemma api_gateway_status_witness :
  let reply_of (status : Z) (text : string) (body : gmap string json) :=
    Ok (HttpReply status text (Ok (JObj body))) in
  let gateway analyzer generator :=
    Gateway.api_gateway "http://analyzer" "http://generator"
      (fun (url : string) (_ : json) =>
         if String.eqb url "http://analyzer" then analyzer else generator)
      (fun _ => "") in
  let analysis := reply_of 200%Z "" {[ "success" := JBool true; "data" := JObj ∅ ]} in
  let body : json := JObj {[ "scenario" := JStr "plant"; "image_data" := JStr "YQ==" ]} in
  let failure message : payload :=
    Json (JObj {[ "success" := JBool false; "error" := JStr message ]}) in
  status_code (gateway analysis analysis (Request "OPTIONS" ∅ JNull)) = 204%Z
  ∧ status_code (gateway analysis analysis (Request "GET" ∅ JNull)) = 405%Z
  ∧ (status_code
       (gateway analysis analysis
          (Request "POST" ∅ (JObj {[ "scenario" := JStr "plant" ]}))) = 400%Z
     ∧ data (gateway analysis analysis
               (Request "POST" ∅ (JObj {[ "scenario" := JStr "plant" ]})))
       = failure "Missing 'image_data' field in request")
  ∧ (let response :=
       gateway (Ok (HttpReply 503 "unavailable" (Raise (Exn ValueError "no json"))))
         analysis (Request "POST" ∅ body) in
     status_code response = 502%Z
     ∧ data response = failure "Image processor error: unavailable")
  ∧ (let response :=
       gateway analysis
         (reply_of 200%Z "" {[ "success" := JBool false; "error" := JStr "quota" ]})
         (Request "POST" ∅ body) in
     status_code response = 502%Z
     ∧ data response = failure "Message generator error: quota")
  ∧ (let response :=
       gateway analysis
         (reply_of 200%Z "" {[ "success" := JBool true; "advice" := JStr "water it" ]})
         (Request "POST" ∅ body) in
     status_code response = 200%Z
     ∧ data response
       = Json (JObj {[ "success" := JBool true; "advice" := JStr "water it" ]}))
  ∧ (let response := gateway analysis analysis (Request "POST" ∅ (JInt 5)) in
     status_code response = 500%Z
     ∧ data response
       = failure "Internal server error: argument of type 'int' is not iterable").
Proof.
  intros reply_of gateway analysis body failure.
  pose (thm := fun analyzer generator =>
          api_gateway_status "http://analyzer" "http://generator"
            (fun (url : string) (_ : json) =>
               if String.eqb url "http://analyzer" then analyzer else generator)
            (fun _ => "")).
  split; [|split; [|split; [|split; [|split; [|split]]]]].
  - apply (proj1 (thm analysis analysis (Request "OPTIONS" ∅ JNull))). reflexivity.
  - apply (proj1 (proj2 (thm analysis analysis (Request "GET" ∅ JNull))));
      discriminate.
  - destruct (proj1 (proj2 (proj2 (thm analysis analysis
                                     (Request "POST" ∅
                                        (JObj {[ "scenario" := JStr "plant" ]}))))
                       eq_refl)
                (Some "Missing 'image_data' field in request"))
      as (message & Heq & Hstatus & Hdata); [vm_compute; reflexivity|].
    injection Heq as <-. split; [exact Hstatus|exact Hdata].
  - cbv zeta.
    destruct (proj1 (proj2 (proj2 (proj2
                (thm (Ok (HttpReply 503 "unavailable" (Raise (Exn ValueError "no json"))))
                   analysis (Request "POST" ∅ body))) eq_refl))
                None (JStr "plant") (JStr "YQ==")) as (_ & Hreply & _);
      [vm_compute; reflexivity..|discriminate|discriminate|].
    apply (Hreply (HttpReply 503 "unavailable" (Raise (Exn ValueError "no json"))));
      [reflexivity|discriminate].
  - cbv zeta.
    destruct (proj1 (proj2 (proj2 (proj2
                (thm analysis
                   (reply_of 200%Z "" {[ "success" := JBool false;
                                       "error" := JStr "quota" ]})
                   (Request "POST" ∅ body))) eq_refl))
                None (JStr "plant") (JStr "YQ==")) as (_ & _ & _ & _ & Hsuccess);
      [vm_compute; reflexivity..|discriminate|discriminate|].
    destruct (Hsuccess (HttpReply 200 "" (Ok (JObj {[ "success" := JBool true;
                                                      "data" := JObj ∅ ]})))
                {[ "success" := JBool true; "data" := JObj ∅ ]}
                eq_refl eq_refl eq_refl) as (_ & _ & Hfalse & _);
      [vm_compute; reflexivity|].
    destruct (Hfalse (HttpReply 200 "" (Ok (JObj {[ "success" := JBool false;
                                                    "error" := JStr "quota" ]})))
                {[ "success" := JBool false; "error" := JStr "quota" ]}
                eq_refl eq_refl eq_refl) as [Hstatus Hdata];
      [vm_compute; reflexivity|].
    split; [exact Hstatus|].
    etransitivity; [exact Hdata|vm_compute; reflexivity].
  - cbv zeta.
    destruct (proj1 (proj2 (proj2 (proj2
                (thm analysis
                   (reply_of 200%Z "" {[ "success" := JBool true;
                                       "advice" := JStr "water it" ]})
                   (Request "POST" ∅ body))) eq_refl))
                None (JStr "plant") (JStr "YQ==")) as (_ & _ & _ & _ & Hsuccess);
      [vm_compute; reflexivity..|discriminate|discriminate|].
    destruct (Hsuccess (HttpReply 200 "" (Ok (JObj {[ "success" := JBool true;
                                                      "data" := JObj ∅ ]})))
                {[ "success" := JBool true; "data" := JObj ∅ ]}
                eq_refl eq_refl eq_refl) as (_ & _ & _ & Htrue);
      [vm_compute; reflexivity|].
    destruct (Htrue (HttpReply 200 "" (Ok (JObj {[ "success" := JBool true;
                                                   "advice" := JStr "water it" ]})))
                {[ "success" := JBool true; "advice" := JStr "water it" ]}
                eq_refl eq_refl eq_refl) as [Hstatus Hdata];
      [vm_compute; reflexivity|].
    split; [exact Hstatus|].
    etransitivity; [exact Hdata|vm_compute; reflexivity].
  - cbv zeta.
    apply (proj2 (proj2 (proj2 (proj2 (thm analysis analysis
                                          (Request "POST" ∅ (JInt 5)))) eq_refl))
             (Exn TypeError "argument of type 'int' is not iterable")).
    vm_compute. reflexivity.
Defined.

(** ** The message generator *)

Section GeneratorProperties.

Variable str_repr : json → string.
Variable generate_content : string → result string.
Variable aiplatform_init : result unit.

#[local] Abbreviation generate_advice :=
  (MessageGenerator.generate_advice generate_content).
#[local] Abbreviation generate_message :=
  (MessageGenerator.generate_message str_repr generate_content aiplatform_init).

(** The two answers of [generate_advice] to an exception of the provider. *)
Lemma generate_advice_raise (prompt : string) (e : exn) :
  generate_content prompt = Raise e →
  ∃ error,
    generate_advice prompt = (false, MessageGenerator.DEFAULT_ADVICE, Some error)
    ∧ error ≠ ""
    ∧ (error = "Content blocked due to safety settings: " +:+ exn_str e
       ∨ error = "Error generating advice: " +:+ exn_str e)
    ∧ (starts_with "Content blocked due to safety settings: " error = true
       ↔ contains "safety" (lower (exn_str e)) = true).
Proof.
  intros Hraise. unfold MessageGenerator.generate_advice. rewrite Hraise.
  destruct (contains "safety" (lower (exn_str e))) eqn:Hsafety.
  - eexists. split; [reflexivity|]. split; [discriminate|].
    split; [by left|]. split; [done|]. intros _. apply starts_with_append.
  - eexists. split; [reflexivity|]. split; [discriminate|].
    split; [by right|]. split; [|discriminate]. intros H. exact H.
Qed.

(** C5.  When the provider call raises, [generate_advice] returns the
    default advice, [success = False] and an error that is not empty.  The
    error is one of two texts around the exception message, and it is the
    safety-filter one exactly when the lowercased message contains
    [safety]. *)
Theorem generate_advice_provider_failure (prompt : string) (e : exn) :
  generate_content prompt = Raise e →
  ∃ error,
    generate_advice prompt = (false, MessageGenerator.DEFAULT_ADVICE, Some error)
    ∧ error ≠ ""
    ∧ (error = "Content blocked due to safety settings: " +:+ exn_str e
       ∨ error = "Error generating advice: " +:+ exn_str e)
    ∧ (starts_with "Content blocked due to safety settings: " error = true
       ↔ contains "safety" (lower (exn_str e)) = true).
Proof. apply generate_advice_raise. Qed.

Lemma generate_advice_success (prompt advice : string) :
  generate_content prompt = Ok advice →
  generate_advice prompt = (true, advice, None).
Proof. intros H. unfold MessageGenerator.generate_advice. by rewrite H. Qed.

(** C9 (as amended).  For a POST that passes validation and for which the
    handler gets as far as the provider call (the summary of the analysis
    result is logged, Vertex AI is initialised, the prompt is built) the
    status is 200 whatever the provider call does; a provider failure shows
    only in the body, with [success = false], the default advice and an
    error string.  When the initialisation of Vertex AI raises instead, the
    status is 400 for a [ValueError] and 500 for any other exception. *)
Theorem generate_message_provider_failure_status (request : flask_request)
    (error_message : option string) (scenario analysis_result : json) :
  method request = "POST" →
  MessageGenerator.validate_request str_repr (get_json request)
  = Ok (true, error_message) →
  py_getitem (get_json request) "scenario" = Ok scenario →
  py_getitem (get_json request) "analysis_result" = Ok analysis_result →
  MessageGenerator.log_summary analysis_result = Ok tt →
  (∀ prompt,
     aiplatform_init = Ok tt →
     MessageGenerator.construct_prompt str_repr scenario analysis_result = Ok prompt →
     status_code (make_response (generate_message request)) = 200%Z
     ∧ (∀ e, generate_content prompt = Raise e →
          ∃ error,
            data (make_response (generate_message request))
            = Json (JObj {[ "success" := JBool false;
                            "advice" := JStr MessageGenerator.DEFAULT_ADVICE;
                            "error" := JStr error ]})
            ∧ error ≠ ""
            ∧ (error = "Content blocked due to safety settings: " +:+ exn_str e
               ∨ error = "Error generating advice: " +:+ exn_str e)))
  ∧ (∀ e,
       aiplatform_init = Raise e →
       status_code (make_response (generate_message request))
       = match exn_kind e with ValueError => 400%Z | _ => 500%Z end).
Proof.
  intros Hm Hv Hsc Har Hlog.
  unfold MessageGenerator.generate_message, MessageGenerator.handle_post.
  rewrite Hm, Hv, Hsc, Har.
  cbn [String.eqb Ascii.eqb Bool.eqb negb bind]. rewrite Hlog. cbn [bind].
  split.
  - intros prompt Hinit Hprompt. rewrite Hinit, Hprompt. cbn [bind].
    split.
    + by destruct (MessageGenerator.generate_advice generate_content prompt)
        as [[success advice] error].
    + intros e He.
      destruct (generate_advice_raise prompt e He) as (error & -> & Hne & Hcase & _).
      by exists error.
  - intros e Hinit. rewrite Hinit. cbn [bind].
    by destruct (exn_kind e).
Qed.

End GeneratorProperties.

Lemma generate_advice_provider_failure_witness :
  MessageGenerator.generate_advice
    (fun _ => Raise (Exn OtherException "Blocked by SAFETY filter")) "prompt"
  = (false, MessageGenerator.DEFAULT_ADVICE,
     Some "Content blocked due to safety settings: Blocked by SAFETY filter").
Proof.
  destruct (generate_advice_provider_failure
              (fun _ => Raise (Exn OtherException "Blocked by SAFETY filter"))
              "prompt" (Exn OtherException "Blocked by SAFETY filter") eq_refl)
    as (error & Heq & _ & _ & Hsafety).
  rewrite Heq. f_equal. f_equal.
  assert (starts_with "Content blocked due to safety settings: " error = true) as Hs
    by (apply Hsafety; vm_compute; reflexivity).
  unfold MessageGenerator.generate_advice in Heq. cbn [exn_str] in Heq.
  replace (contains "safety" (lower "Blocked by SAFETY filter")) with true in Heq
    by (vm_compute; reflexivity).
  by injection Heq as <-.
Defined.

Lemma generate_message_provider_failure_status_witness :
  let request :=
    Request "POST" ∅
      (JObj {[ "scenario" := JStr "plant"; "analysis_result" := JObj ∅ ]}) in
  let response :=
    make_response
      (MessageGenerator.generate_message (fun _ => "")
         (fun _ => Raise (Exn OtherException "quota exceeded")) (Ok tt) request) in
  status_code response = 200%Z
  ∧ data response
    = Json (JObj {[ "success" := JBool false;
                    "advice" := JStr MessageGenerator.DEFAULT_ADVICE;
                    "error" := JStr "Error generating advice: quota exceeded" ]}).
Proof.
  intros request response.
  destruct (MessageGenerator.construct_prompt (fun _ => "") (JStr "plant") (JObj ∅))
    as [prompt|e] eqn:Hprompt; [|vm_compute in Hprompt; discriminate Hprompt].
  destruct (proj1 (generate_message_provider_failure_status (fun _ => "")
                     (fun _ => Raise (Exn OtherException "quota exceeded")) (Ok tt)
                     request None (JStr "plant") (JObj ∅)
                     eq_refl eq_refl eq_refl eq_refl eq_refl)
              prompt eq_refl Hprompt) as [Hstatus Hbody].
  split; [exact Hstatus|].
  destruct (Hbody (Exn OtherException "quota exceeded") eq_refl)
    as (error & Hdata & _ & [Herror|Herror]).
  - exfalso. rewrite Herror in Hdata. vm_compute in Hdata. discriminate Hdata.
  - rewrite Herror in Hdata. exact Hdata.
Defined.

(** A POST that passes validation is answered with 500 when the
    initialisation of Vertex AI raises. *)
Lemma generate_message_initialisation_counterexample :
  let request :=
    Request "POST" ∅
      (JObj {[ "scenario" := JStr "plant"; "analysis_result" := JObj ∅ ]}) in
  method request = "POST"
  ∧ MessageGenerator.validate_request (fun _ => "") (get_json request)
    = Ok (true, None)
  ∧ status_code
      (make_response
         (MessageGenerator.generate_message (fun _ => "") (fun _ => Ok "advice")
            (Raise (Exn OtherException "credentials not found")) request))
    = 500%Z.
Proof. cbv zeta. split; [reflexivity|]. split; vm_compute; reflexivity. Qed.

(** ** Prompt construction *)

Section PromptProperties.

Variable str_repr : json → string.

Import MessageGenerator.

Lemma map_result_ok {A B C : Type} (f : B → result C) (h : A → B) (g : A → C)
    (l : list A) :
  (∀ x, f (h x) = Ok (g x)) → map_result f (map h l) = Ok (map g l).
Proof.
  intros Hf. induction l as [|x l IH]; [reflexivity|].
  cbn [map_result map]. rewrite Hf. cbn [bind]. by rewrite IH.
Qed.

Lemma format_entry_label (l : label) :
  format_entry str_repr "description" (label_json l) = Ok (embedded_label l).
Proof.
  unfold format_entry, label_json. cbn [py_getitem].
  rewrite lookup_insert_eq. cbn [bind].
  rewrite lookup_insert_ne by discriminate. rewrite lookup_singleton_eq.
  reflexivity.
Qed.

Lemma format_entry_object (o : detected_object) :
  format_entry str_repr "name" (object_json o) = Ok (embedded_object o).
Proof.
  unfold format_entry, object_json. cbn [py_getitem].
  rewrite lookup_insert_eq. cbn [bind].
  rewrite lookup_insert_ne by discriminate. rewrite lookup_singleton_eq.
  reflexivity.
Qed.

Lemma format_analysis_result_typed (r : AnalysisResult) :
  format_analysis_result str_repr (analysis_json r)
  = Ok (Formatted
          (or_none (join ", " (map embedded_label (result_labels r))))
          (or_none (join ", " (map embedded_object (result_objects r))))
          (if truthy (JStr (result_text r)) then JStr (result_text r)
           else JStr none_ja)).
Proof.
  unfold format_analysis_result, analysis_json. cbn [py_get].
  rewrite lookup_insert_eq. cbn [default from_option id bind py_iter].
  rewrite (map_result_ok _ _ embedded_label) by apply format_entry_label.
  cbn [bind].
  rewrite lookup_insert_ne by discriminate. rewrite lookup_insert_eq.
  cbn [default from_option id bind py_iter].
  rewrite (map_result_ok _ _ embedded_object) by apply format_entry_object.
  cbn [bind].
  rewrite !lookup_insert_ne by discriminate. rewrite lookup_singleton_eq.
  reflexivity.
Qed.

(** A template is its literal pieces with the three values in between. *)
Lemma str_format_segments (scenario template labels objects text : string) :
  lookup_template scenario PROMPT_TEMPLATES = Some template →
  str_format template [("labels", labels); ("objects", objects); ("text", text)]
  = Ok (segment 0 template +:+ labels +:+ segment 1 template +:+ objects
        +:+ segment 2 template +:+ text +:+ segment 3 template).
Proof.
  cbn [PROMPT_TEMPLATES lookup_template].
  destruct (String.eqb scenario "plant"); [intros [= <-]; vm_compute; reflexivity|].
  destruct (String.eqb scenario "closet"); [intros [= <-]; vm_compute; reflexivity|].
  destruct (String.eqb scenario "fridge"); [intros [= <-]; vm_compute; reflexivity|].
  discriminate.
Qed.

Lemma expert_role_in_template (scenario template : string) :
  lookup_template scenario PROMPT_TEMPLATES = Some template →
  contains (expert_role scenario) (segment 0 template) = true.
Proof.
  unfold expert_role. cbn [PROMPT_TEMPLATES lookup_template].
  destruct (String.eqb scenario "plant"); [intros [= <-]; vm_compute; reflexivity|].
  destruct (String.eqb scenario "closet"); [intros [= <-]; vm_compute; reflexivity|].
  destruct (String.eqb scenario "fridge"); [intros [= <-]; vm_compute; reflexivity|].
  discriminate.
Qed.

Lemma known_scenario_template (scenario : string) :
  scenario ∈ template_keys →
  ∃ template, lookup_template scenario PROMPT_TEMPLATES = Some template.
Proof.
  unfold template_keys. cbn [map fst PROMPT_TEMPLATES].
  rewrite !elem_of_cons, elem_of_nil.
  intros [->|[->|[->|[]]]]; eexists; vm_compute; reflexivity.
Qed.

Lemma unknown_scenario_template (scenario : string) :
  scenario ∉ template_keys → lookup_template scenario PROMPT_TEMPLATES = None.
Proof.
  unfold template_keys. cbn [map fst PROMPT_TEMPLATES lookup_template].
  rewrite !elem_of_cons, elem_of_nil. intros Hnot.
  destruct (String.eqb_spec scenario "plant"); [tauto|].
  destruct (String.eqb_spec scenario "closet"); [tauto|].
  destruct (String.eqb_spec scenario "fridge"); [tauto|].
  reflexivity.
Qed.

Lemma construct_prompt_unknown (scenario analysis_result : json) :
  template_of scenario = None →
  ∃ e, construct_prompt str_repr scenario analysis_result = Raise e.
Proof.
  intros Hnone. unfold construct_prompt, in_templates.
  destruct (hashable scenario); cbn [bind]; [|eauto].
  rewrite Hnone. cbn [negb]. eauto.
Qed.

Lemma construct_prompt_unknown_string (scenario : string) (analysis_result : json) :
  scenario ∉ template_keys →
  construct_prompt str_repr (JStr scenario) analysis_result
  = Raise (Exn ValueError ("Invalid scenario: " +:+ scenario)).
Proof.
  intros Hnot%unknown_scenario_template.
  unfold construct_prompt, in_templates. cbn [hashable bind template_of].
  rewrite Hnot. reflexivity.
Qed.

Lemma contains_or_none (s before after : string) :
  contains s (before +:+ or_none s +:+ after) = true.
Proof.
  unfold or_none. destruct (String.eqb_spec s "") as [->|_].
  - apply contains_empty.
  - apply contains_intro.
Qed.

Lemma construct_prompt_known (scenario : string) (r : AnalysisResult) :
  scenario ∈ template_keys →
  ∃ prompt,
    construct_prompt str_repr (JStr scenario) (analysis_json r) = Ok prompt
    ∧ contains (expert_role scenario) prompt = true
    ∧ contains (join ", " (map embedded_label (result_labels r))) prompt = true
    ∧ contains (join ", " (map embedded_object (result_objects r))) prompt = true
    ∧ (∀ l, l ∈ result_labels r → contains (description l) prompt = true)
    ∧ (∀ o, o ∈ result_objects r → contains (name o) prompt = true).
Proof.
  intros (template & Htemplate)%known_scenario_template.
  unfold construct_prompt, in_templates. cbn [hashable bind template_of].
  rewrite Htemplate. cbn [negb].
  replace (bool_decide (is_Some (Some template))) with true by reflexivity.
  cbn [negb]. rewrite format_analysis_result_typed. cbn [bind labels objects text].
  rewrite (str_format_segments scenario) by done.
  eexists. split; [reflexivity|].
  assert (contains (join ", " (map embedded_label (result_labels r)))
            (segment 0 template
             +:+ or_none (join ", " (map embedded_label (result_labels r)))
             +:+ segment 1 template
             +:+ or_none (join ", " (map embedded_object (result_objects r)))
             +:+ segment 2 template
             +:+ py_str str_repr
                   (if truthy (JStr (result_text r)) then JStr (result_text r)
                    else JStr none_ja)
             +:+ segment 3 template) = true) as Hlabels
    by apply contains_or_none.
  assert (contains (join ", " (map embedded_object (result_objects r)))
            (segment 0 template
             +:+ or_none (join ", " (map embedded_label (result_labels r)))
             +:+ segment 1 template
             +:+ or_none (join ", " (map embedded_object (result_objects r)))
             +:+ segment 2 template
             +:+ py_str str_repr
                   (if truthy (JStr (result_text r)) then JStr (result_text r)
                    else JStr none_ja)
             +:+ segment 3 template) = true) as Hobjects.
  { apply contains_append_r, contains_append_r, contains_or_none. }
  split; [|split; [|split; [|split]]].
  - apply contains_append_l, expert_role_in_template, Htemplate.
  - exact Hlabels.
  - exact Hobjects.
  - intros l Hl. eapply contains_trans; [|exact Hlabels].
    apply (contains_trans _ (embedded_label l)).
    + unfold embedded_label. apply (contains_intro "" (description l)).
    + apply contains_join. apply list_elem_of_In, in_map, list_elem_of_In, Hl.
  - intros o Ho. eapply contains_trans; [|exact Hobjects].
    apply (contains_trans _ (embedded_object o)).
    + unfold embedded_object. apply (contains_intro "" (name o)).
    + apply contains_join. apply list_elem_of_In, in_map, list_elem_of_In, Ho.
Qed.

End PromptProperties.

Section AdvisorPromptProperties.

Variable str_repr : json → string.

Import MessageGenerator AdvisorMessageGenerator.

Lemma top_items_labels (n : nat) (ls : list label) :
  top_items n "description" (JArr (map label_json ls))
  = Ok (map (fun l => JStr (description l)) (take n ls)).
Proof.
  cbn [top_items]. rewrite firstn_map. apply map_result_ok.
  intros l. unfold label_json. cbn [py_getitem].
  by rewrite lookup_insert_eq.
Qed.

Lemma top_items_objects (n : nat) (os : list detected_object) :
  top_items n "name" (JArr (map object_json os))
  = Ok (map (fun o => JStr (name o)) (take n os)).
Proof.
  cbn [top_items]. rewrite firstn_map. apply map_result_ok.
  intros o. unfold object_json. cbn [py_getitem].
  by rewrite lookup_insert_eq.
Qed.

Lemma join_items_strings {A : Type} (f : A → string) (l : list A) :
  join_items (map (fun x => JStr (f x)) l) = Ok (join ", " (map f l)).
Proof.
  unfold join_items. by rewrite (map_result_ok _ _ f).
Qed.

Lemma contains_if (x a b : string) (c : bool) :
  contains x a = true → contains x b = true →
  contains x (if c then a else b) = true.
Proof. by destruct c. Qed.

(** Strip what is appended to the opening block of the prompt. *)
Ltac to_opening_block :=
  lazymatch goal with
  | |- contains _ (_ +:+ (py_str _ _ +:+ _)) = true => idtac
  | |- contains _ (if _ then _ else _) = true => apply contains_if; to_opening_block
  | |- contains _ (_ +:+ _) = true => apply contains_append_l; to_opening_block
  end.

(** The prompt of the advisor variant: it is built for any [properties],
    whatever the environment type, opens with one fixed preamble and embeds
    the first five labels and the first ten objects. *)
Lemma advisor_construct_prompt_top (ls : list label) (os : list detected_object)
    (text context : json) (properties : gmap string json) :
  ∃ prompt,
    _construct_prompt str_repr (JArr (map label_json ls)) (JArr (map object_json os))
      text (JObj properties) context = Ok prompt
    ∧ contains "You are an expert housekeeping advisor." prompt = true
    ∧ contains (join ", " (map description (take 5 ls))) prompt = true
    ∧ contains (join ", " (map name (take 10 os))) prompt = true.
Proof.
  unfold _construct_prompt. cbn [py_get bind].
  rewrite top_items_labels, top_items_objects. cbn [bind].
  rewrite !join_items_strings. cbn [bind].
  eexists. split; [reflexivity|].
  split; [|split].
  - to_opening_block; apply contains_append_l; vm_compute; reflexivity.
  - to_opening_block; do 9 apply contains_append_r;
      apply contains_append_l, contains_refl.
  - to_opening_block; do 7 apply contains_append_r;
      apply contains_append_l, contains_refl.
Qed.

End AdvisorPromptProperties.

(** C4 (as amended).  [construct_prompt] fails on every scenario that is
    not a key of the template table, whatever the analysis result.  For a
    known scenario and an analysis result of the data model it returns a
    prompt that contains the expert-role sentence of the scenario and every
    label and every object passed in, comma-joined.  [_construct_prompt], the
    prompt builder of the advisor variant, takes no scenario and never fails
    on the environment type: its prompt opens with one fixed preamble and
    embeds the first five labels and the first ten objects, comma-joined. *)
Theorem construct_prompt_scenarios (str_repr : json → string) :
  (∀ scenario analysis_result : json,
     MessageGenerator.template_of scenario = None →
     ∃ e, MessageGenerator.construct_prompt str_repr scenario analysis_result
          = Raise e)
  ∧ (∀ (scenario : string) (r : MessageGenerator.AnalysisResult),
       scenario ∈ MessageGenerator.template_keys →
       ∃ prompt,
         MessageGenerator.construct_prompt str_repr (JStr scenario)
           (MessageGenerator.analysis_json r) = Ok prompt
         ∧ contains (MessageGenerator.expert_role scenario) prompt = true
         ∧ contains (join ", " (map MessageGenerator.embedded_label
                                  (MessageGenerator.result_labels r))) prompt = true
         ∧ contains (join ", " (map MessageGenerator.embedded_object
                                  (MessageGenerator.result_objects r))) prompt = true
         ∧ (∀ l, l ∈ MessageGenerator.result_labels r →
                 contains (MessageGenerator.description l) prompt = true)
         ∧ (∀ o, o ∈ MessageGenerator.result_objects r →
                 contains (MessageGenerator.name o) prompt = true))
  ∧ (∀ (ls : list MessageGenerator.label) (os : list MessageGenerator.detected_object)
       (text context : json) (properties : gmap string json),
       ∃ prompt,
         AdvisorMessageGenerator._construct_prompt str_repr
           (JArr (map MessageGenerator.label_json ls))
           (JArr (map MessageGenerator.object_json os))
           text (JObj properties) context = Ok prompt
         ∧ contains "You are an expert housekeeping advisor." prompt = true
         ∧ contains (join ", " (map MessageGenerator.description (take 5 ls))) prompt
           = true
         ∧ contains (join ", " (map MessageGenerator.name (take 10 os))) prompt
           = true).
Proof.
  split; [|split].
  - apply construct_prompt_unknown.
  - apply construct_prompt_known.
  - apply advisor_construct_prompt_top.
Qed.

Lemma construct_prompt_scenarios_witness :
  ∃ prompt,
    MessageGenerator.construct_prompt (fun _ => "") (JStr "plant")
      (MessageGenerator.analysis_json
         (MessageGenerator.MkAnalysisResult
            [ MessageGenerator.Label "Plant" (double 0.95);
              MessageGenerator.Label "Leaf" (double 0.9) ]
            [MessageGenerator.DetectedObject "Potted plant" (double 0.98)]
            "Plant care instructions")) = Ok prompt
    ∧ contains "Plant (0.95), Leaf (0.90)" prompt = true
    ∧ contains "Potted plant (0.98)" prompt = true.
Proof.
  destruct (proj1 (proj2 (construct_prompt_scenarios (fun _ => ""))) "plant"
              (MessageGenerator.MkAnalysisResult
                 [ MessageGenerator.Label "Plant" (double 0.95);
                   MessageGenerator.Label "Leaf" (double 0.9) ]
                 [MessageGenerator.DetectedObject "Potted plant" (double 0.98)]
                 "Plant care instructions"))
    as (prompt & Hprompt & _ & Hlabels & Hobjects & _).
  { vm_compute. apply list_elem_of_here. }
  exists prompt. split; [exact Hprompt|]. split; [exact Hlabels|exact Hobjects].
Defined.

(** The advisor variant builds a prompt for an environment type it has no
    focus block for, and leaves the sixth label out of it. *)
Lemma advisor_construct_prompt_counterexample :
  ∃ prompt,
    AdvisorMessageGenerator._construct_prompt (fun _ => "")
      (JArr (map MessageGenerator.label_json
               [ MessageGenerator.Label "Kitchen" (double 0.95);
                 MessageGenerator.Label "Room" (double 0.92);
                 MessageGenerator.Label "Countertop" (double 0.88);
                 MessageGenerator.Label "Cabinetry" (double 0.85);
                 MessageGenerator.Label "Sink" (double 0.82);
                 MessageGenerator.Label "Toaster" (double 0.80) ]))
      (JArr []) (JStr "")
      (JObj {[ "environment_type" := JStr "garage" ]}) JNull = Ok prompt
    ∧ contains "Sink" prompt = true
    ∧ contains "Toaster" prompt = false.
Proof.
  eexists. split; [vm_compute; reflexivity|].
  split; vm_compute; reflexivity.
Qed.

(** ** Scores *)

Section ScoreProperties.

Lemma round_half_even_lower (q : Q) (k : Z) :
  (inject_Z k <= q)%Q → (k ≤ round_half_even q)%Z.
Proof.
  unfold Qle, round_half_even. destruct q as [n d]. cbn [Qnum Qden inject_Z].
  rewrite Z.mul_1_r. intros Hle.
  assert (k ≤ n / Z.pos d)%Z as Hdiv.
  { apply Z.div_le_lower_bound; lia. }
  destruct (2 * (n mod Z.pos d) ?= Z.pos d)%Z; [destruct (Z.even _)| |]; lia.
Qed.

(** Rounding to the nearest integer: what is above [k - 1/2] rounds to [k]
    at least, and the result is within a half of the argument. *)
Lemma round_half_even_above (q : Q) (k : Z) :
  (inject_Z k - (1 # 2) < q)%Q → (k ≤ round_half_even q)%Z.
Proof.
  unfold Qlt, Qminus, Qplus, Qopp, round_half_even. destruct q as [n d].
  cbn [Qnum Qden inject_Z]. intros Hlt.
  pose proof (Z.div_mod n (Z.pos d) ltac:(lia)) as Hdm.
  pose proof (Z.mod_pos_bound n (Z.pos d) ltac:(lia)) as Hmod.
  destruct (Z.compare_spec (2 * (n mod Z.pos d)) (Z.pos d));
    [destruct (Z.even _)| |]; nia.
Qed.

Lemma round_half_even_near (q : Q) : (q - (1 # 2) <= inject_Z (round_half_even q))%Q.
Proof.
  unfold Qle, Qminus, Qplus, Qopp, round_half_even. destruct q as [n d].
  cbn [Qnum Qden inject_Z].
  pose proof (Z.div_mod n (Z.pos d) ltac:(lia)) as Hdm.
  pose proof (Z.mod_pos_bound n (Z.pos d) ltac:(lia)) as Hmod.
  destruct (Z.compare_spec (2 * (n mod Z.pos d)) (Z.pos d));
    [destruct (Z.even _)| |]; nia.
Qed.

Lemma pow2_pos (e : Z) : (0 < pow2 e)%Q.
Proof. by apply Qpower_0_lt. Qed.

Lemma pow2_add (a b : Z) : (pow2 (a + b) == pow2 a * pow2 b)%Q.
Proof. by apply Qpower_plus. Qed.

Lemma pow2_nonneg (e : Z) : (0 ≤ e)%Z → (pow2 e == inject_Z (2 ^ e))%Q.
Proof. intros He. unfold pow2. by rewrite (Zpower_Qpower 2 e He). Qed.

(** The power of two below the one [ulp_exponent] starts from is not above
    [q]. *)
Lemma pow2_log2_below (q : Q) :
  (0 < q)%Q →
  (pow2 (Z.log2 (Qnum q) - Z.log2 (Zpos (Qden q)) - 1) <= q)%Q.
Proof.
  destruct q as [n d]. unfold Qlt. cbn [Qnum Qden]. intros Hn.
  assert (0 < n)%Z as Hpos by lia. clear Hn.
  pose proof (Z.log2_spec n Hpos) as [Hn _].
  pose proof (Z.log2_spec (Z.pos d) ltac:(lia)) as [_ Hd].
  pose proof (Z.log2_nonneg n) as Hln.
  pose proof (Z.log2_nonneg (Z.pos d)) as Hld.
  replace (Z.log2 n - Z.log2 (Z.pos d) - 1)%Z
    with (Z.log2 n + - Z.succ (Z.log2 (Z.pos d)))%Z by lia.
  rewrite pow2_add.
  assert (pow2 (Z.succ (Z.log2 (Z.pos d))) * pow2 (- Z.succ (Z.log2 (Z.pos d))) == 1)%Q
    as Hinv.
  { rewrite <- pow2_add. by replace (_ + - _)%Z with 0%Z by lia. }
  apply (Qmult_le_r _ _ (pow2 (Z.succ (Z.log2 (Z.pos d))))); [apply pow2_pos|].
  rewrite <- Qmult_assoc, (Qmult_comm (pow2 (- _))), Hinv, Qmult_1_r.
  rewrite !pow2_nonneg by lia.
  unfold Qle, Qmult. cbn [Qnum Qden inject_Z].
  nia.
Qed.

(** From one half on, a number is at least [2 ^ 52] units in the last
    place. *)
Lemma ulp_exponent_below (q : Q) :
  (1 # 2 <= q)%Q → (pow2 (ulp_exponent q + 52) <= q)%Q.
Proof.
  intros Hq. unfold ulp_exponent.
  assert (0 < q)%Q as Hpos by (eapply Qlt_le_trans; [|exact Hq]; reflexivity).
  set (l := (Z.log2 (Qnum q) - Z.log2 (Z.pos (Qden q)))%Z).
  pose proof (pow2_log2_below q Hpos) as Hbelow. fold l in Hbelow.
  assert (∀ k, (k < -1)%Z → (pow2 k < 1 # 2)%Q) as Hsmall.
  { intros k Hk. replace k with (-1 + (k + 1))%Z by lia. rewrite pow2_add.
    assert (pow2 (k + 1) < 1)%Q as H1.
    { apply (Qmult_lt_r _ _ (pow2 (- (k + 1)))); [apply pow2_pos|].
      rewrite <- pow2_add, Qmult_1_l. replace (k + 1 + - (k + 1))%Z with 0%Z by lia.
      change (pow2 0) with 1%Q. rewrite (pow2_nonneg (- (k + 1))) by lia.
      assert (2 ^ 1 ≤ 2 ^ (- (k + 1)))%Z as Hpow by (apply Z.pow_le_mono_r; lia).
      change (2 ^ 1)%Z with 2%Z in Hpow.
      unfold Qlt. cbn [Qnum Qden inject_Z]. lia. }
    change (pow2 (-1)) with (1 # 2)%Q.
    rewrite <- (Qmult_1_r (1 # 2)) at 2.
    apply Qmult_lt_l; [reflexivity|exact H1]. }
  destruct (Qle_bool (pow2 l) q) eqn:Hle.
  - apply Qle_bool_iff in Hle.
    destruct (Z_lt_le_dec (l - 52) (-1074)) as [Hlow|Hhigh].
    + rewrite Z.max_r by lia.
      eapply Qle_trans; [|exact Hq].
      apply Qlt_le_weak, Hsmall. lia.
    + rewrite Z.max_l by lia. by replace (l - 52 + 52)%Z with l by lia.
  - destruct (Z_lt_le_dec (l - 1 - 52) (-1074)) as [Hlow|Hhigh].
    + rewrite Z.max_r by lia.
      eapply Qle_trans; [|exact Hq].
      apply Qlt_le_weak, Hsmall. lia.
    + rewrite Z.max_l by lia. by replace (l - 1 - 52 + 52)%Z with (l - 1)%Z by lia.
Qed.

(** Rounding to a binary64 number loses at most one part in [2 ^ 53]. *)
Lemma double_lower (q : Q) :
  (1 # 2 <= q)%Q → (q * (1 - pow2 (-53)) <= double q)%Q.
Proof.
  intros Hq.
  assert (0 < q)%Q as Hpos by (eapply Qlt_le_trans; [|exact Hq]; reflexivity).
  unfold double.
  assert ((Qnum q =? 0)%Z = false) as ->
    by (apply Z.eqb_neq; unfold Qlt in Hpos; cbn in Hpos; lia).
  assert ((Qnum q <? 0)%Z = false) as ->
    by (apply Z.ltb_ge; unfold Qlt in Hpos; cbn in Hpos; lia).
  cbv zeta. rewrite Qred_correct, Qmult_1_l.
  assert (Qabs q = q) as ->.
  { destruct q as [n d]. unfold Qabs. f_equal. unfold Qlt in Hpos. cbn in Hpos. lia. }
  set (e := ulp_exponent q).
  pose proof (ulp_exponent_below q Hq) as Hbelow. fold e in Hbelow.
  pose proof (round_half_even_near (q / pow2 e)) as Hnear.
  pose proof (pow2_pos e) as He.
  apply (Qmult_le_compat_r _ _ (pow2 e)) in Hnear; [|by apply Qlt_le_weak].
  eapply Qle_trans; [|exact Hnear].
  assert ((q / pow2 e - (1 # 2)) * pow2 e == q - (1 # 2) * pow2 e)%Q as ->.
  { field. intros H0. rewrite H0 in He. by apply Qlt_irrefl in He. }
  assert ((1 # 2) * pow2 e == pow2 (e + 52) * pow2 (-53))%Q as ->.
  { rewrite <- pow2_add. replace (e + 52 + -53)%Z with (-1 + e)%Z by lia.
    by rewrite pow2_add. }
  assert (q * (1 - pow2 (-53)) == q - q * pow2 (-53))%Q as -> by ring.
  apply Qplus_le_r, Qopp_le_compat, Qmult_le_compat_r; [exact Hbelow|].
  apply Qlt_le_weak, pow2_pos.
Qed.

(** The threshold is the binary64 number of the literal [0.6], a little
    below six tenths. *)
Lemma MIN_CONFIDENCE_SCORE_value :
  ImageProcessor.MIN_CONFIDENCE_SCORE = 5404319552844595 # 9007199254740992.
Proof. vm_compute. reflexivity. Qed.

(** The [float] nearest to a number of hundredths from 60 on is not below
    the threshold. *)
Lemma double_hundredths_threshold (n : Z) :
  (60 ≤ n)%Z → (ImageProcessor.MIN_CONFIDENCE_SCORE <= double (n # 100))%Q.
Proof.
  intros Hn. destruct (decide (n = 60%Z)) as [->|Hne].
  { vm_compute. discriminate. }
  eapply Qle_trans; [|apply double_lower].
  - rewrite MIN_CONFIDENCE_SCORE_value.
    assert (1 - pow2 (-53) == 9007199254740991 # 9007199254740992)%Q as ->
      by (vm_compute; reflexivity).
    unfold Qle, Qmult. cbn [Qnum Qden]. lia.
  - unfold Qle. cbn [Qnum Qden]. lia.
Qed.

(** A score that passes the threshold is rounded to the [float] nearest to
    a number of hundredths from 60 on, which passes the threshold too. *)
Lemma round2_threshold (x : Q) :
  (ImageProcessor.MIN_CONFIDENCE_SCORE <= x)%Q →
  (60 ≤ round_half_even (x * 100))%Z
  ∧ (ImageProcessor.MIN_CONFIDENCE_SCORE <= round2 x)%Q.
Proof.
  intros Hx.
  assert (60 ≤ round_half_even (x * 100))%Z as H60.
  { apply round_half_even_above.
    rewrite MIN_CONFIDENCE_SCORE_value in Hx.
    unfold Qle, Qlt, Qminus, Qplus, Qopp, Qmult in *.
    destruct x as [n d]. cbn [Qnum Qden inject_Z] in *. lia. }
  split; [exact H60|]. by apply double_hundredths_threshold.
Qed.

End ScoreProperties.

(** ** The analysis result *)

Section AnalysisProperties.

Import ImageProcessor.

Lemma collect_labels_filter (annotations : list annotation) :
  collect_labels annotations
  = map label_entry
      (filter (fun l => Qle_bool MIN_CONFIDENCE_SCORE (score l) = true) annotations).
Proof.
  induction annotations as [|l rest IH]; [reflexivity|].
  cbn [collect_labels]. rewrite filter_cons.
  destruct (decide (Qle_bool MIN_CONFIDENCE_SCORE (score l) = true)) as [Hk|Hk].
  - rewrite Hk. cbn [map]. by rewrite IH.
  - apply not_true_is_false in Hk. by rewrite Hk.
Qed.

Lemma collect_objects_filter (annotations : list object_annotation) :
  collect_objects annotations
  = map object_entry
      (filter (fun o => Qle_bool MIN_CONFIDENCE_SCORE (object_score o) = true)
         annotations).
Proof.
  induction annotations as [|o rest IH]; [reflexivity|].
  cbn [collect_objects]. rewrite filter_cons.
  destruct (decide (Qle_bool MIN_CONFIDENCE_SCORE (object_score o) = true)) as [Hk|Hk].
  - rewrite Hk. cbn [map]. by rewrite IH.
  - apply not_true_is_false in Hk. by rewrite Hk.
Qed.

Lemma collect_labels_retained (annotations : list annotation) :
  Forall retained (collect_labels annotations).
Proof.
  induction annotations as [|l rest IH]; [constructor|].
  cbn [collect_labels].
  destruct (Qle_bool MIN_CONFIDENCE_SCORE (score l)) eqn:Hk; [|exact IH].
  constructor; [|exact IH].
  apply Qle_bool_iff in Hk.
  exists {[ "description" := JStr (description l);
            "score" := JFloat (round2 (score l)) ]},
         (round_half_even (score l * 100)).
  split; [reflexivity|]. split.
  - rewrite lookup_insert_ne by discriminate. by rewrite lookup_singleton_eq.
  - by apply round2_threshold.
Qed.

Lemma collect_objects_retained (annotations : list object_annotation) :
  Forall retained (collect_objects annotations).
Proof.
  induction annotations as [|o rest IH]; [constructor|].
  cbn [collect_objects].
  destruct (Qle_bool MIN_CONFIDENCE_SCORE (object_score o)) eqn:Hk; [|exact IH].
  constructor; [|exact IH].
  apply Qle_bool_iff in Hk.
  exists {[ "name" := JStr (name o);
            "score" := JFloat (round2 (object_score o)) ]},
         (round_half_even (object_score o * 100)).
  split; [reflexivity|]. split.
  - rewrite lookup_insert_ne by discriminate. by rewrite lookup_singleton_eq.
  - by apply round2_threshold.
Qed.

(** What [analyze_image] returns once the client exists and its three
    calls answer. *)
Lemma analyze_image_result (client : vision_client) (image_bytes : list byte)
    (label_response : list annotation) (object_response : list object_annotation)
    (text_response : list annotation) :
  label_detection client image_bytes = Ok label_response →
  object_localization client image_bytes = Ok object_response →
  text_detection client image_bytes = Ok text_response →
  analyze_image (Ok client) image_bytes
  = Ok (JObj {[ "labels" := JArr (collect_labels label_response);
                "objects" := JArr (collect_objects object_response);
                "text" := JStr match text_response with
                               | [] => ""
                               | first :: _ => description first
                               end ]}).
Proof.
  intros Hl Ho Ht. unfold analyze_image. cbn [bind].
  rewrite Hl, Ho, Ht. cbn [bind].
  by destruct label_response, object_response.
Qed.

End AnalysisProperties.

Section AdvisorAnalysisProperties.

Import AdvisorImageProcessor.

Lemma map_label_id (l : list label) :
  map (fun label => Label (description label) (score label) (topicality label)) l = l.
Proof. induction l as [|[d s t] l IH]; [reflexivity|]. cbn [map]. by rewrite IH. Qed.

(** With a provider the advisor variant reports every label annotation,
    whatever its score. *)
Lemma advisor_process_image_labels
    (annotate_image : list byte → result annotate_response)
    (image_content : list byte) (response : annotate_response) :
  annotate_image image_content = Ok response →
  ∃ r, process_image (Some annotate_image) image_content = Returned r
       ∧ labels r = label_annotations response.
Proof.
  intros H. unfold process_image, analyse. rewrite H. cbn [bind].
  eexists. split; [reflexivity|]. cbn [labels]. apply map_label_id.
Qed.

Lemma advisor_mock_scores :
  Forall (fun l => (ImageProcessor.MIN_CONFIDENCE_SCORE <= score l)%Q) mock_labels
  ∧ Forall (fun o => (ImageProcessor.MIN_CONFIDENCE_SCORE <= object_score o)%Q)
      mock_objects.
Proof.
  split; repeat constructor; vm_compute; discriminate.
Qed.

Lemma advisor_process_image_mock (image_content : list byte) :
  process_image None image_content
  = Returned
      (MkImageAnalysisResponse mock_labels mock_objects (Some mock_text) mock_colors
         {[ "environment_type" := "kitchen";
            "cleanliness_level" := "clean";
            "organization_level" := "minimal" ]}).
Proof. vm_compute. reflexivity. Qed.

End AdvisorAnalysisProperties.

(** C3 (as amended).  For every answer of the provider, the analysis result
    of [analyze_image] holds exactly the labels and the objects whose score
    is at least the threshold, the [float] [0.6], in order, each under its
    description or name with its score rounded to two decimals: every score
    it reports is the [float] nearest to a number of hundredths, from 0.60
    on, and is not below the threshold.  Its text is the first text
    annotation, or the empty string.
    The mock result of the advisor variant has no label and no object below
    the threshold either.  With a provider, the advisor variant has no
    threshold: it reports every label annotation with the score it came
    with. *)
Theorem analysis_result_threshold :
  (∀ (client : ImageProcessor.vision_client) (image_bytes : list byte)
     label_response object_response text_response,
     ImageProcessor.label_detection client image_bytes = Ok label_response →
     ImageProcessor.object_localization client image_bytes = Ok object_response →
     ImageProcessor.text_detection client image_bytes = Ok text_response →
     ∃ labels objects text,
       ImageProcessor.analyze_image (Ok client) image_bytes
       = Ok (JObj {[ "labels" := JArr labels; "objects" := JArr objects;
                     "text" := JStr text ]})
       ∧ labels
         = map (fun l =>
                  JObj {[ "description" := JStr (ImageProcessor.description l);
                          "score" := JFloat (round2 (ImageProcessor.score l)) ]})
             (filter (fun l => Qle_bool (double 0.6) (ImageProcessor.score l) = true)
                label_response)
       ∧ objects
         = map (fun o =>
                  JObj {[ "name" := JStr (ImageProcessor.name o);
                          "score" := JFloat (round2 (ImageProcessor.object_score o)) ]})
             (filter (fun o => Qle_bool (double 0.6) (ImageProcessor.object_score o)
                                 = true)
                object_response)
       ∧ text = match text_response with
                | [] => ""
                | first :: _ => ImageProcessor.description first
                end
       ∧ Forall ImageProcessor.retained labels
       ∧ Forall ImageProcessor.retained objects)
  ∧ (∀ image_content : list byte,
       ∃ r, AdvisorImageProcessor.process_image None image_content
            = AdvisorImageProcessor.Returned r
            ∧ Forall (fun l => (ImageProcessor.MIN_CONFIDENCE_SCORE
                                <= AdvisorImageProcessor.score l)%Q)
                (AdvisorImageProcessor.labels r)
            ∧ Forall (fun o => (ImageProcessor.MIN_CONFIDENCE_SCORE
                                <= AdvisorImageProcessor.object_score o)%Q)
                (AdvisorImageProcessor.objects r))
  ∧ (∀ annotate_image image_content response,
       annotate_image image_content = Ok response →
       ∃ r, AdvisorImageProcessor.process_image (Some annotate_image) image_content
            = AdvisorImageProcessor.Returned r
            ∧ AdvisorImageProcessor.labels r
              = AdvisorImageProcessor.label_annotations response).
Proof.
  split; [|split].
  - intros client image_bytes la oa ta Hl Ho Ht.
    eexists _, _, _. split; [by apply analyze_image_result|].
    split; [apply collect_labels_filter|].
    split; [apply collect_objects_filter|]. split; [reflexivity|].
    split; [apply collect_labels_retained|apply collect_objects_retained].
  - intros image_content. eexists. split; [apply advisor_process_image_mock|].
    apply advisor_mock_scores.
  - apply advisor_process_image_labels.
Qed.

Lemma analysis_result_threshold_witness :
  let client :=
    ImageProcessor.VisionClient
      (fun _ => Ok [ ImageProcessor.Annotation "Kitchen" (double 0.615);
                     ImageProcessor.Annotation "Room" (double 0.6);
                     ImageProcessor.Annotation "Blur" (double 0.41) ])
      (fun _ => Ok [ ImageProcessor.ObjectAnnotation "Refrigerator" (double 0.984) ])
      (fun _ => Ok [ ImageProcessor.Annotation "Sample Text" 0 ]) in
  ImageProcessor.analyze_image (Ok client) []
  = Ok (JObj {[ "labels" :=
                  JArr [ JObj {[ "description" := JStr "Kitchen";
                                 "score" := JFloat (double 0.61) ]};
                         JObj {[ "description" := JStr "Room";
                                 "score" := JFloat (double 0.6) ]} ];
                "objects" :=
                  JArr [ JObj {[ "name" := JStr "Refrigerator";
                                 "score" := JFloat (double 0.98) ]} ];
                "text" := JStr "Sample Text" ]}).
Proof.
  intros client.
  destruct (proj1 analysis_result_threshold client [] _ _ _ eq_refl eq_refl eq_refl)
    as (labels & objects & text & Hresult & -> & -> & -> & _).
  rewrite Hresult. clear Hresult.
  vm_compute. reflexivity.
Defined.

(** With a provider the advisor variant reports a label of score 0.3. *)
Lemma advisor_unfiltered_counterexample :
  ∃ r,
    AdvisorImageProcessor.process_image
      (Some (fun _ =>
               Ok (AdvisorImageProcessor.AnnotateResponse
                     [ AdvisorImageProcessor.Label "Blur" (double 0.3) (double 0.3) ]
                     [] [] None)))
      []
    = AdvisorImageProcessor.Returned r
    ∧ AdvisorImageProcessor.labels r
      = [ AdvisorImageProcessor.Label "Blur" (double 0.3) (double 0.3) ]
    ∧ ¬ (ImageProcessor.MIN_CONFIDENCE_SCORE <= double 0.3)%Q.
Proof.
  eexists. split; [vm_compute; reflexivity|]. split; [reflexivity|].
  vm_compute. intros H. by apply H.
Qed.

(** C8.  When the vision client could not be created at start-up, the
    advisor variant answers every image with the same mock analysis: its
    fixed labels, objects, text and colours, and the properties the
    heuristics derive from them, [kitchen], [clean] and [minimal]. *)
Theorem process_image_mock_fallback (image_content : list byte) :
  ∃ r,
    AdvisorImageProcessor.process_image None image_content
    = AdvisorImageProcessor.Returned r
    ∧ AdvisorImageProcessor.labels r = AdvisorImageProcessor.mock_labels
    ∧ map AdvisorImageProcessor.description (AdvisorImageProcessor.labels r)
      = ["Kitchen"; "Room"; "Countertop"; "Cabinetry"; "Sink"; "Appliance"; "Clean"]
    ∧ AdvisorImageProcessor.objects r = AdvisorImageProcessor.mock_objects
    ∧ map AdvisorImageProcessor.name (AdvisorImageProcessor.objects r)
      = ["Sink"; "Refrigerator"; "Oven"]
    ∧ AdvisorImageProcessor.text r = Some "Kitchen with modern appliances"
    ∧ AdvisorImageProcessor.colors r = AdvisorImageProcessor.mock_colors
    ∧ AdvisorImageProcessor.properties r
      = {[ "environment_type" := "kitchen";
           "cleanliness_level" := "clean";
           "organization_level" := "minimal" ]}
    ∧ AdvisorImageProcessor.scan_environment (AdvisorImageProcessor.labels r)
        {[ "environment_type" := "unknown" ]}
      = {[ "environment_type" := "kitchen" ]}
    ∧ AdvisorImageProcessor.scan_cleanliness
        AdvisorImageProcessor.cleanliness_indicators (AdvisorImageProcessor.labels r)
        {[ "cleanliness_level" := "unknown" ]}
      = {[ "cleanliness_level" := "clean" ]}
    ∧ AdvisorImageProcessor.organization_level (AdvisorImageProcessor.objects r)
      = "minimal"
    ∧ length (AdvisorImageProcessor.objects r) = 3.
Proof.
  eexists. split; [apply advisor_process_image_mock|].
  cbn [AdvisorImageProcessor.labels AdvisorImageProcessor.objects
       AdvisorImageProcessor.text AdvisorImageProcessor.colors
       AdvisorImageProcessor.properties].
  repeat split; vm_compute; reflexivity.
Qed.

(** ** Decoding the image *)

Section DecodeProperties.

Import ImageProcessor.

Lemma starts_with_append_l (p a b : string) :
  starts_with p a = true → starts_with p (a +:+ b) = true.
Proof.
  intros (r & ->)%starts_with_inv. rewrite append_assoc. apply starts_with_append.
Qed.

Ltac absurd_char :=
  repeat match goal with
    | H : (_ && _) = true |- _ => apply andb_true_iff in H as [? ?]
    end;
  match goal with
  | H : Ascii.eqb _ _ = true |- _ => vm_compute in H; discriminate H
  end.

(** The marker does not overlap itself: an occurrence that starts inside
    [a] and is found in [a] followed by the marker lies within [a]. *)
Lemma marker_no_overlap (a rest : string) :
  starts_with "base64," (a +:+ "base64," +:+ rest) = true →
  a = "" ∨ starts_with "base64," a = true.
Proof.
  destruct a as [|c1 [|c2 [|c3 [|c4 [|c5 [|c6 [|c7 a]]]]]]];
    [by left|..]; intros H; right;
    rewrite !append_cons, ?append_nil_l in H; cbn [starts_with] in H;
    try absurd_char.
  cbn [starts_with]. repeat (apply andb_true_iff in H as [-> H]). reflexivity.
Qed.

Lemma contains_cons_false (n : string) (c : ascii) (h : string) :
  contains n (String c h) = false →
  starts_with n (String c h) = false ∧ contains n h = false.
Proof. cbn [contains]. by intros [? ?]%orb_false_iff. Qed.

Lemma split_go_nonempty (sep : string) (skip : nat) (cur s : string) :
  split_go sep skip cur s ≠ [].
Proof.
  revert skip cur. induction s as [|c s IH]; intros skip cur; cbn [split_go].
  - discriminate.
  - destruct skip; [|apply IH].
    destruct (starts_with sep (String c s)); [discriminate|apply IH].
Qed.

(** Up to the first occurrence of the marker. *)
Lemma split_go_first (a rest cur : string) :
  contains "base64," a = false →
  split_go "base64," 0 cur (a +:+ "base64," +:+ rest)
  = (cur +:+ a) :: split_go "base64," 0 "" rest.
Proof.
  revert cur. induction a as [|c a IH]; intros cur Ha.
  - rewrite append_nil_l, append_nil_r. reflexivity.
  - apply contains_cons_false in Ha as [Hhere Ha].
    rewrite append_cons. cbn [split_go].
    destruct (starts_with "base64," (String c (a +:+ "base64," +:+ rest))) eqn:Hs.
    + rewrite <- append_cons in Hs.
      apply marker_no_overlap in Hs as [?|Hs]; [discriminate|congruence].
    + rewrite IH by done. by rewrite append_assoc.
Qed.

(** A string without the marker is one piece. *)
Lemma split_go_none (r cur : string) :
  contains "base64," r = false → split_go "base64," 0 cur r = [cur +:+ r].
Proof.
  revert cur. induction r as [|c r IH]; intros cur Hr.
  - by rewrite append_nil_r.
  - apply contains_cons_false in Hr as [Hhere Hr].
    cbn [split_go]. rewrite Hhere, IH by done. by rewrite append_assoc.
Qed.

Lemma split_go_second (s cur : string) :
  contains "base64," s = true → is_Some (split_go "base64," 0 cur s !! 1).
Proof.
  revert cur. induction s as [|c s IH]; intros cur Hs; [discriminate|].
  cbn [split_go contains] in *.
  destruct (starts_with "base64," (String c s)).
  - pose proof (split_go_nonempty "base64," (String.length "base64," - 1) "" s).
    destruct (split_go "base64," (String.length "base64," - 1) "" s); [done|].
    by eexists.
  - apply IH. exact Hs.
Qed.

Lemma strip_marker_none (s : string) :
  contains "base64," s = false → strip_marker s = Ok s.
Proof. intros H. unfold strip_marker. by rewrite H. Qed.

Lemma strip_marker_once (a r : string) :
  contains "base64," a = false → contains "base64," r = false →
  strip_marker (a +:+ "base64," +:+ r) = Ok r.
Proof.
  intros Ha Hr. unfold strip_marker, after_marker, split.
  rewrite contains_intro, split_go_first, split_go_none by done.
  reflexivity.
Qed.

Lemma strip_marker_twice (a b c : string) :
  contains "base64," a = false → contains "base64," b = false →
  strip_marker (a +:+ "base64," +:+ b +:+ "base64," +:+ c) = Ok b.
Proof.
  intros Ha Hb. unfold strip_marker, after_marker, split.
  rewrite contains_intro, split_go_first, split_go_first by done.
  reflexivity.
Qed.

Lemma strip_marker_total (s : string) : ∃ payload, strip_marker s = Ok payload.
Proof.
  unfold strip_marker, after_marker, split.
  destruct (contains "base64," s) eqn:Hs; [|by eexists].
  destruct (split_go_second s "" Hs) as [payload ->]. by eexists.
Qed.

Lemma decode_image_payload (s payload : string) :
  strip_marker s = Ok payload →
  decode_image s
  = match b64decode payload with
    | Ok image_bytes => Ok image_bytes
    | Raise e => Raise (Exn ValueError ("Invalid image data: " +:+ exn_str e))
    end.
Proof. intros H. unfold decode_image. by rewrite H. Qed.

Lemma decode_image_raises_value_error (s : string) (e : exn) :
  decode_image s = Raise e → exn_kind e = ValueError.
Proof.
  destruct (strip_marker_total s) as [payload H].
  rewrite (decode_image_payload _ _ H).
  destruct (b64decode payload); [discriminate|]. by intros [= <-].
Qed.

End DecodeProperties.

Section Base64Properties.

Import ImageProcessor.

Lemma bind_ok_iff {A B : Type} (r : result A) (f : A → B) :
  (∃ b, (do a <- r; Ok (f a)) = Ok b) ↔ (∃ a, r = Ok a).
Proof.
  destruct r as [a|e]; cbn [bind].
  - split; intros _; eauto.
  - split; intros [? ?]; discriminate.
Qed.

(** Without pad characters the loop succeeds exactly when it ends on a
    boundary between groups of four alphabet characters. *)
Lemma a2b_base64_go_unpadded (s : string) (quad_pos : nat) (leftchar : N)
    (pads written : nat) :
  quad_pos < 4 →
  contains "=" s = false →
  (∃ bs, a2b_base64_go quad_pos leftchar pads written s = Ok bs)
  ↔ (∃ k, quad_pos + data_characters s = 4 * k).
Proof.
  revert quad_pos leftchar pads written.
  induction s as [|c s IH]; intros q l p w Hq Hpad.
  - cbn [a2b_base64_go data_characters].
    destruct q as [|[|q]].
    + split; intros _; [by exists 0|eauto].
    + split; [intros [? ?]; discriminate|intros [k Hk]; lia].
    + split; [intros [? ?]; discriminate|intros [k Hk]; lia].
  - apply contains_cons_false in Hpad as [Hc Hpad].
    cbn [starts_with] in Hc. rewrite andb_true_r, eqb_sym in Hc.
    cbn [a2b_base64_go data_characters]. rewrite Hc.
    destruct (b64_value c) as [v|].
    + destruct q as [|[|[|q]]].
      * rewrite IH by (done || lia).
        split; intros [k Hk]; exists k; lia.
      * rewrite bind_ok_iff, IH by (done || lia).
        split; intros [k Hk]; exists k; lia.
      * rewrite bind_ok_iff, IH by (done || lia).
        split; intros [k Hk]; exists k; lia.
      * rewrite bind_ok_iff, IH by (done || lia).
        split; intros [k Hk]; [exists (S k)|exists (k - 1)]; lia.
    + rewrite IH by done. split; intros [k Hk]; exists k; lia.
Qed.

Lemma b64decode_unpadded (s : string) :
  is_ascii s = true →
  contains "=" s = false →
  (∃ bs, b64decode s = Ok bs) ↔ (∃ k, data_characters s = 4 * k).
Proof.
  intros Hascii Hpad. unfold b64decode. rewrite Hascii.
  by rewrite a2b_base64_go_unpadded by (done || lia).
Qed.

End Base64Properties.

Section DecodeClaims.

Import ImageProcessor.

Variable ImageAnnotatorClient : result vision_client.
Variable get_vision_api_key : result string.

#[local] Abbreviation process_image :=
  (ImageProcessor.process_image ImageAnnotatorClient get_vision_api_key).

(** A decoding error of the image ends the request with status 400 and the
    message of the error. *)
Lemma process_image_decode_error (request : flask_request)
    (m : gmap string json) (image_data : string) (e : exn) :
  method request = "POST" →
  get_json request = JObj m →
  m !! "image_data" = Some (JStr image_data) →
  image_data ≠ "" →
  decode_image image_data = Raise e →
  status_code (make_response (process_image request)) = 400%Z
  ∧ data (make_response (process_image request))
    = Json (reply false JNull (JStr (exn_str e))).
Proof.
  intros Hm Hjson Himg Hne Hdec.
  pose proof (decode_image_raises_value_error _ _ Hdec) as Hkind.
  unfold ImageProcessor.process_image, handle_post, validate_request.
  rewrite Hm, Hjson. cbn [String.eqb Ascii.eqb Bool.eqb negb truthy py_in py_getitem].
  rewrite Himg. rewrite negb_involutive.
  destruct (bool_decide (m = ∅)) eqn:Hempty.
  { apply bool_decide_eq_true in Hempty. subst m. by rewrite lookup_empty in Himg. }
  replace (bool_decide (is_Some (Some (JStr image_data)))) with true by reflexivity.
  cbn [bind negb truthy].
  apply String.eqb_neq in Hne. rewrite Hne.
  cbn [negb bind decode_image_json]. rewrite Hdec. cbn [bind].
  by rewrite Hkind.
Qed.

(** What [decode_image] does on every string.  It gives the byte [a] for
    [YQ==] with and without a data-URL prefix.  On every string it finds a
    payload (the string itself, or what follows the marker) and hands it to
    the base64 decoder: it returns the decoded bytes when the decoder accepts
    the payload, and raises a [ValueError] carrying the decoder's message
    when the decoder rejects it; the handler answers that error with status
    400.  The decoder is lenient: a payload of ASCII characters without pad
    character is rejected exactly when the number of its alphabet characters
    is not a multiple of four, whatever other characters it holds. *)
Theorem decode_image_base64 :
  decode_image "data:image/jpeg;base64,YQ==" = Ok [x61]
  ∧ decode_image "YQ==" = Ok [x61]
  ∧ (∀ image_data : string,
       ∃ payload,
         strip_marker image_data = Ok payload
         ∧ ((∃ image_bytes,
               b64decode payload = Ok image_bytes
               ∧ decode_image image_data = Ok image_bytes)
            ∨ (∃ e,
                 b64decode payload = Raise e
                 ∧ decode_image image_data
                   = Raise (Exn ValueError ("Invalid image data: " +:+ exn_str e)))))
  ∧ (∀ payload : string,
       is_ascii payload = true →
       contains "=" payload = false →
       (∃ e, b64decode payload = Raise e)
       ↔ ¬ (∃ k, data_characters payload = 4 * k))
  ∧ (∀ (request : flask_request) (m : gmap string json) (image_data : string) e,
       method request = "POST" →
       get_json request = JObj m →
       m !! "image_data" = Some (JStr image_data) →
       image_data ≠ "" →
       decode_image image_data = Raise e →
       status_code (make_response (process_image request)) = 400%Z).
Proof.
  split; [vm_compute; reflexivity|]. split; [vm_compute; reflexivity|].
  split; [|split].
  - intros image_data. destruct (strip_marker_total image_data) as [payload Hp].
    exists payload. split; [exact Hp|].
    rewrite (decode_image_payload _ _ Hp).
    destruct (b64decode payload) as [image_bytes|e]; [left|right]; eauto.
  - intros payload Hascii Hpad.
    rewrite <- (b64decode_unpadded payload Hascii Hpad).
    destruct (b64decode payload) as [bs|e].
    + split; [intros [? ?]; discriminate|]. intros Hno. exfalso. apply Hno. eauto.
    + split; [|eauto]. intros _ [? ?]. discriminate.
  - intros request m image_data e Hm Hjson Himg Hne Hdec.
    eapply process_image_decode_error; eauto.
Qed.

(** C10.  With the marker more than once in the input, what is decoded is
    the piece between its first two occurrences, and what follows the second
    one is dropped; with the marker exactly once, all that follows it is
    decoded. *)
Theorem decode_image_marker (a b c : string) :
  contains "base64," a = false →
  contains "base64," b = false →
  decode_image (a +:+ "base64," +:+ b +:+ "base64," +:+ c) = decode_image b
  ∧ strip_marker (a +:+ "base64," +:+ b +:+ "base64," +:+ c) = Ok b
  ∧ decode_image (a +:+ "base64," +:+ b) = decode_image b
  ∧ strip_marker (a +:+ "base64," +:+ b) = Ok b.
Proof.
  intros Ha Hb.
  pose proof (strip_marker_twice a b c Ha Hb) as Htwice.
  pose proof (strip_marker_once a b Ha Hb) as Honce.
  pose proof (strip_marker_none b Hb) as Hnone.
  rewrite (decode_image_payload _ _ Htwice), (decode_image_payload _ _ Honce),
    (decode_image_payload _ _ Hnone).
  done.
Qed.

End DecodeClaims.

Lemma decode_image_base64_witness :
  (∃ e, b64decode "invalid base64 string" = Raise e)
  ∧ status_code
      (make_response
         (ImageProcessor.process_image (Raise (Exn OtherException "no client"))
            (Ok "key")
            (Request "POST" ∅ (JObj {[ "image_data" := JStr "invalid base64 string" ]}))))
    = 400%Z.
Proof.
  pose (thm := decode_image_base64 (Raise (Exn OtherException "no client")) (Ok "key")).
  split.
  - apply (proj1 (proj2 (proj2 (proj2 thm)))).
    + vm_compute. reflexivity.
    + vm_compute. reflexivity.
    + intros [k Hk].
      assert (data_characters "invalid base64 string" = 19) as Hd
        by (vm_compute; reflexivity).
      rewrite Hd in Hk. lia.
  - eapply (proj2 (proj2 (proj2 (proj2 thm)))).
    + reflexivity.
    + reflexivity.
    + vm_compute. reflexivity.
    + discriminate.
    + vm_compute. reflexivity.
Defined.

(** C6.  The two examples decode to the byte [a].  The rest of the claim
    fails on the code: [decode_image] does not raise on every string that is
    not valid base64, although its docstring promises a [ValueError] for
    invalid image data.  [base64.b64decode] is called in its default, lenient
    mode, which drops the characters outside the alphabet before decoding:
    [!!!!] decodes to no byte at all and [YQ==@@@@] to the byte [a].  The
    handler then does not answer 400; it goes on to analyse the image, here of
    no bytes, and answers 200. *)
Theorem decode_image_accepts_invalid_base64 :
  ImageProcessor.decode_image "data:image/jpeg;base64,YQ==" = Ok [x61]
  ∧ ImageProcessor.decode_image "YQ==" = Ok [x61]
  ∧ ImageProcessor.decode_image "!!!!" = Ok []
  ∧ ImageProcessor.decode_image "YQ==@@@@" = Ok [x61]
  ∧ (let client :=
       ImageProcessor.VisionClient (fun _ => Ok []) (fun _ => Ok []) (fun _ => Ok []) in
     let response :=
       make_response
         (ImageProcessor.process_image (Ok client) (Ok "key")
            (Request "POST" ∅ (JObj {[ "image_data" := JStr "!!!!" ]}))) in
     status_code response = 200%Z
     ∧ data response
       = Json (JObj {[ "success" := JBool true;
                       "data" := JObj {[ "labels" := JArr []; "objects" := JArr [];
                                         "text" := JStr "" ]};
                       "error" := JNull ]})).
Proof.
  repeat split; vm_compute; reflexivity.
Qed.

Lemma decode_image_marker_witness :
  ImageProcessor.decode_image "data:image/png;base64,YQ==base64,Yg=="
  = ImageProcessor.decode_image "YQ=="
  ∧ ImageProcessor.decode_image "data:image/png;base64,YQ==base64,Yg==" = Ok [x61].
Proof.
  split.
  - apply (proj1 (decode_image_marker "data:image/png;" "YQ==" "Yg=="
                    eq_refl eq_refl)).
  - vm_compute. reflexivity.
Defined.

(** ** The cases of the test suites *)

Example test_validate_request_valid :
  Gateway.validate_request
    (JObj {[ "scenario" := JStr "plant"; "image_data" := JStr "base64_encoded_image_data" ]})
  = Ok (true, None).
Proof. vm_compute. reflexivity. Qed.

Example test_validate_request_empty :
  Gateway.validate_request (JObj ∅) = Ok (false, Some "Request body is empty").
Proof. vm_compute. reflexivity. Qed.

Example test_validate_request_empty_image_data :
  Gateway.validate_request
    (JObj {[ "scenario" := JStr "plant"; "image_data" := JStr "" ]})
  = Ok (false, Some "Empty 'image_data' field in request").
Proof. vm_compute. reflexivity. Qed.

Example test_generator_invalid_scenario :
  MessageGenerator.validate_request (fun _ => "")
    (JObj {[ "scenario" := JStr "invalid"; "analysis_result" := JObj ∅ ]})
  = Ok (false, Some "Invalid scenario: invalid. Must be one of: plant, closet, fridge").
Proof. vm_compute. reflexivity. Qed.

Example test_format_empty_result :
  MessageGenerator.format_analysis_result (fun _ => "") (JObj ∅)
  = Ok (MessageGenerator.Formatted MessageGenerator.none_ja MessageGenerator.none_ja
          (JStr MessageGenerator.none_ja)).
Proof. vm_compute. reflexivity. Qed.

Example test_format_complete_result :
  MessageGenerator.format_analysis_result (fun _ => "")
    (MessageGenerator.analysis_json
       (MessageGenerator.MkAnalysisResult
          [ MessageGenerator.Label "Plant" (double 0.95);
            MessageGenerator.Label "Leaf" (double 0.85) ]
          [MessageGenerator.DetectedObject "Potted plant" (double 0.98)]
          "Plant care instructions"))
  = Ok (MessageGenerator.Formatted "Plant (0.95), Leaf (0.85)" "Potted plant (0.98)"
          (JStr "Plant care instructions")).
Proof. vm_compute. reflexivity. Qed.

Example test_generate_advice_general_error :
  MessageGenerator.generate_advice
    (fun _ => Raise (Exn OtherException "Test error")) "Test prompt"
  = (false, MessageGenerator.DEFAULT_ADVICE, Some "Error generating advice: Test error").
Proof. vm_compute. reflexivity. Qed.

Example test_decode_image_invalid :
  ImageProcessor.decode_image "invalid base64 string"
  = Raise (Exn ValueError "Invalid image data: Incorrect padding").
Proof. vm_compute. reflexivity. Qed.

Example test_lower_ascii : lower "Blocked by SAFETY Filter" = "blocked by safety filter".
Proof. vm_compute. reflexivity. Qed.

Example test_split_marker :
  split "base64," "data:image/jpeg;base64,YQ==" = ["data:image/jpeg;"; "YQ=="].
Proof. vm_compute. reflexivity. Qed.

(** The arithmetic of [float]: the literal [0.6] is a little below six
    tenths; [round] works on the exact binary value, so that 0.615 and 0.995
    go down and 0.645 goes up, and exact ties go to the even hundredth; an
    integer is converted to a [float] before it is formatted. *)
Example test_float_literal : double 0.6 = 5404319552844595 # 9007199254740992.
Proof. vm_compute. reflexivity. Qed.

Example test_round_binary :
  round2 (double 0.615) = double 0.61
  ∧ round2 (double 0.645) = double 0.65
  ∧ round2 (double 0.995) = double 0.99
  ∧ round2 (double 0.125) = double 0.12
  ∧ round2 (double 0.375) = double 0.38
  ∧ round2 (double 0.6) = double 0.6.
Proof. repeat split; vm_compute; reflexivity. Qed.

Example test_format_float :
  MessageGenerator.format_2f (JFloat (double 0.575)) = Ok "0.57"
  ∧ MessageGenerator.format_2f (JInt (2 ^ 53 + 1)) = Ok "9007199254740992.00"
  ∧ MessageGenerator.format_2f (JInt (2 ^ 1024))
    = Raise (Exn OtherException "int too large to convert to float")
  ∧ MessageGenerator.format_2f (JBool true) = Ok "1.00".
Proof. repeat split; vm_compute; reflexivity. Qed.

(** * Further properties *)

(** ** What the validators accept *)

Section Acceptance.
Import ValidationRules.

Lemma existsb_py_eq_str (v : json) (l : list string) :
  existsb (py_eq_str v) l = true ↔ ∃ s, v = JStr s ∧ s ∈ l.
Proof.
  rewrite existsb_exists. split.
  - intros (s & Hin & Heq). destruct v; try discriminate.
    cbn [py_eq_str] in Heq. apply String.eqb_eq in Heq as ->.
    eexists. split; [reflexivity|]. by apply list_elem_of_In.
  - intros (s & -> & Hin). exists s. split; [by apply list_elem_of_In|].
    cbn [py_eq_str]. apply String.eqb_refl.
Qed.

Lemma truthy_dict (m : gmap string json) (k : string) (v : json) :
  m !! k = Some v → truthy (JObj m) = true.
Proof.
  intros Hk. cbn [truthy]. apply negb_true_iff, bool_decide_eq_false.
  intros ->. by rewrite lookup_empty in Hk.
Qed.

(** X1.  The gateway's validator accepts a body exactly when it is a dict
    whose [scenario] is one of the three allowed strings and whose
    [image_data] is present and not empty; it then reports no error.  A
    body that is not a dict is never accepted. *)
Theorem gateway_validate_request_accepts (request_json : json) (error : option string) :
  Gateway.validate_request request_json = Ok (true, error)
  ↔ ∃ (m : gmap string json) (scenario : string) (image_data : json),
      request_json = JObj m
      ∧ m !! "scenario" = Some (JStr scenario)
      ∧ scenario ∈ Gateway.VALID_SCENARIOS
      ∧ m !! "image_data" = Some image_data
      ∧ truthy image_data = true
      ∧ error = None.
Proof.
  split.
  - unfold Gateway.validate_request.
    destruct (negb (truthy request_json)) eqn:Htruthy; [discriminate|].
    destruct request_json as [| | | |s|l|m]; cbn [py_in py_getitem bind];
      try discriminate.
    + destruct (negb (contains "scenario" s)); discriminate.
    + destruct (negb (existsb _ l)); discriminate.
    + destruct (m !! "scenario") as [sc|] eqn:Hsc; cbn [bind negb]; [|discriminate].
      replace (bool_decide (is_Some (Some sc))) with true by reflexivity.
      cbn [negb bind].
      destruct (existsb (py_eq_str sc) Gateway.VALID_SCENARIOS) eqn:Hvalid;
        cbn [negb]; [|discriminate].
      apply existsb_py_eq_str in Hvalid as (scenario & -> & Hin).
      destruct (m !! "image_data") as [img|] eqn:Himg; cbn [bind negb];
        [|discriminate].
      replace (bool_decide (is_Some (Some img))) with true by reflexivity.
      cbn [negb bind].
      destruct (truthy img) eqn:Himgt; cbn [negb]; [|discriminate].
      intros [= <-]. by exists m, scenario, img.
  - intros (m & scenario & img & -> & Hsc & Hin & Himg & Himgt & ->).
    unfold Gateway.validate_request.
    rewrite (truthy_dict _ _ _ Hsc). cbn [negb py_in py_getitem bind].
    rewrite Hsc, Himg.
    replace (bool_decide (is_Some (Some (JStr scenario)))) with true by reflexivity.
    replace (bool_decide (is_Some (Some img))) with true by reflexivity.
    cbn [negb bind].
    rewrite (proj2 (existsb_py_eq_str (JStr scenario) Gateway.VALID_SCENARIOS))
      by eauto.
    cbn [negb]. by rewrite Himgt.
Qed.

(** X2.  The image processor's validator answers with the first failing
    rule among: empty or absent body, [image_data] missing, [image_data]
    empty.  It accepts a body exactly when it is a dict with a non-empty
    [image_data]. *)
Theorem image_processor_validate_request_rules :
  (∀ b : body,
     ImageProcessor.validate_request (body_json b)
     = Ok (first_failure [body_empty; missing "image_data"; empty_field "image_data"] b))
  ∧ (∀ (m : gmap string json) (error : option string),
       ImageProcessor.validate_request (JObj m) = Ok (true, error)
       ↔ ∃ image_data,
           m !! "image_data" = Some image_data
           ∧ truthy image_data = true ∧ error = None).
Proof.
  split.
  - intros [m|]; [|reflexivity].
    unfold ImageProcessor.validate_request.
    cbn [body_json truthy negb first_failure fails error body_empty
         missing empty_field field py_in py_getitem bind].
    rewrite negb_involutive.
    destruct (bool_decide (m = ∅)); [reflexivity|].
    destruct (m !! "image_data") as [img|] eqn:Himg; cbn; [|reflexivity].
    destruct (negb (truthy img)); reflexivity.
  - intros m error. unfold ImageProcessor.validate_request.
    cbn [py_in py_getitem bind]. split.
    + destruct (negb (truthy (JObj m))); [discriminate|].
      destruct (m !! "image_data") as [img|] eqn:Himg; cbn [bind negb];
        [|discriminate].
      replace (bool_decide (is_Some (Some img))) with true by reflexivity.
      cbn [negb bind]. destruct (truthy img) eqn:Ht; cbn [negb]; [|discriminate].
      intros [= <-]. by exists img.
    + intros (img & Himg & Ht & ->).
      rewrite (truthy_dict _ _ _ Himg), Himg. cbn [negb bind].
      replace (bool_decide (is_Some (Some img))) with true by reflexivity.
      cbn [negb bind]. by rewrite Ht.
Qed.

(** X3.  The message generator's validator accepts a dict exactly when its
    [scenario] is one of the template keys and it has an [analysis_result],
    of whatever value; it then reports no error. *)
Theorem generator_validate_request_accepts (str_repr : json → string)
    (m : gmap string json) (error : option string) :
  MessageGenerator.validate_request str_repr (JObj m) = Ok (true, error)
  ↔ ∃ (scenario : string),
      m !! "scenario" = Some (JStr scenario)
      ∧ scenario ∈ MessageGenerator.template_keys
      ∧ is_Some (m !! "analysis_result")
      ∧ error = None.
Proof.
  unfold MessageGenerator.validate_request. cbn [py_in py_getitem bind]. split.
  - destruct (negb (truthy (JObj m))); [discriminate|].
    destruct (m !! "scenario") as [sc|] eqn:Hsc; cbn [bind negb]; [|discriminate].
    replace (bool_decide (is_Some (Some sc))) with true by reflexivity.
    cbn [negb bind]. unfold MessageGenerator.in_templates.
    destruct (hashable sc); cbn [bind]; [|discriminate].
    rewrite template_of_known.
    destruct (existsb (py_eq_str sc) MessageGenerator.template_keys) eqn:Hk;
      cbn [negb]; [|discriminate].
    apply existsb_py_eq_str in Hk as (scenario & -> & Hin).
    destruct (m !! "analysis_result") as [ar|] eqn:Har; cbn [bind negb];
      [|discriminate].
    intros [= <-]. exists scenario. eauto.
  - intros (scenario & Hsc & Hin & [ar Har] & ->).
    rewrite (truthy_dict _ _ _ Hsc), Hsc, Har. cbn [negb bind].
    replace (bool_decide (is_Some (Some (JStr scenario)))) with true by reflexivity.
    cbn [negb bind]. unfold MessageGenerator.in_templates. cbn [hashable bind].
    rewrite template_of_known.
    rewrite (proj2 (existsb_py_eq_str (JStr scenario) MessageGenerator.template_keys))
      by eauto.
    reflexivity.
Qed.

End Acceptance.

(** ** More on the gateway *)

Section GatewayFurther.

Variable IMAGE_PROCESSOR_URL : string.
Variable MESSAGE_GENERATOR_URL : string.
Variable requests_post : string → json → result http_reply.
Variable str_repr : json → string.

#[local] Abbreviation api_gateway :=
  (Gateway.api_gateway IMAGE_PROCESSOR_URL MESSAGE_GENERATOR_URL requests_post str_repr).
#[local] Abbreviation handle_post :=
  (Gateway.handle_post IMAGE_PROCESSOR_URL MESSAGE_GENERATOR_URL requests_post str_repr).
#[local] Abbreviation call_image_processor :=
  (Gateway.call_image_processor IMAGE_PROCESSOR_URL requests_post str_repr).
#[local] Abbreviation call_message_generator :=
  (Gateway.call_message_generator MESSAGE_GENERATOR_URL requests_post str_repr).

(** X4.  [handle_cors] changes neither the status nor the body of a
    response, and it leaves every header other than the four CORS headers
    as it was. *)
Theorem handle_cors_preserves (request : flask_request) (rv : view_result)
    (header : string) :
  header ∉ [ "Access-Control-Allow-Origin"; "Access-Control-Allow-Methods";
             "Access-Control-Allow-Headers"; "Access-Control-Allow-Credentials" ] →
  status_code (Gateway.handle_cors request rv) = status_code (make_response rv)
  ∧ data (Gateway.handle_cors request rv) = data (make_response rv)
  ∧ headers (Gateway.handle_cors request rv) !! header
    = headers (make_response rv) !! header.
Proof.
  intros Hnot. split; [reflexivity|]. split; [reflexivity|].
  unfold Gateway.handle_cors. cbn [headers].
  rewrite !lookup_insert_ne; [reflexivity|..]; intros <-; apply Hnot;
    repeat first [apply list_elem_of_here | apply list_elem_of_further].
Qed.

(** The two calls never let a [RequestException] through, report an error
    exactly when they fail, and give the empty result with it. *)
Lemma call_image_processor_outcome (image_data : json) :
  (∀ success result error,
     call_image_processor image_data = Ok (success, result, error) →
     (success = true → error = None)
     ∧ (success = false → result = JObj ∅ ∧ ∃ message, error = Some message))
  ∧ (∀ e, call_image_processor image_data = Raise e →
          exn_kind e ≠ RequestException).
Proof.
  unfold Gateway.call_image_processor.
  destruct (String.eqb IMAGE_PROCESSOR_URL "").
  { split; [|discriminate]. intros s r e [= <- <- <-]. split; [discriminate|eauto]. }
  destruct (requests_post _ _) as [response|e0]; cbn [bind try_except].
  2: { destruct (exn_class_eqb (exn_kind e0) RequestException) eqn:Hk.
       - split; [|discriminate]. intros s r e [= <- <- <-].
         split; [discriminate|eauto].
       - split; [discriminate|]. intros e [= <-] Heq. rewrite Heq in Hk.
         discriminate. }
  destruct (negb (reply_status response =? 200)%Z).
  { split; [|discriminate]. intros s r e [= <- <- <-]. split; [discriminate|eauto]. }
  destruct (reply_json response) as [response_data|e0]; cbn [bind try_except].
  2: { destruct (exn_class_eqb (exn_kind e0) RequestException) eqn:Hk.
       - split; [|discriminate]. intros s r e [= <- <- <-].
         split; [discriminate|eauto].
       - split; [discriminate|]. intros e [= <-] Heq. rewrite Heq in Hk.
         discriminate. }
  destruct response_data as [| | | | | |m];
    cbn [py_get bind try_except exn_kind exn_class_eqb];
    try (split; [discriminate|]; intros e [= <-]; discriminate).
  destruct (negb (truthy _)); cbn [bind try_except].
  - split; [|discriminate]. intros s r e [= <- <- <-]. split; [discriminate|eauto].
  - split; [|discriminate]. intros s r e [= <- <- <-]. split; [done|discriminate].
Qed.

Lemma call_message_generator_outcome (scenario analysis_result : json) :
  (∀ success advice error,
     call_message_generator scenario analysis_result = Ok (success, advice, error) →
     (success = true → error = None)
     ∧ (success = false → advice = JStr "" ∧ ∃ message, error = Some message))
  ∧ (∀ e, call_message_generator scenario analysis_result = Raise e →
          exn_kind e ≠ RequestException).
Proof.
  unfold Gateway.call_message_generator.
  destruct (String.eqb MESSAGE_GENERATOR_URL "").
  { split; [|discriminate]. intros s r e [= <- <- <-]. split; [discriminate|eauto]. }
  destruct (requests_post _ _) as [response|e0]; cbn [bind try_except].
  2: { destruct (exn_class_eqb (exn_kind e0) RequestException) eqn:Hk.
       - split; [|discriminate]. intros s r e [= <- <- <-].
         split; [discriminate|eauto].
       - split; [discriminate|]. intros e [= <-] Heq. rewrite Heq in Hk.
         discriminate. }
  destruct (negb (reply_status response =? 200)%Z).
  { split; [|discriminate]. intros s r e [= <- <- <-]. split; [discriminate|eauto]. }
  destruct (reply_json response) as [response_data|e0]; cbn [bind try_except].
  2: { destruct (exn_class_eqb (exn_kind e0) RequestException) eqn:Hk.
       - split; [|discriminate]. intros s r e [= <- <- <-].
         split; [discriminate|eauto].
       - split; [discriminate|]. intros e [= <-] Heq. rewrite Heq in Hk.
         discriminate. }
  destruct response_data as [| | | | | |m];
    cbn [py_get bind try_except exn_kind exn_class_eqb];
    try (split; [discriminate|]; intros e [= <-]; discriminate).
  destruct (negb (truthy _)); cbn [bind try_except].
  - split; [|discriminate]. intros s r e [= <- <- <-]. split; [discriminate|eauto].
  - split; [|discriminate]. intros s r e [= <- <- <-]. split; [done|discriminate].
Qed.

(** X5.  A call to the analyzer or to the generator either returns a triple
    or raises an exception that is not a [RequestException].  A triple that
    reports success carries no error; one that reports failure carries an
    error message and the empty result (the empty dict, the empty string). *)
Theorem upstream_call_outcome (image_data scenario analysis_result : json) :
  ((∀ success result error,
      call_image_processor image_data = Ok (success, result, error) →
      (success = true → error = None)
      ∧ (success = false → result = JObj ∅ ∧ ∃ message, error = Some message))
   ∧ (∀ e, call_image_processor image_data = Raise e →
           exn_kind e ≠ RequestException))
  ∧ ((∀ success advice error,
        call_message_generator scenario analysis_result = Ok (success, advice, error) →
        (success = true → error = None)
        ∧ (success = false → advice = JStr "" ∧ ∃ message, error = Some message))
     ∧ (∀ e, call_message_generator scenario analysis_result = Raise e →
             exn_kind e ≠ RequestException)).
Proof.
  split; [apply call_image_processor_outcome|apply call_message_generator_outcome].
Qed.

End GatewayFurther.

(** X6.  Unless the request is a POST whose body passes validation, the
    gateway's answer does not depend on the services behind it: it is the
    same for every pair of URLs and every behaviour of the HTTP client. *)
Theorem api_gateway_no_upstream_call
    (url1 url2 url1' url2' : string)
    (post post' : string → json → result http_reply)
    (str_repr str_repr' : json → string) (request : flask_request) :
  (method request ≠ "POST"
   ∨ ∀ error, Gateway.validate_request (get_json request) ≠ Ok (true, error)) →
  Gateway.api_gateway url1 url2 post str_repr request
  = Gateway.api_gateway url1' url2' post' str_repr' request.
Proof.
  intros Hcase. unfold Gateway.api_gateway.
  destruct (String.eqb (method request) "OPTIONS"); [reflexivity|].
  destruct (String.eqb_spec (method request) "POST") as [Hm|Hm]; cbn [negb];
    [|reflexivity].
  destruct Hcase as [Hcase|Hcase]; [done|].
  unfold Gateway.handle_post.
  destruct (Gateway.validate_request (get_json request)) as [[[|] em]|e];
    cbn [bind negb]; [|reflexivity..].
  by destruct (Hcase em).
Qed.

Lemma api_gateway_no_upstream_call_witness :
  Gateway.api_gateway "http://a" "http://b" (fun _ _ => Raise (Exn OtherException "down"))
    (fun _ => "") (Request "POST" ∅ (JObj {[ "scenario" := JStr "garden" ]}))
  = Gateway.api_gateway "" ""
      (fun _ _ => Ok (HttpReply 200 "" (Ok (JObj {[ "success" := JBool true ]}))))
      (fun _ => "x") (Request "POST" ∅ (JObj {[ "scenario" := JStr "garden" ]})).
Proof.
  apply api_gateway_no_upstream_call. right. intros error. vm_compute. discriminate.
Defined.

(** X7.  When the call to the analyzer fails, the generator is not
    contacted: the gateway's answer is the same whatever the generator's URL
    is and whatever the HTTP client would do at any URL other than the
    analyzer's. *)
Theorem api_gateway_analyzer_failure_stops
    (image_url generator_url generator_url' : string)
    (post post' : string → json → result http_reply)
    (str_repr : json → string) (request : flask_request)
    (error_message : option string) (image_data result : json)
    (error : option string) :
  method request = "POST" →
  Gateway.validate_request (get_json request) = Ok (true, error_message) →
  py_getitem (get_json request) "image_data" = Ok image_data →
  (∀ payload, post' image_url payload = post image_url payload) →
  Gateway.call_image_processor image_url post str_repr image_data
  = Ok (false, result, error) →
  Gateway.api_gateway image_url generator_url post str_repr request
  = Gateway.api_gateway image_url generator_url' post' str_repr request.
Proof.
  intros Hm Hv Himg Hagree Hcall.
  destruct (validate_request_fields _ _ Hv) as (sc & img & Hsc & Himg').
  unfold Gateway.api_gateway, Gateway.handle_post.
  rewrite Hm, Hv, Hsc, Himg. cbn [String.eqb Ascii.eqb Bool.eqb negb bind].
  assert (Gateway.call_image_processor image_url post' str_repr image_data
          = Ok (false, result, error)) as Hcall'.
  { rewrite <- Hcall. unfold Gateway.call_image_processor. by rewrite Hagree. }
  by rewrite Hcall, Hcall'.
Qed.

Lemma api_gateway_analyzer_failure_stops_witness :
  let body : json := JObj {[ "scenario" := JStr "plant"; "image_data" := JStr "YQ==" ]} in
  Gateway.api_gateway "http://analyzer" "http://generator"
    (fun _ _ => Ok (HttpReply 503 "unavailable" (Raise (Exn ValueError "no json"))))
    (fun _ => "") (Request "POST" ∅ body)
  = Gateway.api_gateway "http://analyzer" ""
      (fun url _ => if String.eqb url "http://analyzer"
                    then Ok (HttpReply 503 "unavailable" (Raise (Exn ValueError "no json")))
                    else Raise (Exn OtherException "never called"))
      (fun _ => "") (Request "POST" ∅ body).
Proof.
  intros body.
  eapply (api_gateway_analyzer_failure_stops _ _ _ _ _ _ _ None (JStr "YQ==")
            (JObj ∅) (Some "Image processor error: unavailable")).
  - reflexivity.
  - vm_compute. reflexivity.
  - vm_compute. reflexivity.
  - intros payload. reflexivity.
  - vm_compute. reflexivity.
Defined.

(** X8.  A service URL that is not configured makes a valid POST fail with
    status 502 and a fixed message, whatever the HTTP client would answer:
    for the analyzer's URL at once, for the generator's URL once the
    analyzer has succeeded. *)
Theorem api_gateway_url_not_configured
    (image_url generator_url : string) (post : string → json → result http_reply)
    (str_repr : json → string) (request : flask_request)
    (error_message : option string) :
  method request = "POST" →
  Gateway.validate_request (get_json request) = Ok (true, error_message) →
  (image_url = "" →
   status_code (Gateway.api_gateway image_url generator_url post str_repr request)
   = 502%Z
   ∧ data (Gateway.api_gateway image_url generator_url post str_repr request)
     = Json (JObj {[ "success" := JBool false;
                     "error" := JStr "Image processor URL not configured" ]}))
  ∧ (generator_url = "" →
     ∀ image_data analysis_result none,
       py_getitem (get_json request) "image_data" = Ok image_data →
       Gateway.call_image_processor image_url post str_repr image_data
       = Ok (true, analysis_result, none) →
       status_code (Gateway.api_gateway image_url generator_url post str_repr request)
       = 502%Z
       ∧ data (Gateway.api_gateway image_url generator_url post str_repr request)
         = Json (JObj {[ "success" := JBool false;
                         "error" := JStr "Message generator URL not configured" ]})).
Proof.
  intros Hm Hv.
  destruct (validate_request_fields _ _ Hv) as (sc & img & Hsc & Himg).
  unfold Gateway.api_gateway, Gateway.handle_post.
  rewrite Hm, Hv, Hsc, Himg. cbn [String.eqb Ascii.eqb Bool.eqb negb bind].
  split.
  - intros ->. unfold Gateway.call_image_processor. cbn [String.eqb bind negb].
    split; reflexivity.
  - intros -> image_data ar none [= <-] Hcall. rewrite Hcall. cbn [bind negb].
    unfold Gateway.call_message_generator. cbn [String.eqb bind negb].
    split; reflexivity.
Qed.

Lemma api_gateway_url_not_configured_witness :
  let response :=
    Gateway.api_gateway "" "http://generator"
      (fun _ _ => Ok (HttpReply 200 "" (Ok (JObj {[ "success" := JBool true ]}))))
      (fun _ => "")
      (Request "POST" ∅
         (JObj {[ "scenario" := JStr "plant"; "image_data" := JStr "YQ==" ]})) in
  status_code response = 502%Z
  ∧ data response
    = Json (JObj {[ "success" := JBool false;
                    "error" := JStr "Image processor URL not configured" ]}).
Proof.
  intros response.
  refine (proj1 (api_gateway_url_not_configured "" "http://generator" _ _
                   (Request "POST" ∅ _) None eq_refl _) eq_refl).
  vm_compute. reflexivity.
Defined.

(** Membership in an explicit list. *)
Ltac in_list := repeat first [apply list_elem_of_here | apply list_elem_of_further].

Section GatewayShape.

Variable IMAGE_PROCESSOR_URL : string.
Variable MESSAGE_GENERATOR_URL : string.
Variable requests_post : string → json → result http_reply.
Variable str_repr : json → string.

#[local] Abbreviation api_gateway :=
  (Gateway.api_gateway IMAGE_PROCESSOR_URL MESSAGE_GENERATOR_URL requests_post str_repr).

(** The two shapes of a JSON answer of the gateway. *)
Lemma failure_shape (status : Z) (message : string) (request : flask_request) :
  status ≠ 200%Z →
  let response :=
    Gateway.handle_cors request
      (WithStatus (jsonify (Gateway.failure (JStr message))) status) in
  ∃ m : gmap string json,
    data response = Json (JObj m)
    ∧ ((status_code response = 200%Z
        ∧ m !! "success" = Some (JBool true)
        ∧ is_Some (m !! "advice") ∧ m !! "error" = None)
       ∨ (status_code response ≠ 200%Z
          ∧ m !! "success" = Some (JBool false)
          ∧ (∃ message, m !! "error" = Some (JStr message))
          ∧ m !! "advice" = None)).
Proof.
  intros Hstatus. cbv zeta. eexists. split; [reflexivity|]. right.
  split; [exact Hstatus|].
  split; [reflexivity|]. split; [by exists message|reflexivity].
Qed.

(** X9.  The gateway answers with one of six statuses.  OPTIONS gets 204
    and an empty body.  Any other request gets a JSON object that is either
    a success, with status 200, [success = true] and an [advice] but no
    [error], or a failure, with another status, [success = false] and an
    [error] message but no [advice]. *)
Theorem api_gateway_response_shape (request : flask_request) :
  status_code (api_gateway request) ∈ [200; 204; 400; 405; 500; 502]%Z
  ∧ (method request = "OPTIONS" →
     status_code (api_gateway request) = 204%Z ∧ data (api_gateway request) = Text "")
  ∧ (method request ≠ "OPTIONS" →
     ∃ m : gmap string json,
       data (api_gateway request) = Json (JObj m)
       ∧ ((status_code (api_gateway request) = 200%Z
           ∧ m !! "success" = Some (JBool true)
           ∧ is_Some (m !! "advice") ∧ m !! "error" = None)
          ∨ (status_code (api_gateway request) ≠ 200%Z
             ∧ m !! "success" = Some (JBool false)
             ∧ (∃ message, m !! "error" = Some (JStr message))
             ∧ m !! "advice" = None))).
Proof.
  unfold Gateway.api_gateway.
  destruct (String.eqb_spec (method request) "OPTIONS") as [Hopt|Hopt].
  { split; [cbn; in_list|]. split; [done|done]. }
  destruct (negb (String.eqb (method request) "POST")).
  { split; [cbn; in_list|]. split; [done|]. intros _.
    apply (failure_shape 405); discriminate. }
  unfold Gateway.handle_post.
  destruct (Gateway.validate_request (get_json request)) as [[[|] em]|e] eqn:Hv;
    cbn [bind negb].
  - destruct (py_getitem _ "scenario") as [sc|e]; cbn [bind].
    2: { split; [cbn; in_list|]. split; [done|]. intros _.
         apply (failure_shape 500); discriminate. }
    destruct (py_getitem _ "image_data") as [img|e]; cbn [bind].
    2: { split; [cbn; in_list|]. split; [done|]. intros _.
         apply (failure_shape 500); discriminate. }
    destruct (Gateway.call_image_processor _ _ _ img) as [[[[|] ar] er]|e] eqn:Hcall;
      cbn [bind negb].
    + destruct (Gateway.call_message_generator _ _ _ sc ar)
        as [[[[|] adv] er']|e] eqn:Hgen; cbn [bind negb].
      * split; [cbn; in_list|]. split; [done|]. intros _.
        eexists. split; [reflexivity|]. left.
        split; [reflexivity|]. split; [reflexivity|]. split; [by eexists|reflexivity].
      * destruct (proj1 (call_message_generator_outcome _ _ _ sc ar) _ _ _ Hgen)
          as [_ Hfail].
        destruct (Hfail eq_refl) as (_ & message & ->).
        split; [cbn; in_list|]. split; [done|]. intros _.
        apply (failure_shape 502); discriminate.
      * split; [cbn; in_list|]. split; [done|]. intros _.
        apply (failure_shape 500); discriminate.
    + destruct (proj1 (call_image_processor_outcome _ _ _ img) _ _ _ Hcall)
        as [_ Hfail].
      destruct (Hfail eq_refl) as (_ & message & ->).
      split; [cbn; in_list|]. split; [done|]. intros _.
      apply (failure_shape 502); discriminate.
    + split; [cbn; in_list|]. split; [done|]. intros _.
      apply (failure_shape 500); discriminate.
  - destruct (gateway_validate_request_error _ _ Hv) as [message ->].
    split; [cbn; in_list|]. split; [done|]. intros _.
    apply (failure_shape 400); discriminate.
  - split; [cbn; in_list|]. split; [done|]. intros _.
    apply (failure_shape 500); discriminate.
Qed.

(** X10.  When both services answer 200 with a truthy [success], the
    gateway sends the generator the scenario of the request with the [data]
    of the analyzer's answer, unchanged (the empty dict when there is no
    [data]), and it returns the generator's [advice], unchanged (the empty
    string when there is none), with status 200. *)
Theorem api_gateway_forwards (request : flask_request)
    (error_message : option string) (scenario image_data : json)
    (analyzer_text generator_text : string)
    (analyzer_body generator_body : gmap string json) :
  IMAGE_PROCESSOR_URL ≠ "" →
  MESSAGE_GENERATOR_URL ≠ "" →
  method request = "POST" →
  Gateway.validate_request (get_json request) = Ok (true, error_message) →
  py_getitem (get_json request) "scenario" = Ok scenario →
  py_getitem (get_json request) "image_data" = Ok image_data →
  requests_post IMAGE_PROCESSOR_URL (JObj {[ "image_data" := image_data ]})
  = Ok (HttpReply 200 analyzer_text (Ok (JObj analyzer_body))) →
  truthy (default (JBool false) (analyzer_body !! "success")) = true →
  requests_post MESSAGE_GENERATOR_URL
    (JObj {[ "scenario" := scenario;
             "analysis_result" := default (JObj ∅) (analyzer_body !! "data") ]})
  = Ok (HttpReply 200 generator_text (Ok (JObj generator_body))) →
  truthy (default (JBool false) (generator_body !! "success")) = true →
  status_code (api_gateway request) = 200%Z
  ∧ data (api_gateway request)
    = Json (JObj {[ "success" := JBool true;
                    "advice" := default (JStr "") (generator_body !! "advice") ]}).
Proof.
  intros Hiu%String.eqb_neq Hmu%String.eqb_neq Hm Hv Hsc Himg Hpost1 Hs1 Hpost2 Hs2.
  unfold Gateway.api_gateway, Gateway.handle_post.
  rewrite Hm, Hv, Hsc, Himg. cbn [String.eqb Ascii.eqb Bool.eqb negb bind].
  unfold Gateway.call_image_processor. rewrite Hiu, Hpost1.
  cbn [bind try_except reply_status reply_json Z.eqb Pos.eqb negb py_get].
  rewrite Hs1. cbn [negb bind try_except].
  unfold Gateway.call_message_generator. rewrite Hmu, Hpost2.
  cbn [bind try_except reply_status reply_json Z.eqb Pos.eqb negb py_get].
  rewrite Hs2. cbn [negb bind try_except].
  split; reflexivity.
Qed.

End GatewayShape.

(** ** More on the image processor *)

Section ImageProcessorFurther.

Import ImageProcessor.

Variable ImageAnnotatorClient : result vision_client.
Variable get_key : result string.

#[local] Abbreviation process_image :=
  (ImageProcessor.process_image ImageAnnotatorClient get_key).

Lemma image_validate_request_error (request_json : json) (error : option string) :
  validate_request request_json = Ok (false, error) → ∃ message, error = Some message.
Proof.
  unfold validate_request.
  destruct (negb (truthy request_json)); [intros [= <-]; eauto|].
  destruct (py_in "image_data" request_json) as [has|e]; cbn [bind]; [|discriminate].
  destruct (negb has); [intros [= <-]; eauto|].
  destruct (py_getitem request_json "image_data") as [img|e]; cbn [bind]; [|discriminate].
  destruct (negb (truthy img)); [intros [= <-]; eauto|discriminate].
Qed.

Lemma analyze_image_dict (image_bytes : list byte) (v : json) :
  analyze_image ImageAnnotatorClient image_bytes = Ok v → ∃ m, v = JObj m.
Proof.
  unfold analyze_image.
  destruct ImageAnnotatorClient as [client|e]; cbn [bind]; [|discriminate].
  destruct (label_detection client image_bytes); cbn [bind]; [|discriminate].
  destruct (object_localization client image_bytes); cbn [bind]; [|discriminate].
  destruct (text_detection client image_bytes); cbn [bind]; [|discriminate].
  intros [= <-]. eauto.
Qed.

(** X11.  The image processor answers with one of four statuses and always
    with the three fields [success], [data] and [error]: on status 200
    [success] is true, [data] is a dict and [error] is null; on any other
    status [success] is false, [data] is null and [error] is a message. *)
Theorem process_image_response_shape (request : flask_request) :
  let response := make_response (process_image request) in
  status_code response ∈ [200; 400; 405; 500]%Z
  ∧ ((status_code response = 200%Z
      ∧ ∃ m, data response
             = Json (JObj {[ "success" := JBool true; "data" := JObj m;
                             "error" := JNull ]}))
     ∨ (status_code response ≠ 200%Z
        ∧ ∃ message,
            data response
            = Json (JObj {[ "success" := JBool false; "data" := JNull;
                            "error" := JStr message ]}))).
Proof.
  cbv zeta. unfold ImageProcessor.process_image.
  destruct (negb (String.eqb (method request) "POST")).
  { split; [cbn; in_list|]. right. split; [discriminate|by eexists]. }
  assert (∀ e,
    let rv :=
      match exn_kind e with
      | ValueError => WithStatus (jsonify (reply false JNull (JStr (exn_str e)))) 400
      | _ =>
          WithStatus
            (jsonify (reply false JNull
                        (JStr ("Internal server error: " +:+ exn_str e)))) 500
      end in
    status_code (make_response rv) ∈ [200; 400; 405; 500]%Z
    ∧ ((status_code (make_response rv) = 200%Z
        ∧ ∃ m, data (make_response rv) = Json (reply true (JObj m) JNull))
       ∨ (status_code (make_response rv) ≠ 200%Z
          ∧ ∃ message,
              data (make_response rv) = Json (reply false JNull (JStr message)))))
    as Herror.
  { intros e. cbv zeta.
    destruct (exn_kind e); (split; [cbn; in_list|]; right;
                            split; [discriminate|by eexists]). }
  unfold handle_post.
  destruct (validate_request (get_json request)) as [[[|] em]|e] eqn:Hv;
    cbn [bind negb]; [| |apply Herror].
  - destruct (py_getitem _ "image_data") as [img|e]; cbn [bind]; [|apply Herror].
    destruct (decode_image_json img) as [bytes|e]; cbn [bind]; [|apply Herror].
    destruct get_key as [key|e]; cbn [bind]; [|apply Herror].
    destruct (analyze_image ImageAnnotatorClient bytes) as [v|e] eqn:Han;
      cbn [bind]; [|apply Herror].
    destruct (analyze_image_dict _ _ Han) as [m ->].
    split; [cbn; in_list|]. left. split; [reflexivity|by eexists].
  - destruct (image_validate_request_error _ _ Hv) as [message ->].
    split; [cbn; in_list|]. right. split; [discriminate|by eexists].
Qed.

Lemma decode_image_json_value_error (v : json) (e : exn) :
  decode_image_json v = Raise e → exn_kind e = ValueError.
Proof.
  destruct v as [| | | |s|l|m]; cbn [decode_image_json py_in bind];
    try (by intros [= <-]).
  - apply decode_image_raises_value_error.
  - destruct (existsb _ l); by intros [= <-].
  - destruct (bool_decide _); by intros [= <-].
Qed.

Lemma decode_image_json_not_string (v : json) :
  (∀ s, v ≠ JStr s) → ∃ e, decode_image_json v = Raise e.
Proof.
  intros Hv. destruct v as [| | | |s|l|m]; cbn [decode_image_json py_in bind];
    eauto.
  - by destruct (Hv s).
  - destruct (existsb _ l); eauto.
  - destruct (bool_decide _); eauto.
Qed.

Lemma decode_image_json_message (v : json) (e : exn) :
  decode_image_json v = Raise e →
  starts_with "Invalid image data: " (exn_str e) = true.
Proof.
  assert (∀ r : result (list byte),
            match r with
            | Ok image_bytes => Ok image_bytes
            | Raise e' => Raise (Exn ValueError ("Invalid image data: " +:+ exn_str e'))
            end = Raise e →
            starts_with "Invalid image data: " (exn_str e) = true) as Hwrap.
  { intros [bs|e']; [discriminate|]. intros [= <-]. apply starts_with_append. }
  destruct v as [| | | |s|l|m]; cbn [decode_image_json]; apply Hwrap.
Qed.

(** X12.  An [image_data] that cannot be decoded is answered with status 400
    and, under [error], the decoding error, which starts with
    [Invalid image data: ], whatever the JSON type of the value: a value
    that is not a string never decodes, and the only exception decoding
    raises is a [ValueError].  The answer is given before the API key is read
    or the vision client is used, so it does not depend on them. *)
Theorem process_image_undecodable (request : flask_request)
    (m : gmap string json) (image_data : json) :
  method request = "POST" →
  get_json request = JObj m →
  m !! "image_data" = Some image_data →
  truthy image_data = true →
  ((∀ s, image_data ≠ JStr s)
   ∨ ∃ s e, image_data = JStr s ∧ decode_image s = Raise e) →
  ∃ e,
    decode_image_json image_data = Raise e
    ∧ exn_kind e = ValueError
    ∧ status_code (make_response (process_image request)) = 400%Z
    ∧ data (make_response (process_image request))
      = Json (JObj {[ "success" := JBool false; "data" := JNull;
                      "error" := JStr (exn_str e) ]})
    ∧ starts_with "Invalid image data: " (exn_str e) = true.
Proof.
  intros Hm Hjson Himg Htruthy Hcase.
  assert (∃ e, decode_image_json image_data = Raise e) as [e He].
  { destruct Hcase as [Hns|(s & e & -> & He)]; [by apply decode_image_json_not_string|].
    by exists e. }
  pose proof (decode_image_json_value_error _ _ He) as Hkind.
  exists e. split; [exact He|]. split; [exact Hkind|].
  unfold ImageProcessor.process_image, handle_post, validate_request.
  rewrite Hm, Hjson. cbn [String.eqb Ascii.eqb Bool.eqb negb py_in py_getitem].
  rewrite (truthy_dict _ _ _ Himg), Himg. cbn [negb bind].
  replace (bool_decide (is_Some (Some image_data))) with true by reflexivity.
  cbn [negb bind]. rewrite Htruthy. cbn [negb bind]. rewrite He. cbn [bind].
  rewrite Hkind. split; [reflexivity|]. split; [reflexivity|].
  by apply (decode_image_json_message image_data).
Qed.

End ImageProcessorFurther.

Lemma process_image_undecodable_witness :
  let response :=
    make_response
      (ImageProcessor.process_image (Raise (Exn OtherException "no client"))
         (Raise (Exn OtherException "no secret"))
         (Request "POST" ∅ (JObj {[ "image_data" := JStr "YQ" ]}))) in
  status_code response = 400%Z
  ∧ data response
    = Json (JObj {[ "success" := JBool false; "data" := JNull;
                    "error" := JStr "Invalid image data: Incorrect padding" ]}).
Proof.
  intros response.
  destruct (process_image_undecodable (Raise (Exn OtherException "no client"))
              (Raise (Exn OtherException "no secret"))
              (Request "POST" ∅ (JObj {[ "image_data" := JStr "YQ" ]}))
              {[ "image_data" := JStr "YQ" ]} (JStr "YQ")
              eq_refl eq_refl)
    as (e & He & _ & Hstatus & Hdata & _).
  { vm_compute. reflexivity. }
  { reflexivity. }
  { right. eexists "YQ", _. split; vm_compute; reflexivity. }
  split; [exact Hstatus|].
  etransitivity; [exact Hdata|].
  vm_compute in He. injection He as <-. reflexivity.
Defined.

Section ApiKey.

Import ImageProcessor.

(** The project identifier [get_vision_api_key] settles on. *)
Lemma secret_name_of_project (environ : gmap string string)
    (client : string → result string) (project_id : string) :
  project_id ≠ "" →
  (environ_get environ "PROJECT_ID" = project_id
   ∨ (environ_get environ "PROJECT_ID" = ""
      ∧ environ_get environ "GOOGLE_CLOUD_PROJECT" = project_id)) →
  get_vision_api_key environ (Ok client)
  = client ("projects/" +:+ project_id +:+ "/secrets/vision-api-key/versions/latest").
Proof.
  intros Hne%String.eqb_neq Hcase. unfold get_vision_api_key. cbn [bind].
  destruct Hcase as [->|[-> ->]].
  - by rewrite !Hne.
  - cbn [String.eqb]. by rewrite Hne.
Qed.

(** X13.  The API key is read from the secret named
    [projects/<id>/secrets/vision-api-key/versions/latest], where the
    project is [PROJECT_ID] when that variable is set and not empty, and
    [GOOGLE_CLOUD_PROJECT] otherwise; what the secret store answers or
    raises is passed on as it is.  With neither variable set to a non-empty
    value, a [ValueError] is raised and nothing is read.  An exception of the
    client's creation comes first. *)
Theorem get_vision_api_key_project (environ : gmap string string)
    (client : string → result string) :
  (∀ project_id,
     project_id ≠ "" →
     environ !! "PROJECT_ID" = Some project_id →
     get_vision_api_key environ (Ok client)
     = client ("projects/" +:+ project_id
               +:+ "/secrets/vision-api-key/versions/latest"))
  ∧ (∀ project_id,
       project_id ≠ "" →
       (environ !! "PROJECT_ID" = None ∨ environ !! "PROJECT_ID" = Some "") →
       environ !! "GOOGLE_CLOUD_PROJECT" = Some project_id →
       get_vision_api_key environ (Ok client)
       = client ("projects/" +:+ project_id
                 +:+ "/secrets/vision-api-key/versions/latest"))
  ∧ ((environ !! "PROJECT_ID" = None ∨ environ !! "PROJECT_ID" = Some "") →
     (environ !! "GOOGLE_CLOUD_PROJECT" = None
      ∨ environ !! "GOOGLE_CLOUD_PROJECT" = Some "") →
     get_vision_api_key environ (Ok client)
     = Raise (Exn ValueError "Project ID not found in environment variables"))
  ∧ (∀ e, get_vision_api_key environ (Raise e) = Raise e).
Proof.
  split; [|split; [|split]].
  - intros project_id Hne Hp. apply secret_name_of_project; [done|].
    left. unfold environ_get. by rewrite Hp.
  - intros project_id Hne Hp Hg. apply secret_name_of_project; [done|].
    right. unfold environ_get. rewrite Hg. by destruct Hp as [->| ->].
  - intros Hp Hg. unfold get_vision_api_key, environ_get. cbn [bind].
    by destruct Hp as [->| ->], Hg as [->| ->].
  - reflexivity.
Qed.

Lemma get_vision_api_key_project_witness :
  get_vision_api_key
    {[ "PROJECT_ID" := ""; "GOOGLE_CLOUD_PROJECT" := "advisor" ]}
    (Ok (fun name => Ok name))
  = Ok "projects/advisor/secrets/vision-api-key/versions/latest".
Proof.
  refine (proj1 (proj2 (get_vision_api_key_project _ (fun name => Ok name)))
            "advisor" _ _ _).
  - discriminate.
  - right. vm_compute. reflexivity.
  - vm_compute. reflexivity.
Defined.

(** X14.  For a valid request whose image decodes, a failure to obtain the
    key or to analyse the image is answered with status 500 and the text of
    the exception after [Internal server error: ], unless the exception is a
    [ValueError], which is answered with status 400 and its bare text.  A
    missing project identifier is such a [ValueError]: it gives status 400. *)
Theorem process_image_key_or_analysis_failure
    (ImageAnnotatorClient : result vision_client) (get_key : result string)
    (request : flask_request) (m : gmap string json) (image_data : json)
    (image_bytes : list byte) (e : exn) :
  method request = "POST" →
  get_json request = JObj m →
  m !! "image_data" = Some image_data →
  truthy image_data = true →
  decode_image_json image_data = Ok image_bytes →
  (get_key = Raise e
   ∨ ((∃ key, get_key = Ok key)
      ∧ analyze_image ImageAnnotatorClient image_bytes = Raise e)) →
  let response :=
    make_response (ImageProcessor.process_image ImageAnnotatorClient get_key request) in
  (exn_kind e = ValueError →
   status_code response = 400%Z
   ∧ data response
     = Json (JObj {[ "success" := JBool false; "data" := JNull;
                     "error" := JStr (exn_str e) ]}))
  ∧ (exn_kind e ≠ ValueError →
     status_code response = 500%Z
     ∧ data response
       = Json (JObj {[ "success" := JBool false; "data" := JNull;
                       "error" := JStr ("Internal server error: "
                                        +:+ exn_str e) ]})).
Proof.
  intros Hm Hjson Himg Htruthy Hdec Hfail. cbv zeta.
  unfold ImageProcessor.process_image, handle_post, validate_request.
  rewrite Hm, Hjson. cbn [String.eqb Ascii.eqb Bool.eqb negb py_in py_getitem].
  rewrite (truthy_dict _ _ _ Himg), Himg. cbn [negb bind].
  replace (bool_decide (is_Some (Some image_data))) with true by reflexivity.
  cbn [negb bind]. rewrite Htruthy. cbn [negb bind]. rewrite Hdec. cbn [bind].
  assert ((do api_key <- get_key;
           do analysis_results <- analyze_image ImageAnnotatorClient image_bytes;
           Ok (Plain (jsonify (reply true analysis_results JNull))))
          = (Raise e : result view_result)) as ->.
  { destruct Hfail as [->|[[key ->] Han]]; cbn [bind]; [done|].
    rewrite Han. cbn [bind]. done. }
  split.
  - intros ->. split; reflexivity.
  - intros Hk. destruct (exn_kind e); try done; split; reflexivity.
Qed.

Lemma process_image_key_or_analysis_failure_witness :
  let response :=
    make_response
      (ImageProcessor.process_image (Raise (Exn OtherException "no client"))
         (get_vision_api_key ∅ (Ok (fun name => Ok name)))
         (Request "POST" ∅ (JObj {[ "image_data" := JStr "YQ==" ]}))) in
  status_code response = 400%Z
  ∧ data response
    = Json (JObj {[ "success" := JBool false; "data" := JNull;
                    "error" := JStr "Project ID not found in environment variables" ]}).
Proof.
  intros response.
  refine (proj1 (process_image_key_or_analysis_failure
                   (Raise (Exn OtherException "no client"))
                   (get_vision_api_key ∅ (Ok (fun name => Ok name)))
                   (Request "POST" ∅ (JObj {[ "image_data" := JStr "YQ==" ]}))
                   {[ "image_data" := JStr "YQ==" ]} (JStr "YQ==") [x61]
                   (Exn ValueError "Project ID not found in environment variables")
                   eq_refl eq_refl _ eq_refl _ _) eq_refl).
  - vm_compute. reflexivity.
  - vm_compute. reflexivity.
  - left. vm_compute. reflexivity.
Defined.

End ApiKey.

(** ** More on the message generator *)

Section GeneratorFurther.

Import MessageGenerator.

Variable str_repr : json → string.
Variable generate_content : string → result string.
Variable aiplatform_init : result unit.

#[local] Abbreviation generate_message :=
  (MessageGenerator.generate_message str_repr generate_content aiplatform_init).

Lemma generator_validate_request_ok (m : gmap string json) (scenario : string)
    (analysis_result : json) :
  m !! "scenario" = Some (JStr scenario) →
  scenario ∈ template_keys →
  m !! "analysis_result" = Some analysis_result →
  validate_request str_repr (JObj m) = Ok (true, None).
Proof.
  intros Hsc Hin Har. unfold validate_request.
  rewrite (truthy_dict _ _ _ Hsc). cbn [negb py_in py_getitem bind].
  rewrite Hsc, Har.
  replace (bool_decide (is_Some (Some (JStr scenario)))) with true by reflexivity.
  cbn [negb bind]. unfold in_templates. cbn [hashable bind].
  rewrite template_of_known.
  rewrite (proj2 (existsb_py_eq_str (JStr scenario) template_keys)) by eauto.
  reflexivity.
Qed.

Lemma generator_validate_request_error (request_json : json) (error : option string) :
  validate_request str_repr request_json = Ok (false, error) →
  ∃ message, error = Some message.
Proof.
  unfold validate_request.
  destruct (negb (truthy request_json)); [intros [= <-]; eauto|].
  destruct (py_in "scenario" request_json) as [[|]|e]; cbn [bind negb];
    [|intros [= <-]; eauto|discriminate].
  destruct (py_getitem request_json "scenario") as [sc|e]; cbn [bind];
    [|discriminate].
  destruct (in_templates sc) as [[|]|e]; cbn [bind negb];
    [|intros [= <-]; eauto|discriminate].
  destruct (py_in "analysis_result" request_json) as [[|]|e]; cbn [bind negb];
    [discriminate|intros [= <-]; eauto|discriminate].
Qed.

(** X15.  The generator answers with one of four statuses and always with
    the three fields [success], [advice] and [error].  When [success] is
    true the status is 200, [advice] is the provider's text and [error] is
    null.  Otherwise [error] is a message and [advice] is null (status 405,
    or status 400 for a request that fails validation) or the default advice
    (any status but 405). *)
Theorem generate_message_response_shape (request : flask_request) :
  let response := make_response (generate_message request) in
  status_code response ∈ [200; 400; 405; 500]%Z
  ∧ ((status_code response = 200%Z
      ∧ ∃ prompt advice,
          generate_content prompt = Ok advice
          ∧ data response
            = Json (JObj {[ "success" := JBool true; "advice" := JStr advice;
                            "error" := JNull ]}))
     ∨ (status_code response ∈ [400; 405]%Z
        ∧ ∃ message,
            data response
            = Json (JObj {[ "success" := JBool false; "advice" := JNull;
                            "error" := JStr message ]}))
     ∨ (status_code response ∈ [200; 400; 500]%Z
        ∧ ∃ message,
            data response
            = Json (JObj {[ "success" := JBool false;
                            "advice" := JStr DEFAULT_ADVICE;
                            "error" := JStr message ]}))).
Proof.
  cbv zeta. unfold MessageGenerator.generate_message.
  destruct (String.eqb (method request) "POST"); cbn [negb].
  2: { split; [cbn; in_list|]. right. left. split; [cbn; in_list|by eexists]. }
  assert (∀ e : exn,
    let rv :=
      match exn_kind e with
      | ValueError =>
          WithStatus (jsonify (reply false (JStr DEFAULT_ADVICE) (JStr (exn_str e)))) 400
      | _ =>
          WithStatus
            (jsonify (reply false (JStr DEFAULT_ADVICE)
                        (JStr ("Internal server error: " +:+ exn_str e)))) 500
      end in
    status_code (make_response rv) ∈ [200; 400; 405; 500]%Z
    ∧ ((status_code (make_response rv) = 200%Z
        ∧ ∃ prompt advice,
            generate_content prompt = Ok advice
            ∧ data (make_response rv) = Json (reply true (JStr advice) JNull))
       ∨ (status_code (make_response rv) ∈ [400; 405]%Z
          ∧ ∃ message,
              data (make_response rv) = Json (reply false JNull (JStr message)))
       ∨ (status_code (make_response rv) ∈ [200; 400; 500]%Z
          ∧ ∃ message,
              data (make_response rv)
              = Json (reply false (JStr DEFAULT_ADVICE) (JStr message)))))
    as Herror.
  { intros e. cbv zeta.
    destruct (exn_kind e); (split; [cbn; in_list|]; right; right;
                            split; [cbn; in_list|by eexists]). }
  unfold handle_post.
  destruct (validate_request str_repr (get_json request)) as [[[|] error]|e] eqn:Hv;
    cbn [bind negb]; [| |apply Herror].
  - destruct (py_getitem (get_json request) "scenario") as [sc|e]; cbn [bind];
      [|apply Herror].
    destruct (py_getitem (get_json request) "analysis_result") as [ar|e];
      cbn [bind]; [|apply Herror].
    destruct (log_summary ar) as [[]|e]; cbn [bind]; [|apply Herror].
    destruct aiplatform_init as [[]|e]; cbn [bind]; [|apply Herror].
    destruct (construct_prompt str_repr sc ar) as [prompt|e]; cbn [bind];
      [|apply Herror].
    unfold generate_advice.
    destruct (generate_content prompt) as [advice|e] eqn:Hgen.
    + split; [cbn; in_list|]. left. split; [reflexivity|]. by exists prompt, advice.
    + destruct (contains "safety" (lower (exn_str e)));
        (split; [cbn; in_list|]; right; right; split; [cbn; in_list|by eexists]).
  - destruct (generator_validate_request_error _ _ Hv) as [message ->].
    split; [cbn; in_list|]. right. left. split; [cbn; in_list|by eexists].
Qed.

(** The log line of [generate_message] takes the length of the three
    fields. *)
Lemma log_summary_typed (r : AnalysisResult) : log_summary (analysis_json r) = Ok tt.
Proof. reflexivity. Qed.

End GeneratorFurther.

Section AnalyzerToGenerator.

Import MessageGenerator.

Variable str_repr : json → string.
Variable generate_content : string → result string.

(** The dict [analyze_image] returns is an analysis result of the data
    model: its labels and objects are those of the provider with a score of
    at least [MIN_CONFIDENCE_SCORE], with the score rounded. *)
Lemma analyze_image_typed (client : result ImageProcessor.vision_client)
    (image_bytes : list byte) (data : json) :
  ImageProcessor.analyze_image client image_bytes = Ok data →
  ∃ r : AnalysisResult, data = analysis_json r.
Proof.
  unfold ImageProcessor.analyze_image.
  destruct client as [c|e]; cbn [bind]; [|discriminate].
  destruct (ImageProcessor.label_detection c image_bytes) as [ls|e]; cbn [bind];
    [|discriminate].
  destruct (ImageProcessor.object_localization c image_bytes) as [os|e]; cbn [bind];
    [|discriminate].
  destruct (ImageProcessor.text_detection c image_bytes) as [ts|e]; cbn [bind];
    [|discriminate].
  intros [= <-].
  exists (MkAnalysisResult
            (map (fun l => Label (ImageProcessor.description l)
                             (round2 (ImageProcessor.score l)))
               (filter (fun l => Qle_bool ImageProcessor.MIN_CONFIDENCE_SCORE
                                   (ImageProcessor.score l) = true) ls))
            (map (fun o => DetectedObject (ImageProcessor.name o)
                             (round2 (ImageProcessor.object_score o)))
               (filter (fun o => Qle_bool ImageProcessor.MIN_CONFIDENCE_SCORE
                                   (ImageProcessor.object_score o) = true) os))
            match ts with
            | [] => ""
            | first :: _ => ImageProcessor.description first
            end).
  unfold analysis_json. cbn [result_labels result_objects result_text].
  rewrite !map_map.
  replace (match ls with [] => [] | _ :: _ => ImageProcessor.collect_labels ls end)
    with (ImageProcessor.collect_labels ls) by (by destruct ls).
  replace (match os with [] => [] | _ :: _ => ImageProcessor.collect_objects os end)
    with (ImageProcessor.collect_objects os) by (by destruct os).
  rewrite collect_labels_filter, collect_objects_filter. reflexivity.
Qed.

(** X16.  Whatever the image processor's [analyze_image] returns, the
    generator accepts as the [analysis_result] of any of its scenarios: once
    Vertex AI is initialised a prompt is built from it and sent to the
    provider, and the answer has status 200.  Its body is
    [{success: true, advice, error: null}] with the provider's text when the
    provider answers, and [{success: false, advice, error}] with the default
    advice and one of the two error messages when the provider raises. *)
Theorem generate_message_accepts_analysis
    (client : result ImageProcessor.vision_client) (image_bytes : list byte)
    (analysis : json) (request : flask_request) (m : gmap string json)
    (scenario : string) :
  ImageProcessor.analyze_image client image_bytes = Ok analysis →
  method request = "POST" →
  get_json request = JObj m →
  m !! "scenario" = Some (JStr scenario) →
  scenario ∈ template_keys →
  m !! "analysis_result" = Some analysis →
  let response :=
    make_response
      (MessageGenerator.generate_message str_repr generate_content (Ok tt) request) in
  ∃ prompt,
    construct_prompt str_repr (JStr scenario) analysis = Ok prompt
    ∧ status_code response = 200%Z
    ∧ (∀ advice,
         generate_content prompt = Ok advice →
         data response
         = Json (JObj {[ "success" := JBool true; "advice" := JStr advice;
                         "error" := JNull ]}))
    ∧ (∀ e,
         generate_content prompt = Raise e →
         ∃ error,
           data response
           = Json (JObj {[ "success" := JBool false;
                           "advice" := JStr DEFAULT_ADVICE;
                           "error" := JStr error ]})
           ∧ (error = "Content blocked due to safety settings: " +:+ exn_str e
              ∨ error = "Error generating advice: " +:+ exn_str e)).
Proof.
  intros Han Hm Hjson Hsc Hin Har. cbv zeta.
  destruct (analyze_image_typed _ _ _ Han) as [r ->].
  destruct (construct_prompt_known str_repr scenario r Hin) as (prompt & Hp & _).
  exists prompt. split; [exact Hp|].
  unfold MessageGenerator.generate_message, handle_post.
  rewrite Hm, Hjson, (generator_validate_request_ok str_repr m scenario _ Hsc Hin Har).
  cbn [String.eqb Ascii.eqb Bool.eqb negb bind py_getitem].
  rewrite Hsc, Har. cbn [bind]. rewrite log_summary_typed. cbn [bind].
  rewrite Hp. cbn [bind]. unfold generate_advice.
  destruct (generate_content prompt) as [advice|e].
  - split; [reflexivity|]. split; [|discriminate].
    by intros ? [= <-].
  - destruct (contains "safety" (lower (exn_str e)));
      (split; [reflexivity|]; split; [discriminate|]; intros ? [= <-];
       eexists; split; [reflexivity|]; auto).
Qed.

End AnalyzerToGenerator.

Lemma generate_message_accepts_analysis_witness :
  let client :=
    ImageProcessor.VisionClient
      (fun _ => Ok [ImageProcessor.Annotation "Plant" (double 0.9)])
      (fun _ => Ok []) (fun _ => Ok []) in
  ∃ analysis,
    ImageProcessor.analyze_image (Ok client) [] = Ok analysis
    ∧ let response :=
        make_response
          (MessageGenerator.generate_message (fun _ => "") (fun _ => Ok "water it")
             (Ok tt)
             (Request "POST" ∅
                (JObj {[ "scenario" := JStr "plant";
                         "analysis_result" := analysis ]}))) in
      status_code response = 200%Z
      ∧ data response
        = Json (JObj {[ "success" := JBool true; "advice" := JStr "water it";
                        "error" := JNull ]}).
Proof.
  intros client.
  destruct (ImageProcessor.analyze_image (Ok client) []) as [analysis|e] eqn:Han;
    [|vm_compute in Han; discriminate Han].
  exists analysis. split; [reflexivity|].
  destruct (generate_message_accepts_analysis (fun _ => "") (fun _ => Ok "water it")
              (Ok client) [] analysis
              (Request "POST" ∅
                 (JObj {[ "scenario" := JStr "plant"; "analysis_result" := analysis ]}))
              {[ "scenario" := JStr "plant"; "analysis_result" := analysis ]} "plant"
              Han eq_refl eq_refl) as (prompt & _ & Hstatus & Hanswer & _).
  - reflexivity.
  - in_list.
  - rewrite lookup_insert_ne by discriminate. by rewrite lookup_singleton_eq.
  - split; [exact Hstatus|]. exact (Hanswer "water it" eq_refl).
Defined.

(** ** Analysis results with nothing in them, and malformed ones *)

Section GeneratorEdges.

Import MessageGenerator.

Variable str_repr : json → string.
Variable generate_content : string → result string.
Variable aiplatform_init : result unit.

#[local] Abbreviation generate_message :=
  (MessageGenerator.generate_message str_repr generate_content aiplatform_init).

(** X17.  An analysis result whose [labels] and [objects] are absent or
    empty and whose [text] is absent or falsy (the empty string, [null])
    is formatted as [なし] three times, and the prompt of a known scenario
    is its template with [なし] in the three fields. *)
Theorem construct_prompt_nothing_detected (scenario : string) (m : gmap string json) :
  scenario ∈ template_keys →
  (m !! "labels" = None ∨ m !! "labels" = Some (JArr [])) →
  (m !! "objects" = None ∨ m !! "objects" = Some (JArr [])) →
  (∀ v, m !! "text" = Some v → truthy v = false) →
  format_analysis_result str_repr (JObj m)
  = Ok (Formatted none_ja none_ja (JStr none_ja))
  ∧ ∃ template,
      lookup_template scenario PROMPT_TEMPLATES = Some template
      ∧ construct_prompt str_repr (JStr scenario) (JObj m)
        = Ok (segment 0 template +:+ none_ja +:+ segment 1 template +:+ none_ja
              +:+ segment 2 template +:+ none_ja +:+ segment 3 template).
Proof.
  intros Hin Hl Ho Ht.
  assert (format_analysis_result str_repr (JObj m)
          = Ok (Formatted none_ja none_ja (JStr none_ja))) as Hf.
  { unfold format_analysis_result. cbn [py_get bind].
    replace (default (JArr []) (m !! "labels")) with (JArr [])
      by (by destruct Hl as [->| ->]).
    replace (default (JArr []) (m !! "objects")) with (JArr [])
      by (by destruct Ho as [->| ->]).
    cbn [py_iter bind map_result join String.eqb].
    destruct (m !! "text") as [v|] eqn:Hv; cbn [default from_option id].
    - by rewrite (Ht v eq_refl).
    - reflexivity. }
  split; [exact Hf|].
  destruct (known_scenario_template scenario Hin) as [template Htpl].
  exists template. split; [exact Htpl|].
  unfold construct_prompt, in_templates. cbn [hashable bind template_of].
  rewrite Htpl.
  replace (bool_decide (is_Some (Some template))) with true by reflexivity.
  cbn [negb]. rewrite Hf. cbn [bind labels objects text py_str].
  by apply str_format_segments with (scenario := scenario).
Qed.

Lemma py_len_raise (v : json) (e : exn) :
  py_len v = Raise e → exn_kind e = TypeError.
Proof. destruct v; cbn [py_len]; try discriminate; by intros [= <-]. Qed.

Lemma log_summary_raise (analysis_result : json) :
  ((∀ a, analysis_result ≠ JObj a)
   ∨ ∃ a field v,
       analysis_result = JObj a
       ∧ field ∈ ["labels"; "objects"; "text"]
       ∧ a !! field = Some v
       ∧ ∀ n, py_len v ≠ Ok n) →
  ∃ e, log_summary analysis_result = Raise e ∧ exn_kind e ≠ ValueError.
Proof.
  intros [Hnd|(a & field & v & -> & Hfield & Hv & Hlen)].
  - destruct analysis_result as [| | | | | |a];
      try (eexists; split; [reflexivity|discriminate]).
    by destruct (Hnd a).
  - unfold log_summary. cbn [py_get bind].
    destruct (py_len (default (JArr []) (a !! "labels"))) as [n1|e] eqn:H1;
      cbn [bind].
    2: { exists e. split; [reflexivity|]. by rewrite (py_len_raise _ _ H1). }
    destruct (py_len (default (JArr []) (a !! "objects"))) as [n2|e] eqn:H2;
      cbn [bind].
    2: { exists e. split; [reflexivity|]. by rewrite (py_len_raise _ _ H2). }
    destruct (py_len (default (JStr "") (a !! "text"))) as [n3|e] eqn:H3;
      cbn [bind].
    2: { exists e. split; [reflexivity|]. by rewrite (py_len_raise _ _ H3). }
    exfalso.
    apply list_elem_of_In in Hfield. cbn [In] in Hfield.
    destruct Hfield as [<-|[<-|[<-|[]]]]; rewrite Hv in *;
      cbn [default from_option id] in *; by eapply Hlen.
Qed.

(** X18.  A request with a known scenario is answered with status 500 and
    the default advice when its [analysis_result] is not a dict, or is a
    dict one of whose [labels], [objects] and [text] has no length (a
    number, a boolean, [null]): the line that logs the three lengths raises
    before Vertex AI is initialised and before a prompt is built. *)
Theorem generate_message_unsized_analysis (request : flask_request)
    (m : gmap string json) (scenario : string) (analysis_result : json) :
  method request = "POST" →
  get_json request = JObj m →
  m !! "scenario" = Some (JStr scenario) →
  scenario ∈ template_keys →
  m !! "analysis_result" = Some analysis_result →
  ((∀ a, analysis_result ≠ JObj a)
   ∨ ∃ a field v,
       analysis_result = JObj a
       ∧ field ∈ ["labels"; "objects"; "text"]
       ∧ a !! field = Some v
       ∧ ∀ n, py_len v ≠ Ok n) →
  let response := make_response (generate_message request) in
  status_code response = 500%Z
  ∧ ∃ message,
      data response
      = Json (JObj {[ "success" := JBool false;
                      "advice" := JStr DEFAULT_ADVICE;
                      "error" := JStr ("Internal server error: " +:+ message) ]}).
Proof.
  intros Hm Hjson Hsc Hin Har Hbad. cbv zeta.
  destruct (log_summary_raise analysis_result Hbad) as (e & Hlog & Hkind).
  unfold MessageGenerator.generate_message, handle_post.
  rewrite Hm, Hjson, (generator_validate_request_ok str_repr m scenario _ Hsc Hin Har).
  cbn [String.eqb Ascii.eqb Bool.eqb negb bind py_getitem].
  rewrite Hsc, Har. cbn [bind]. rewrite Hlog. cbn [bind].
  destruct (exn_kind e); try done; (split; [reflexivity|by eexists]).
Qed.

End GeneratorEdges.

Lemma construct_prompt_nothing_detected_witness :
  MessageGenerator.format_analysis_result (fun _ => "")
    (JObj {[ "labels" := JArr []; "text" := JNull ]})
  = Ok (MessageGenerator.Formatted MessageGenerator.none_ja MessageGenerator.none_ja
          (JStr MessageGenerator.none_ja)).
Proof.
  refine (proj1 (construct_prompt_nothing_detected (fun _ => "") "fridge"
                   {[ "labels" := JArr []; "text" := JNull ]} _ _ _ _)).
  - in_list.
  - right. vm_compute. reflexivity.
  - left. vm_compute. reflexivity.
  - intros v Hv. vm_compute in Hv. by injection Hv as <-.
Defined.

Lemma generate_message_unsized_analysis_witness :
  let response :=
    make_response
      (MessageGenerator.generate_message (fun _ => "") (fun _ => Ok "advice") (Ok tt)
         (Request "POST" ∅
            (JObj {[ "scenario" := JStr "plant";
                     "analysis_result" := JObj {[ "text" := JNull ]} ]}))) in
  status_code response = 500%Z
  ∧ ∃ message,
      data response
      = Json (JObj {[ "success" := JBool false;
                      "advice" := JStr MessageGenerator.DEFAULT_ADVICE;
                      "error" := JStr ("Internal server error: " +:+ message) ]}).
Proof.
  intros response.
  refine (generate_message_unsized_analysis (fun _ => "") (fun _ => Ok "advice")
            (Ok tt) (Request "POST" ∅ _)
            {[ "scenario" := JStr "plant";
               "analysis_result" := JObj {[ "text" := JNull ]} ]}
            "plant" (JObj {[ "text" := JNull ]}) eq_refl eq_refl _ _ _ _).
  - vm_compute. reflexivity.
  - in_list.
  - vm_compute. reflexivity.
  - right. exists {[ "text" := JNull ]}, "text", JNull.
    split; [reflexivity|]. split; [in_list|]. split; [vm_compute; reflexivity|].
    intros n. discriminate.
Defined.

(** ** The advisor's image processor: the properties it derives *)

Section AdvisorProperties.

Import AdvisorImageProcessor.

Variable vision_client : option (list byte → result annotate_response).

(** Some label mentions one of the indicators. *)
#[local] Abbreviation mentions indicators labels :=
  (existsb (fun label : label =>
              existsb (fun indicator => contains indicator (lower (description label)))
                indicators) labels).

#[local] Abbreviation names_environment :=
  (fun label : label => bool_decide (lower (description label) ∈ environment_labels)).

Lemma scan_environment_find (labels : list label) (properties : gmap string string) :
  scan_environment labels properties
  = match find names_environment labels with
    | Some label => <["environment_type" := lower (description label)]> properties
    | None => properties
    end.
Proof.
  induction labels as [|l rest IH]; [reflexivity|].
  cbn [scan_environment find].
  by destruct (bool_decide (lower (description l) ∈ environment_labels)).
Qed.

Lemma scan_labels_mentions (level : string) (indicators : list string)
    (labels : list label) (properties : gmap string string) :
  scan_labels level indicators labels properties
  = if mentions indicators labels then <["cleanliness_level" := level]> properties
    else properties.
Proof.
  induction labels as [|l rest IH]; [reflexivity|].
  cbn [scan_labels existsb].
  by destruct (existsb (fun indicator => contains indicator (lower (description l)))
                 indicators).
Qed.

(** The search for the cleanliness level, in closed form. *)
Lemma scan_cleanliness_level (labels : list label) (properties : gmap string string) :
  properties !! "cleanliness_level" = Some "unknown" →
  scan_cleanliness cleanliness_indicators labels properties
  = if mentions ["clean"; "tidy"; "organized"; "neat"; "spotless"] labels
    then <["cleanliness_level" := "clean"]> properties
    else if mentions ["lived in"; "used"; "normal"] labels
    then <["cleanliness_level" := "moderate"]> properties
    else if mentions ["dirty"; "messy"; "cluttered"; "disorganized"; "stained"] labels
    then <["cleanliness_level" := "dirty"]> properties
    else properties.
Proof.
  intros Hunknown. unfold cleanliness_indicators. cbn [scan_cleanliness].
  rewrite !scan_labels_mentions.
  destruct (mentions ["clean"; "tidy"; "organized"; "neat"; "spotless"] labels).
  { by rewrite lookup_insert_eq. }
  rewrite Hunknown.
  replace (negb (bool_decide (Some "unknown" = Some "unknown"))) with false
    by reflexivity.
  destruct (mentions ["lived in"; "used"; "normal"] labels).
  { by rewrite lookup_insert_eq. }
  rewrite Hunknown.
  replace (negb (bool_decide (Some "unknown" = Some "unknown"))) with false
    by reflexivity.
  destruct (mentions ["dirty"; "messy"; "cluttered"; "disorganized"; "stained"] labels).
  { by rewrite lookup_insert_eq. }
  rewrite Hunknown. reflexivity.
Qed.

(** The properties of a response are computed from its own labels and
    objects. *)
Lemma analyse_properties (image_content : list byte) (r : ImageAnalysisResponse) :
  analyse vision_client image_content = Ok r →
  properties r
  = <["organization_level" := organization_level (objects r)]>
      (scan_cleanliness cleanliness_indicators (labels r)
         (scan_environment (labels r)
            {[ "environment_type" := "unknown";
               "cleanliness_level" := "unknown";
               "organization_level" := "unknown" ]})).
Proof.
  unfold analyse.
  match goal with
  | |- bind ?detected _ = _ → _ => destruct detected as [[[[l o] t] c]|e]
  end; cbn [bind]; [|discriminate].
  intros [= <-]. reflexivity.
Qed.

Lemma scanned_environment_cleanliness (labels : list label) :
  scan_environment labels
    {[ "environment_type" := "unknown";
       "cleanliness_level" := "unknown";
       "organization_level" := "unknown" ]} !! "cleanliness_level"
  = Some "unknown".
Proof.
  rewrite scan_environment_find.
  destruct (find _ labels); [rewrite lookup_insert_ne by discriminate|];
    reflexivity.
Qed.

(** X19.  The cleanliness level the advisor's image processor reports is
    decided by the levels in the order clean, moderate, dirty, not by the
    order of the labels: it is [clean] when any label contains one of the
    words for clean, else [moderate] when any label contains one of the
    words for moderate, else [dirty] when any label contains one of the words
    for dirty, else [unknown].  Labels are compared in lower case and a word
    counts wherever it occurs in a label. *)
Theorem advisor_cleanliness_level (image_content : list byte)
    (r : ImageAnalysisResponse) :
  process_image vision_client image_content = Returned r →
  properties r !! "cleanliness_level"
  = Some (if mentions ["clean"; "tidy"; "organized"; "neat"; "spotless"] (labels r)
          then "clean"
          else if mentions ["lived in"; "used"; "normal"] (labels r)
          then "moderate"
          else if mentions ["dirty"; "messy"; "cluttered"; "disorganized"; "stained"]
                    (labels r)
          then "dirty"
          else "unknown").
Proof.
  unfold process_image.
  destruct (analyse vision_client image_content) as [r'|e] eqn:Han; [|discriminate].
  intros [= ->]. rewrite (analyse_properties _ _ Han).
  rewrite lookup_insert_ne by discriminate.
  rewrite (scan_cleanliness_level _ _ (scanned_environment_cleanliness _)).
  destruct (mentions ["clean"; "tidy"; "organized"; "neat"; "spotless"] (labels r));
    [by rewrite lookup_insert_eq|].
  destruct (mentions ["lived in"; "used"; "normal"] (labels r));
    [by rewrite lookup_insert_eq|].
  destruct (mentions ["dirty"; "messy"; "cluttered"; "disorganized"; "stained"]
              (labels r));
    [by rewrite lookup_insert_eq|].
  apply scanned_environment_cleanliness.
Qed.

(** X20.  The environment type is the lower-cased description of the first
    label that, in lower case, is exactly one of the five environments, and
    [unknown] when there is none.  The organization level is [cluttered]
    above ten objects, [moderate] above five and [minimal] otherwise; it is
    never [unknown].  The properties have these three keys and no other. *)
Theorem advisor_properties_shape (image_content : list byte)
    (r : ImageAnalysisResponse) :
  process_image vision_client image_content = Returned r →
  properties r !! "environment_type"
  = Some match find names_environment (labels r) with
         | Some label => lower (description label)
         | None => "unknown"
         end
  ∧ (∃ environment, properties r !! "environment_type" = Some environment
       ∧ environment ∈ ["unknown"; "kitchen"; "bathroom"; "bedroom"; "living room";
                        "dining room"])
  ∧ properties r !! "organization_level"
    = Some (if 10 <? length (objects r) then "cluttered"
            else if 5 <? length (objects r) then "moderate" else "minimal")
  ∧ (∀ key, is_Some (properties r !! key)
            ↔ key ∈ ["environment_type"; "cleanliness_level"; "organization_level"]).
Proof.
  unfold process_image.
  destruct (analyse vision_client image_content) as [r'|e] eqn:Han; [|discriminate].
  intros [= ->]. rewrite (analyse_properties _ _ Han).
  rewrite (scan_cleanliness_level _ _ (scanned_environment_cleanliness _)).
  rewrite scan_environment_find.
  assert (∀ label : label,
            names_environment label = true →
            lower (description label)
            ∈ ["unknown"; "kitchen"; "bathroom"; "bedroom"; "living room";
               "dining room"]) as Henv.
  { intros l Hl. apply bool_decide_eq_true in Hl. unfold environment_labels in Hl.
    rewrite !elem_of_union, !elem_of_singleton in Hl.
    destruct Hl as [[[[->| ->]| ->]| ->]| ->]; in_list. }
  set (c1 := mentions ["clean"; "tidy"; "organized"; "neat"; "spotless"] (labels r)).
  set (c2 := mentions ["lived in"; "used"; "normal"] (labels r)).
  set (c3 := mentions ["dirty"; "messy"; "cluttered"; "disorganized"; "stained"]
               (labels r)).
  assert (∀ (p : gmap string string) (key : string),
            (<["organization_level" := organization_level (objects r)]>
               (if c1 then <["cleanliness_level" := "clean"]> p
                else if c2 then <["cleanliness_level" := "moderate"]> p
                else if c3 then <["cleanliness_level" := "dirty"]> p else p))
              !! key
            = if String.eqb key "organization_level"
              then Some (organization_level (objects r))
              else if String.eqb key "cleanliness_level"
                   then (if c1 then Some "clean"
                         else if c2 then Some "moderate"
                         else if c3 then Some "dirty" else p !! key)
                   else p !! key) as Hlookup.
  { intros p key.
    destruct (String.eqb_spec key "organization_level") as [->|Hk1].
    { by rewrite lookup_insert_eq. }
    rewrite lookup_insert_ne by done.
    destruct (String.eqb_spec key "cleanliness_level") as [->|Hk2].
    - destruct c1; [by rewrite lookup_insert_eq|].
      destruct c2; [by rewrite lookup_insert_eq|].
      destruct c3; [by rewrite lookup_insert_eq|]. reflexivity.
    - destruct c1; [by rewrite lookup_insert_ne|].
      destruct c2; [by rewrite lookup_insert_ne|].
      destruct c3; [by rewrite lookup_insert_ne|]. reflexivity. }
  split; [|split; [|split]].
  - rewrite Hlookup. cbn [String.eqb Ascii.eqb Bool.eqb].
    destruct (find _ (labels r)); [by rewrite lookup_insert_eq|reflexivity].
  - rewrite Hlookup. cbn [String.eqb Ascii.eqb Bool.eqb].
    destruct (find _ (labels r)) as [l|] eqn:Hfind.
    + rewrite lookup_insert_eq. eexists. split; [reflexivity|].
      apply Henv. by apply find_some in Hfind as [_ Hl].
    + eexists. split; [reflexivity|]. in_list.
  - rewrite Hlookup. reflexivity.
  - intros key. rewrite Hlookup.
    destruct (String.eqb_spec key "organization_level") as [->|Hk1].
    { split; [intros _; in_list|by eexists]. }
    destruct (String.eqb_spec key "cleanliness_level") as [->|Hk2].
    { split; [intros _; in_list|]. intros _.
      destruct c1; [by eexists|]. destruct c2; [by eexists|].
      destruct c3; [by eexists|].
      destruct (find _ (labels r)); [rewrite lookup_insert_ne by discriminate|];
        by eexists. }
    destruct (decide (key = "environment_type")) as [->|Hk3].
    { split; [intros _; in_list|]. intros _.
      destruct (find _ (labels r)); [rewrite lookup_insert_eq|]; by eexists. }
    assert (match find names_environment (labels r) with
            | Some label =>
                <["environment_type" := lower (description label)]>
                  ({[ "environment_type" := "unknown";
                      "cleanliness_level" := "unknown";
                      "organization_level" := "unknown" ]} : gmap string string)
            | None =>
                {[ "environment_type" := "unknown";
                   "cleanliness_level" := "unknown";
                   "organization_level" := "unknown" ]}
            end !! key = None) as ->.
    { destruct (find _ (labels r)); rewrite ?lookup_insert_ne by done;
        by rewrite lookup_singleton_ne. }
    split; [by intros [? ?]|].
    intros Hin. apply list_elem_of_In in Hin. cbn [In] in Hin.
    destruct Hin as [<-|[<-|[<-|[]]]]; done.
Qed.

(** X21.  The advisor's image processor fails only when there is a client
    and its call raises, and then with status 500 and a fixed detail that
    does not show the exception; without a client it always answers, from
    the mock data. *)
Theorem advisor_process_image_failure (image_content : list byte) :
  (∀ status detail,
     process_image vision_client image_content = HTTPException status detail →
     status = 500%Z ∧ detail = "Error processing image"
     ∧ ∃ annotate_image e,
         vision_client = Some annotate_image
         ∧ annotate_image image_content = Raise e)
  ∧ (∀ annotate_image e,
       vision_client = Some annotate_image →
       annotate_image image_content = Raise e →
       process_image vision_client image_content
       = HTTPException 500 "Error processing image")
  ∧ (vision_client = None →
     ∃ r, process_image vision_client image_content = Returned r
          ∧ labels r = mock_labels ∧ objects r = mock_objects).
Proof.
  unfold process_image, analyse. split; [|split].
  - intros status detail.
    destruct vision_client as [annotate_image|]; cbn [bind]; [|discriminate].
    destruct (annotate_image image_content) as [response|e] eqn:Hcall; cbn [bind];
      [discriminate|].
    intros [= <- <-]. split; [reflexivity|]. split; [reflexivity|].
    by exists annotate_image, e.
  - intros annotate_image e -> Hcall. cbn [bind]. by rewrite Hcall.
  - intros ->. cbn [bind]. eexists. split; [reflexivity|]. by split.
Qed.

End AdvisorProperties.

Lemma advisor_cleanliness_level_witness :
  let response :=
    AdvisorImageProcessor.AnnotateResponse
      [ AdvisorImageProcessor.Label "Messy desk" (double 0.9) (double 0.9);
        AdvisorImageProcessor.Label "Unclean floor" (double 0.8) (double 0.8) ] [] [] None in
  ∃ r,
    AdvisorImageProcessor.process_image (Some (fun _ => Ok response)) [] 
    = AdvisorImageProcessor.Returned r
    ∧ AdvisorImageProcessor.properties r !! "cleanliness_level" = Some "clean".
Proof.
  intros response. eexists. split; [reflexivity|].
  rewrite (advisor_cleanliness_level (Some (fun _ => Ok response)) [] _ eq_refl).
  vm_compute. reflexivity.
Defined.

Lemma advisor_properties_shape_witness :
  let response :=
    AdvisorImageProcessor.AnnotateResponse
      [ AdvisorImageProcessor.Label "Kitchen sink" (double 0.9) (double 0.9);
        AdvisorImageProcessor.Label "Bathroom" (double 0.8) (double 0.8);
        AdvisorImageProcessor.Label "Kitchen" (double 0.7) (double 0.7) ] [] [] None in
  ∃ r,
    AdvisorImageProcessor.process_image (Some (fun _ => Ok response)) []
    = AdvisorImageProcessor.Returned r
    ∧ AdvisorImageProcessor.properties r !! "environment_type" = Some "bathroom".
Proof.
  intros response. eexists. split; [reflexivity|].
  rewrite (proj1 (advisor_properties_shape (Some (fun _ => Ok response)) [] _ eq_refl)).
  vm_compute. reflexivity.
Defined.

Lemma advisor_process_image_failure_witness :
  AdvisorImageProcessor.process_image
    (Some (fun _ => Raise (Exn OtherException "quota exceeded"))) []
  = AdvisorImageProcessor.HTTPException 500 "Error processing image".
Proof.
  exact (proj1 (proj2 (advisor_process_image_failure
                         (Some (fun _ => Raise (Exn OtherException "quota exceeded")))
                         [])) _ (Exn OtherException "quota exceeded") eq_refl eq_refl).
Defined.

(** ** The advisor's message generator *)

Section AdvisorAdviceProperties.

Import AdvisorMessageGenerator AdvisorAdvice.

Variable str_repr : json → string.
Variable gemini_available : bool.
Variable generate_content : string → result string.

#[local] Abbreviation generate_advice :=
  (AdvisorAdvice.generate_advice str_repr gemini_available generate_content).

Lemma top_items_take (n : nat) (key : string) (l : list json) :
  top_items n key (JArr (take n l)) = top_items n key (JArr l).
Proof. cbn [top_items]. by rewrite take_take, Nat.min_id. Qed.

(** X22.  The advisor's prompt reads only the first five labels and the
    first ten objects: whatever follows them, well-formed or not, changes
    neither the prompt nor whether it can be built. *)
Theorem advisor_construct_prompt_reads_top (labels objects : list json)
    (text properties context : json) :
  _construct_prompt str_repr (JArr labels) (JArr objects) text properties context
  = _construct_prompt str_repr (JArr (take 5 labels)) (JArr (take 10 objects))
      text properties context.
Proof.
  unfold _construct_prompt. by rewrite !top_items_take.
Qed.

(** The mock advice for an environment type. *)
#[local] Abbreviation mock_advice_for environment_type :=
  (if py_eq_str environment_type "kitchen" then mock_advice_kitchen
   else if py_eq_str environment_type "bathroom" then mock_advice_bathroom
   else if py_eq_str environment_type "bedroom" then mock_advice_bedroom
   else mock_advice_other).

(** X23.  Once the prompt is built, [generate_advice] always returns an
    advice.  It is the provider's text when the provider is available and
    answers.  When the provider is not available, or raises, it is one of
    four fixed texts, chosen by the [environment_type] of the properties
    ([kitchen], [bathroom], [bedroom], anything else): the provider's
    exception does not show.  When the prompt cannot be built the handler
    raises status 500 with a fixed detail, also when the provider is not
    available. *)
Theorem advisor_generate_advice_fallback (image_analysis : gmap string json)
    (context : option string) :
  let labels := default (JArr []) (image_analysis !! "labels") in
  let objects := default (JArr []) (image_analysis !! "objects") in
  let text := default (JStr "") (image_analysis !! "text") in
  let properties := default (JObj ∅) (image_analysis !! "properties") in
  let built :=
    _construct_prompt str_repr labels objects text properties
      match context with Some s => JStr s | None => JNull end in
  (∀ e, built = Raise e →
        generate_advice image_analysis context
        = AdvisorImageProcessor.HTTPException 500 "Error generating advice")
  ∧ (∀ prompt,
       built = Ok prompt →
       ∃ p, properties = JObj p
       ∧ (gemini_available = true →
          ∀ advice, generate_content prompt = Ok advice →
            generate_advice image_analysis context
            = AdvisorImageProcessor.Returned advice)
       ∧ ((gemini_available = false ∨ ∃ e, generate_content prompt = Raise e) →
          generate_advice image_analysis context
          = AdvisorImageProcessor.Returned
              (mock_advice_for (default (JStr "unknown") (p !! "environment_type"))))).
Proof.
  cbv zeta. unfold AdvisorAdvice.generate_advice, advise. cbn [py_get bind].
  split.
  - intros e ->. reflexivity.
  - intros prompt Hbuilt. rewrite Hbuilt. cbn [bind].
    assert (∃ p, default (JObj ∅) (image_analysis !! "properties") = JObj p)
      as [p Hp].
    { destruct (default (JObj ∅) (image_analysis !! "properties")) as [| | | | | |p];
        try (unfold _construct_prompt in Hbuilt; cbn [py_get bind] in Hbuilt;
             discriminate Hbuilt).
      by exists p. }
    exists p. split; [exact Hp|]. rewrite Hp. split.
    + intros -> advice ->. reflexivity.
    + intros [->|[e He]]; cbn [negb py_get bind]; [reflexivity|].
      destruct gemini_available; cbn [negb py_get bind]; [|reflexivity].
      rewrite He. reflexivity.
Qed.

End AdvisorAdviceProperties.

Lemma advisor_generate_advice_fallback_witness :
  AdvisorAdvice.generate_advice (fun _ => "") true
    (fun _ => Raise (Exn OtherException "quota exceeded"))
    {[ "properties" := JObj {[ "environment_type" := JStr "bathroom" ]} ]} None
  = AdvisorImageProcessor.Returned AdvisorAdvice.mock_advice_bathroom.
Proof.
  destruct (advisor_generate_advice_fallback (fun _ => "") true
              (fun _ => Raise (Exn OtherException "quota exceeded"))
              {[ "properties" := JObj {[ "environment_type" := JStr "bathroom" ]} ]}
              None) as [_ Hbuilt].
  destruct (AdvisorMessageGenerator._construct_prompt (fun _ => "") (JArr []) (JArr [])
              (JStr "") (JObj {[ "environment_type" := JStr "bathroom" ]}) JNull)
    as [prompt|e] eqn:Hp; [|vm_compute in Hp; discriminate Hp].
  destruct (Hbuilt prompt Hp) as (p & Heq & _ & Hmock).
  rewrite Hmock by (right; by eexists).
  vm_compute in Heq. injection Heq as <-. reflexivity.
Defined.

(** ** The advisor's gateway *)

Section AdvisorGatewayProperties.

Import AdvisorGateway.

Variable IMAGE_PROCESSOR_URL : string.
Variable MESSAGE_GENERATOR_URL : string.
Variable post_files : string → list byte → attempt http_reply.
Variable post_json : string → json → attempt http_reply.
Variable validate_str : json → result string.
Variable validate_dict : json → result (gmap string json).

#[local] Abbreviation analyze_image :=
  (AdvisorGateway.analyze_image IMAGE_PROCESSOR_URL MESSAGE_GENERATOR_URL post_files
     post_json validate_str validate_dict).
#[local] Abbreviation forward :=
  (AdvisorGateway.forward IMAGE_PROCESSOR_URL MESSAGE_GENERATOR_URL post_files
     post_json validate_str validate_dict).

#[local] Abbreviation generator_payload image_analysis context :=
  (JObj {[ "image_analysis" := image_analysis;
           "context" := match context with
                        | Some s => JStr s
                        | None => JNull
                        end ]}).

(** What the [try] block does after each of the two calls. *)
Lemma forward_analyzer_status (image_content : list byte) (context : option string)
    (response : http_reply) :
  post_files (IMAGE_PROCESSOR_URL +:+ "/process") image_content = Done response →
  reply_status response ≠ 200%Z →
  forward image_content context
  = Failed (HTTPError (reply_status response) "Error processing image").
Proof.
  intros Hpost Hstatus%Z.eqb_neq. unfold AdvisorGateway.forward.
  rewrite Hpost. cbn [and_then]. by rewrite Hstatus.
Qed.

Lemma forward_generator (image_content : list byte) (context : option string)
    (analyzer_text : string) (image_analysis : json) :
  post_files (IMAGE_PROCESSOR_URL +:+ "/process") image_content
  = Done (HttpReply 200 analyzer_text (Ok image_analysis)) →
  forward image_content context
  = and_then
      (post_json (MESSAGE_GENERATOR_URL +:+ "/generate")
         (generator_payload image_analysis context))
      (fun message_response =>
         if negb (reply_status message_response =? 200)%Z then
           Failed (HTTPError (reply_status message_response) "Error generating advice")
         else
           and_then (lift (reply_json message_response)) (fun advice_data =>
           and_then (lift (py_getitem advice_data "advice")) (fun advice =>
           lift (make_advice_response validate_str validate_dict advice
                   image_analysis)))).
Proof.
  intros Hpost. unfold AdvisorGateway.forward. rewrite Hpost. reflexivity.
Qed.

(** X24.  Every failure the advisor's gateway reports has status 500 and
    the detail [Internal server error].  In particular the status of a
    service that answers with something other than 200 is not passed on,
    and neither are the details [Error processing image] and
    [Error generating advice]; after such an answer of the image processor
    the message generator is not called. *)
Theorem advisor_gateway_failure_status (image_content : list byte)
    (context : option string) :
  (∀ status detail,
     analyze_image image_content context
     = AdvisorImageProcessor.HTTPException status detail →
     status = 500%Z ∧ detail = "Internal server error")
  ∧ (∀ response,
       post_files (IMAGE_PROCESSOR_URL +:+ "/process") image_content = Done response →
       reply_status response ≠ 200%Z →
       ∀ post_json',
         AdvisorGateway.analyze_image IMAGE_PROCESSOR_URL MESSAGE_GENERATOR_URL
           post_files post_json' validate_str validate_dict image_content context
         = AdvisorImageProcessor.HTTPException 500 "Internal server error")
  ∧ (∀ analyzer_text image_analysis message_response,
       post_files (IMAGE_PROCESSOR_URL +:+ "/process") image_content
       = Done (HttpReply 200 analyzer_text (Ok image_analysis)) →
       post_json (MESSAGE_GENERATOR_URL +:+ "/generate")
         (generator_payload image_analysis context)
       = Done message_response →
       reply_status message_response ≠ 200%Z →
       analyze_image image_content context
       = AdvisorImageProcessor.HTTPException 500 "Internal server error").
Proof.
  split; [|split].
  - intros status detail. unfold AdvisorGateway.analyze_image.
    destruct (forward image_content context) as [r|[msg|s d|e]];
      try discriminate; by intros [= <- <-].
  - intros response Hpost Hstatus%Z.eqb_neq post_json'.
    unfold AdvisorGateway.analyze_image, AdvisorGateway.forward.
    rewrite Hpost. cbn [and_then]. by rewrite Hstatus.
  - intros analyzer_text image_analysis message_response Hpost Hgen
      Hstatus%Z.eqb_neq.
    unfold AdvisorGateway.analyze_image.
    rewrite (forward_generator _ _ _ _ Hpost), Hgen. cbn [and_then].
    by rewrite Hstatus.
Qed.

(** X25.  When either call cannot reach its service (an
    [httpx.RequestError]) the gateway does not fail: it returns the fixed
    mock advice with the fixed mock analysis of a kitchen, whatever the
    image and the context are.  This also holds when the image processor
    has answered and only the message generator cannot be reached: the
    analysis received is not returned. *)
Theorem advisor_gateway_mock_on_request_error (image_content : list byte)
    (context : option string) (message : string) :
  (post_files (IMAGE_PROCESSOR_URL +:+ "/process") image_content
   = Failed (RequestError message)
   ∨ ∃ analyzer_text image_analysis,
       post_files (IMAGE_PROCESSOR_URL +:+ "/process") image_content
       = Done (HttpReply 200 analyzer_text (Ok image_analysis))
       ∧ post_json (MESSAGE_GENERATOR_URL +:+ "/generate")
           (generator_payload image_analysis context)
         = Failed (RequestError message)) →
  ∃ r,
    analyze_image image_content context = AdvisorImageProcessor.Returned r
    ∧ advice r = mock_advice
    ∧ JObj (image_analysis r) = mock_image_analysis.
Proof.
  intros [Hpost|(analyzer_text & ia & Hpost & Hgen)];
    unfold AdvisorGateway.analyze_image.
  - unfold AdvisorGateway.forward. rewrite Hpost. cbn [and_then].
    eexists. split; [reflexivity|]. split; reflexivity.
  - rewrite (forward_generator _ _ _ _ Hpost), Hgen. cbn [and_then].
    eexists. split; [reflexivity|]. split; reflexivity.
Qed.

(** X26.  When both services answer 200, the analysis is a JSON object and
    the generator's answer has a string under [advice], the gateway returns
    that advice with the analysis as received; the generator was sent the
    analysis and the context ([null] when there is none). *)
Theorem advisor_gateway_forwards (image_content : list byte) (context : option string)
    (analyzer_text generator_text advice_text : string)
    (analysis advice_data : gmap string json) :
  post_files (IMAGE_PROCESSOR_URL +:+ "/process") image_content
  = Done (HttpReply 200 analyzer_text (Ok (JObj analysis))) →
  post_json (MESSAGE_GENERATOR_URL +:+ "/generate")
    (generator_payload (JObj analysis) context)
  = Done (HttpReply 200 generator_text (Ok (JObj advice_data))) →
  advice_data !! "advice" = Some (JStr advice_text) →
  analyze_image image_content context
  = AdvisorImageProcessor.Returned (MkAdviceResponse advice_text analysis).
Proof.
  intros Hpost Hgen Hadvice. unfold AdvisorGateway.analyze_image.
  rewrite (forward_generator _ _ _ _ Hpost), Hgen.
  cbn [and_then reply_status reply_json Z.eqb Pos.eqb negb lift py_getitem].
  rewrite Hadvice. reflexivity.
Qed.

End AdvisorGatewayProperties.

Lemma advisor_gateway_failure_status_witness :
  AdvisorGateway.analyze_image "http://analyzer" "http://generator"
    (fun _ _ => AdvisorGateway.Done
                  (HttpReply 422 "unprocessable" (Raise (Exn ValueError "no json"))))
    (fun _ _ => AdvisorGateway.Failed (AdvisorGateway.RequestError "unreachable"))
    (fun _ => Ok "") (fun _ => Ok ∅) [] None
  = AdvisorImageProcessor.HTTPException 500 "Internal server error".
Proof.
  exact (proj1 (proj2 (advisor_gateway_failure_status "http://analyzer" "http://generator"
                         (fun _ _ => AdvisorGateway.Done
                                       (HttpReply 422 "unprocessable"
                                          (Raise (Exn ValueError "no json"))))
                         (fun _ _ => AdvisorGateway.Failed
                                       (AdvisorGateway.RequestError "unreachable"))
                         (fun _ => Ok "") (fun _ => Ok ∅) [] None))
           _ eq_refl ltac:(discriminate) _).
Defined.

Lemma advisor_gateway_mock_on_request_error_witness :
  ∃ r,
    AdvisorGateway.analyze_image "http://analyzer" "http://generator"
      (fun _ _ => AdvisorGateway.Done (HttpReply 200 "{}" (Ok (JObj ∅))))
      (fun _ _ => AdvisorGateway.Failed (AdvisorGateway.RequestError "unreachable"))
      (fun _ => Ok "") (fun _ => Ok ∅) [] None
    = AdvisorImageProcessor.Returned r
    ∧ AdvisorGateway.advice r = AdvisorGateway.mock_advice
    ∧ JObj (AdvisorGateway.image_analysis r) = AdvisorGateway.mock_image_analysis.
Proof.
  apply (advisor_gateway_mock_on_request_error "http://analyzer" "http://generator"
           (fun _ _ => AdvisorGateway.Done (HttpReply 200 "{}" (Ok (JObj ∅))))
           (fun _ _ => AdvisorGateway.Failed (AdvisorGateway.RequestError "unreachable"))
           (fun _ => Ok "") (fun _ => Ok ∅) [] None "unreachable").
  right. exists "{}", (JObj ∅). split; reflexivity.
Defined.

Lemma advisor_gateway_forwards_witness :
  AdvisorGateway.analyze_image "http://analyzer" "http://generator"
    (fun _ _ => AdvisorGateway.Done (HttpReply 200 "{}" (Ok (JObj ∅))))
    (fun _ _ => AdvisorGateway.Done
                  (HttpReply 200 "" (Ok (JObj {[ "advice" := JStr "dust weekly" ]}))))
    (fun _ => Ok "") (fun _ => Ok ∅) [] (Some "living room")
  = AdvisorImageProcessor.Returned (AdvisorGateway.MkAdviceResponse "dust weekly" ∅).
Proof.
  apply (advisor_gateway_forwards "http://analyzer" "http://generator"
           (fun _ _ => AdvisorGateway.Done (HttpReply 200 "{}" (Ok (JObj ∅))))
           (fun _ _ => AdvisorGateway.Done
                         (HttpReply 200 ""
                            (Ok (JObj {[ "advice" := JStr "dust weekly" ]}))))
           (fun _ => Ok "") (fun _ => Ok ∅) [] (Some "living room")
           "{}" "" "dust weekly" ∅ {[ "advice" := JStr "dust weekly" ]}).
  - reflexivity.
  - reflexivity.
  - vm_compute. reflexivity.
Defined.

(** ** Bodies that are not JSON objects *)

Section GatewayBodies.

Variable IMAGE_PROCESSOR_URL : string.
Variable MESSAGE_GENERATOR_URL : string.
Variable requests_post : string → json → result http_reply.
Variable str_repr : json → string.

#[local] Abbreviation api_gateway :=
  (Gateway.api_gateway IMAGE_PROCESSOR_URL MESSAGE_GENERATOR_URL requests_post str_repr).

(** [in] finds the word [scenario] in a body that is not a dict: as an
    element of a list, as a part of a string. *)
#[local] Abbreviation mentions_scenario body :=
  (match body with
   | JArr l => existsb (fun x => py_eq_str x "scenario") l
   | JStr s => contains "scenario" s
   | _ => false
   end).

(** X27.  A POST whose JSON body is not an object is never forwarded.  A
    falsy body (null, false, zero, the empty string or list) is answered
    with status 400 and [Request body is empty]; a list or a string in which
    [in] does not find [scenario] with status 400 and
    [Missing 'scenario' field in request]; any other body, such as a number
    or a list that has the string [scenario] among its elements, with status
    500, since reading a field of it raises. *)
Theorem api_gateway_body_not_object (request : flask_request) :
  method request = "POST" →
  (∀ m, get_json request ≠ JObj m) →
  let body := get_json request in
  let response := api_gateway request in
  (truthy body = false →
   status_code response = 400%Z
   ∧ data response
     = Json (JObj {[ "success" := JBool false;
                     "error" := JStr "Request body is empty" ]}))
  ∧ (truthy body = true →
     (∃ l, body = JArr l) ∨ (∃ s, body = JStr s) →
     mentions_scenario body = false →
     status_code response = 400%Z
     ∧ data response
       = Json (JObj {[ "success" := JBool false;
                       "error" := JStr "Missing 'scenario' field in request" ]}))
  ∧ (truthy body = true →
     ((∀ l, body ≠ JArr l) ∧ (∀ s, body ≠ JStr s)) ∨ mentions_scenario body = true →
     status_code response = 500%Z
     ∧ ∃ message,
         data response
         = Json (JObj {[ "success" := JBool false;
                         "error" := JStr ("Internal server error: " +:+ message) ]})).
Proof.
  intros Hm Hnd. cbv zeta.
  unfold Gateway.api_gateway, Gateway.handle_post, Gateway.validate_request.
  rewrite Hm. cbn [String.eqb Ascii.eqb Bool.eqb negb].
  split; [|split].
  - intros ->. cbn [negb bind]. split; reflexivity.
  - intros -> [[l Hl]|[s Hs]]; [rewrite Hl|rewrite Hs]; cbn [negb py_in bind];
      intros ->; cbn [negb bind]; split; reflexivity.
  - intros -> Hcase. cbn [negb].
    destruct (get_json request) as [|b|z|q|s|l|m] eqn:Hbody;
      try (cbn [py_in bind]; split; [reflexivity|by eexists]).
    + destruct Hcase as [[_ Hs]|Hmentions]; [by destruct (Hs s)|].
      cbn [py_in bind]. rewrite Hmentions. cbn [negb py_getitem bind].
      split; [reflexivity|by eexists].
    + destruct Hcase as [[Hl _]|Hmentions]; [by destruct (Hl l)|].
      cbn [py_in bind]. rewrite Hmentions. cbn [negb py_getitem bind].
      split; [reflexivity|by eexists].
    + by destruct (Hnd m).
Qed.

End GatewayBodies.

Lemma api_gateway_body_not_object_witness :
  let response :=
    Gateway.api_gateway "http://analyzer" "http://generator"
      (fun _ _ => Raise (Exn OtherException "never called")) (fun _ => "")
      (Request "POST" ∅ (JArr [JStr "scenario"; JStr "image_data"])) in
  status_code response = 500%Z
  ∧ ∃ message,
      data response
      = Json (JObj {[ "success" := JBool false;
                      "error" := JStr ("Internal server error: " +:+ message) ]}).
Proof.
  intros response.
  refine (proj2 (proj2 (api_gateway_body_not_object "http://analyzer"
                          "http://generator"
                          (fun _ _ => Raise (Exn OtherException "never called"))
                          (fun _ => "")
                          (Request "POST" ∅
                             (JArr [JStr "scenario"; JStr "image_data"]))
                          eq_refl _)) eq_refl _).
  - intros m. discriminate.
  - right. reflexivity.
Defined.

(** ** Instances *)

Lemma handle_cors_preserves_witness :
  headers (Gateway.handle_cors (Request "GET" ∅ JNull) (Plain (jsonify JNull)))
    !! "Content-Type"
  = headers (make_response (Plain (jsonify JNull))) !! "Content-Type".
Proof.
  refine (proj2 (proj2 (handle_cors_preserves (Request "GET" ∅ JNull)
                          (Plain (jsonify JNull)) "Content-Type" _))).
  intros H%list_elem_of_In. cbn [In] in H.
  destruct H as [H|[H|[H|[H|[]]]]]; discriminate H.
Defined.

Lemma upstream_call_outcome_witness :
  Gateway.call_image_processor "http://analyzer"
    (fun _ _ => Raise (Exn RequestException "connection refused")) (fun _ => "")
    (JStr "YQ==")
  = Ok (false, JObj ∅,
        Some "Error communicating with image processor: connection refused").
Proof.
  destruct (Gateway.call_image_processor "http://analyzer"
              (fun _ _ => Raise (Exn RequestException "connection refused"))
              (fun _ => "") (JStr "YQ=="))
    as [[[success result] error]|e] eqn:Hcall.
  - destruct (proj1 (proj1 (upstream_call_outcome "http://analyzer" "http://generator"
                              (fun _ _ => Raise (Exn RequestException
                                                   "connection refused"))
                              (fun _ => "") (JStr "YQ==") JNull JNull))
                _ _ _ Hcall) as [_ Hfail].
    vm_compute in Hcall. by injection Hcall as <- <- <-.
  - vm_compute in Hcall. discriminate Hcall.
Defined.

Lemma api_gateway_response_shape_witness :
  status_code
    (Gateway.api_gateway "" "" (fun _ _ => Raise (Exn OtherException "down"))
       (fun _ => "") (Request "OPTIONS" ∅ JNull))
  = 204%Z.
Proof.
  exact (proj1 (proj1 (proj2 (api_gateway_response_shape "" ""
                                (fun _ _ => Raise (Exn OtherException "down"))
                                (fun _ => "") (Request "OPTIONS" ∅ JNull)))
                  eq_refl)).
Defined.

Lemma api_gateway_forwards_witness :
  let requests_post (url : string) (payload : json) : result http_reply :=
    if String.eqb url "http://analyzer" then
      Ok (HttpReply 200 ""
            (Ok (JObj {[ "success" := JBool true;
                         "data" := JObj {[ "text" := JStr "basil" ]} ]})))
    else
      Ok (HttpReply 200 ""
            (Ok (JObj {[ "success" := JBool true; "advice" := JStr "water it" ]}))) in
  data (Gateway.api_gateway "http://analyzer" "http://generator" requests_post
          (fun _ => "")
          (Request "POST" ∅
             (JObj {[ "scenario" := JStr "plant"; "image_data" := JStr "YQ==" ]})))
  = Json (JObj {[ "success" := JBool true; "advice" := JStr "water it" ]}).
Proof.
  intros requests_post.
  refine (proj2 (api_gateway_forwards "http://analyzer" "http://generator" requests_post
                   (fun _ => "")
                   (Request "POST" ∅
                      (JObj {[ "scenario" := JStr "plant";
                               "image_data" := JStr "YQ==" ]}))
                   None (JStr "plant") (JStr "YQ==") "" ""
                   {[ "success" := JBool true;
                      "data" := JObj {[ "text" := JStr "basil" ]} ]}
                   {[ "success" := JBool true; "advice" := JStr "water it" ]}
                   _ _ eq_refl _ _ _ _ _ _ _)).
  all: try discriminate.
  all: vm_compute; reflexivity.
Defined.
